(** * ODIS2VCP: a shallow embedding of [ODIS2VCP.py] and its verification

    The script converts ODIS XML datasets to the VCP exchange format (or to a
    raw binary dump), optionally replacing the payload and recomputing the
    trailing CRC.  Python values are embedded as follows:

    - [bytes] is [list byte];
    - [str] is [string]; a character is a code point of the Latin-1 range
      (an [ascii]), which covers every literal of the script;
    - [int] is [Z];
    - an exception is a value of [exn], and a call that may raise returns a
      [result]; only the parser's error keeps its message;
    - log records are not part of the model.

    The built-ins and the library functions that the script calls ([str],
    [int], [re], [binascii], [crcmod], [xml.etree.ElementTree]) are embedded
    next to it, after CPython 3 and the Python sources of the packages; the
    XML parser, the path functions of [os] and the answers of the operating
    system to opening and writing a file are parameters. *)

From Stdlib Require Import ZArith NArith Bool List String Ascii Lia.
From Stdlib Require Import Strings.Byte.
Import ListNotations.

Local Open Scope string_scope.
Local Open Scope Z_scope.

Definition bytes : Type := list byte.

(** ** Exceptions *)

Inductive exn : Type :=
| ParseError (msg : string)   (* xml.etree.ElementTree.ParseError *)
| ValueError
| TypeError
| BinasciiError               (* binascii.Error, a subclass of ValueError *)
| OverflowError
| OSError                     (* IOError is a name of OSError *)
| UnicodeError.               (* UnicodeEncodeError and UnicodeDecodeError,
                                 subclasses of ValueError *)

Inductive result (A : Type) : Type :=
| Ok (a : A)
| Raise (e : exn).
Arguments Ok {A} a.
Arguments Raise {A} e.

Definition bind {A B : Type} (m : result A) (k : A -> result B) : result B :=
  match m with
  | Ok a => k a
  | Raise e => Raise e
  end.

Notation "x <- m ;; k" := (bind m (fun x => k))
  (at level 61, m at next level, right associativity).

(** ** Python string built-ins *)

Module Py.

(** Code point of a character. *)
Definition ord (c : ascii) : N := N_of_ascii c.

(** [s.replace(old, new)] for a non-empty [old]: one pass from the left,
    occurrences do not overlap.  [skip] counts the characters of a matched
    occurrence that are still to be passed over. *)
Fixpoint replace_from (old new : string) (skip : nat) (s : string) : string :=
  match s with
  | EmptyString => EmptyString
  | String c tl =>
      match skip with
      | S k => replace_from old new k tl
      | O =>
          if String.prefix old s
          then new ++ replace_from old new (String.length old - 1) tl
          else String c (replace_from old new 0 tl)
      end
  end.

Definition replace (s old new : string) : string := replace_from old new 0 s.

(** The characters matched by the pattern [\s] on a [str]: the Unicode
    white space of the range. *)
Definition isspace (c : ascii) : bool :=
  let n := ord c in
  ((9 <=? n) && (n <=? 13) || (28 <=? n) && (n <=? 32)
   || (n =? 133) || (n =? 160))%N.

(** [re.sub(r'\s', '', s)] *)
Fixpoint re_sub_space (s : string) : string :=
  match s with
  | EmptyString => EmptyString
  | String c tl =>
      if isspace c then re_sub_space tl else String c (re_sub_space tl)
  end.

(** [sep.join(l)] *)
Definition join (sep : string) (l : list string) : string :=
  String.concat sep l.

(** One lowercase hexadecimal digit. *)
Definition hex_char (d : N) : ascii :=
  if (d <? 10)%N then ascii_of_N (48 + d) else ascii_of_N (87 + d).

(** The digits of [n], least significant first; [fuel] bounds their
    number. *)
Fixpoint hex_digits_rev (fuel : nat) (n : N) : list ascii :=
  match fuel with
  | O => []
  | S f =>
      hex_char (n mod 16) ::
      (if (n / 16 =? 0)%N then [] else hex_digits_rev f (n / 16))
  end.

Definition hex_of_N (n : N) : string :=
  string_of_list_ascii (rev (hex_digits_rev (S (N.to_nat (N.log2 n))) n)).

(** [format(n, 'x')]: sign, then lowercase digits without leading zero. *)
Definition format_x (n : Z) : string :=
  if n <? 0 then "-" ++ hex_of_N (Z.abs_N n) else hex_of_N (Z.abs_N n).

(** [format(b, '02x')] of a byte value: exactly two digits. *)
Definition format_02x (b : byte) : string :=
  let n := Byte.to_N b in
  String (hex_char (n / 16)) (String (hex_char (n mod 16)) EmptyString).

(** [_PyLong_DigitValue]: the value of a digit in bases up to 36, and 37
    for every other character. *)
Definition digit_value (c : ascii) : N :=
  let n := ord c in
  (if (48 <=? n) && (n <=? 57) then n - 48
   else if (97 <=? n) && (n <=? 122) then n - 87
   else if (65 <=? n) && (n <=? 90) then n - 55
   else 37)%N.

(** The byte of value [n mod 256]. *)
Definition byte_of_N (n : N) : byte :=
  match Byte.of_N (n mod 256) with
  | Some b => b
  | None => x00
  end.

Definition is_ascii (s : string) : bool :=
  forallb (fun c => (ord c <? 128)%N) (list_ascii_of_string s).

(** *** [int(s, 16)] *)

(** The white space that [int] passes over at both ends of a literal:
    the C white space, and the two Latin-1 spaces that the conversion of a
    [str] first turns into blanks. *)
Definition int_space (c : ascii) : bool :=
  let n := ord c in
  ((9 <=? n) && (n <=? 13) || (n =? 32) || (n =? 133) || (n =? 160))%N.

Fixpoint skip_space (s : string) : string :=
  match s with
  | String c tl => if int_space c then skip_space tl else s
  | EmptyString => s
  end.

Definition is_underscore (c : ascii) : bool := (ord c =? 95)%N.

(** The digit loop: digits and single underscores; [prev] tells whether
    the last character read was an underscore, [acc] is the value so far
    and [seen] whether a character was read.  It gives the value, [seen],
    and the text after the last character read, or nothing for a doubled
    or trailing underscore. *)
Fixpoint scan_digits (s : string) (prev : bool) (acc : Z) (seen : bool)
  : option (Z * bool * string) :=
  match s with
  | String c tl =>
      if is_underscore c then
        if prev then None else scan_digits tl true acc true
      else if (digit_value c <? 16)%N then
        scan_digits tl false (acc * 16 + Z.of_N (digit_value c)) true
      else if prev then None else Some (acc, seen, s)
  | EmptyString => if prev then None else Some (acc, seen, s)
  end.

(** The sign of a literal and the text after it. *)
Definition read_sign (s : string) : Z * string :=
  match s with
  | String "+" tl => (1, tl)
  | String "-" tl => (-1, tl)
  | _ => (1, s)
  end.

(** The base prefix [0x] or [0X], with one underscore allowed after it. *)
Definition read_prefix (s : string) : string :=
  match s with
  | String "0" (String ("x" | "X") tl) =>
      match tl with
      | String "_" tl' => tl'
      | _ => tl
      end
  | _ => s
  end.

(** The parser of a literal; [None] is its one error exit. *)
Definition parse_int16 (s : string) : option Z :=
  let s := skip_space s in
  let '(sign, s) := read_sign s in
  let s := read_prefix s in
  match s with
  | String "_" _ => None
  | _ =>
      match scan_digits s false 0 false with
      | None => None
      | Some (_, false, _) => None
      | Some (v, true, rest) =>
          match skip_space rest with
          | EmptyString => Some (sign * v)
          | String _ _ => None
          end
      end
  end.

(** [int(s, 16)] *)
Definition int_base16 (s : string) : result Z :=
  match parse_int16 s with
  | Some v => Ok v
  | None => Raise ValueError
  end.

(** *** Other built-ins *)

(** [n.to_bytes(length, byteorder='little')] (unsigned). *)
Fixpoint le_bytes (length : nat) (n : N) : bytes :=
  match length with
  | O => []
  | S k => byte_of_N (n mod 256) :: le_bytes k (n / 256)
  end.

Definition to_bytes_little (n : Z) (length : nat) : result bytes :=
  if n <? 0 then Raise OverflowError
  else if 256 ^ Z.of_nat length <=? n then Raise OverflowError
  else Ok (le_bytes length (Z.to_N n)).

(** [int.from_bytes(b, byteorder='little')] *)
Fixpoint from_bytes_little (b : bytes) : Z :=
  match b with
  | [] => 0
  | x :: tl => Z.of_N (Byte.to_N x) + 256 * from_bytes_little tl
  end.

(** The slice [b[:-k]] for [k > 0]: everything but the last [k] items,
    and nothing when there are at most [k]. *)
Definition slice_to_neg {A : Type} (b : list A) (k : nat) : list A :=
  firstn (List.length b - k) b.

(** The slice [b[-k:]] for [k > 0]: the last [k] items, or all of them. *)
Definition slice_from_neg {A : Type} (b : list A) (k : nat) : list A :=
  skipn (List.length b - k) b.

(** [x or d] for an optional text [x]: [None] and the empty text are
    false. *)
Definition or_else (x : option string) (d : string) : string :=
  match x with
  | Some (String c tl) => String c tl
  | Some EmptyString => d
  | None => d
  end.

(** [bool(x)] of an optional text. *)
Definition truthy (x : option string) : bool :=
  match x with
  | Some (String _ _) => true
  | _ => false
  end.

End Py.

(** ** binascii *)

Module binascii.

(** The conversion loop: a pair of digits gives a byte; a character that
    is not a hexadecimal digit is an error. *)
Fixpoint a2b_pairs (s : string) : result bytes :=
  match s with
  | EmptyString => Ok []
  | String _ EmptyString => Raise BinasciiError
  | String a (String b tl) =>
      let top := Py.digit_value a in
      let bot := Py.digit_value b in
      if ((16 <=? top) || (16 <=? bot))%N
      then Raise BinasciiError
      else r <- a2b_pairs tl ;; Ok (Py.byte_of_N (top * 16 + bot) :: r)
  end.

(** [binascii.unhexlify(s)] on a [str] argument: a [ValueError] unless
    the text is ASCII, then a [binascii.Error] for an odd length or for a
    character that is not a digit. *)
Definition unhexlify (s : string) : result bytes :=
  if negb (Py.is_ascii s)
  then Raise ValueError
  else if Nat.odd (String.length s)
  then Raise BinasciiError
  else a2b_pairs s.

End binascii.

(** ** The hex codec of the script *)

(** [convert_to_binary(hex_string)]; [None] is the absent text of an XML
    element.  The [except binascii.Error] clause logs and re-raises. *)
Definition convert_to_binary (hex_string : option string) : result bytes :=
  match hex_string with
  | None => Ok []
  | Some hex_string =>
      let clean_string := Py.replace hex_string "0x" "" in
      let clean_string := Py.re_sub_space clean_string in
      let clean_string := Py.replace clean_string "," "" in
      match binascii.unhexlify clean_string with
      | Ok b => Ok b
      | Raise BinasciiError => Raise BinasciiError
      | Raise e => Raise e
      end
  end.

(** [','.join([f"0x{b:02x}" for b in data])], the text that
    [convert_dataset_to_vcp] stores in the [DATEN] element. *)
Definition hex_data (data : bytes) : string :=
  Py.join "," (map (fun b => "0x" ++ Py.format_02x b) data).

(** ** crcmod

    The third-party package [crcmod], after its pure Python implementation
    ([crcmod/crcmod.py] and [crcmod/_crcfunpy.py]).  A table is a Python
    list of 256 integers. *)

Module crcmod.

(** [_verifyPoly(poly)]: the degree of the polynomial, which must be one
    of the five supported register sizes. *)
Definition _verifyPoly (poly : Z) : result Z :=
  match find (fun n => (2 ^ n <=? poly) && (poly <? 2 ^ n * 2))
             [8; 16; 24; 32; 64] with
  | Some n => Ok n
  | None => Raise ValueError
  end.

(** [_verifyParams(poly, initCrc, xorOut)] *)
Definition _verifyParams (poly initCrc xorOut : Z) : result (Z * Z * Z) :=
  sizeBits <- _verifyPoly poly ;;
  let mask := Z.shiftl 1 sizeBits - 1 in
  Ok (sizeBits, Z.land initCrc mask, Z.land xorOut mask).

(** [_bitrev(x, n)]: the loop runs [n] times on the pair [(x, y)]. *)
Fixpoint _bitrev_loop (i : nat) (x y : Z) : Z :=
  match i with
  | O => y
  | S i' => _bitrev_loop i' (Z.shiftr x 1) (Z.lor (Z.shiftl y 1) (Z.land x 1))
  end.

Definition _bitrev (x n : Z) : Z := _bitrev_loop (Z.to_nat n) x 0.

(** One turn of the loop of [_bytecrc]. *)
Definition _bytecrc_step (poly mask crc : Z) : Z :=
  if Z.land crc mask =? 0 then Z.shiftl crc 1
  else Z.lxor (Z.shiftl crc 1) poly.

(** [_bytecrc(crc, poly, n)] *)
Definition _bytecrc (crc poly n : Z) : Z :=
  let mask := Z.shiftl 1 (n - 1) in
  let crc := Nat.iter 8 (_bytecrc_step poly mask) crc in
  let mask := Z.shiftl 1 n - 1 in
  Z.land crc mask.

(** One turn of the loop of [_bytecrc_r]. *)
Definition _bytecrc_r_step (poly crc : Z) : Z :=
  if Z.land crc 1 =? 0 then Z.shiftr crc 1
  else Z.lxor (Z.shiftr crc 1) poly.

(** [_bytecrc_r(crc, poly, n)] *)
Definition _bytecrc_r (crc poly n : Z) : Z :=
  let crc := Nat.iter 8 (_bytecrc_r_step poly) crc in
  let mask := Z.shiftl 1 n - 1 in
  Z.land crc mask.

(** [range(256)] *)
Definition range256 : list Z := map Z.of_nat (seq 0 256).

(** [_mkTable(poly, n)] *)
Definition _mkTable (poly n : Z) : list Z :=
  let mask := Z.shiftl 1 n - 1 in
  let poly := Z.land poly mask in
  map (fun i => _bytecrc (Z.shiftl i (n - 8)) poly n) range256.

(** [_mkTable_r(poly, n)] *)
Definition _mkTable_r (poly n : Z) : list Z :=
  let mask := Z.shiftl 1 n - 1 in
  let poly := _bitrev (Z.land poly mask) n in
  map (fun i => _bytecrc_r i poly n) range256.

(** [table[i]]; every index that the algorithms compute is the exclusive
    or of two values below 256, so it is within the table. *)
Definition getitem (table : list Z) (i : Z) : Z := nth (Z.to_nat i) table 0.

Definition byte_value (x : byte) : Z := Z.of_N (Byte.to_N x).

(** [_crc8], [_crc16], [_crc24], [_crc32] and [_crc64] are one algorithm
    at the register sizes [n] = 8, 16, 24, 32 and 64: the next table index
    comes from the top byte of the register. *)
Definition _crc (n : Z) (data : bytes) (crc : Z) (table : list Z) : Z :=
  let mask := Z.shiftl 1 n - 1 in
  let crc := Z.land crc mask in
  fold_left
    (fun crc x =>
       Z.lxor
         (getitem table
            (Z.lxor (byte_value x) (Z.land (Z.shiftr crc (n - 8)) 255)))
         (Z.land (Z.shiftl crc 8) (mask - 255)))
    data crc.

(** [_crc8r], [_crc16r], [_crc24r], [_crc32r] and [_crc64r]: the reflected
    algorithm, where the index comes from the low byte. *)
Definition _crc_r (n : Z) (data : bytes) (crc : Z) (table : list Z) : Z :=
  let mask := Z.shiftl 1 n - 1 in
  let crc := Z.land crc mask in
  fold_left
    (fun crc x =>
       Z.lxor
         (getitem table (Z.lxor (byte_value x) (Z.land crc 255)))
         (Z.shiftr crc 8))
    data crc.

(** [_mkCrcFun(poly, sizeBits, initCrc, rev, xorOut)]: the function
    [crcfun(data, crc=initCrc)], here at its default [crc]. *)
Definition _mkCrcFun (poly sizeBits initCrc : Z) (rev : bool) (xorOut : Z)
  : bytes -> Z :=
  let table := if rev then _mkTable_r poly sizeBits else _mkTable poly sizeBits in
  let _fun := if rev then _crc_r sizeBits else _crc sizeBits in
  if xorOut =? 0
  then fun data => _fun data initCrc table
  else fun data => Z.lxor xorOut (_fun data (Z.lxor xorOut initCrc) table).

(** [mkCrcFun(poly, initCrc=~0, rev=True, xorOut=0)] *)
Definition mkCrcFun (poly initCrc : Z) (rev : bool) (xorOut : Z)
  : result (bytes -> Z) :=
  p <- _verifyParams poly initCrc xorOut ;;
  let '(sizeBits, initCrc, xorOut) := p in
  Ok (_mkCrcFun poly sizeBits initCrc rev xorOut).

Definition default_rev : bool := true.

End crcmod.

(** ** Constants of the script *)

Definition CRC32_POLYNOMIAL : Z := 0x104c11db7.
Definition CRC32_INIT_VALUE : Z := 0.
Definition CRC32_XOR_OUT : Z := 0xFFFFFFFF.

(** ** Datasets *)

(** [class DatasetODIS]; the three optional fields are [None] after
    [__init__]. *)
Record DatasetODIS : Type := mkDatasetODIS {
  data : bytes;
  address : Z;
  start_address : Z;
  name : option string;
  version : option string;
  login : option string
}.

(** [DatasetODIS(data, address, start_address)] *)
Definition DatasetODIS_init (d : bytes) (a s : Z) : DatasetODIS :=
  mkDatasetODIS d a s None None None.

(** The assignment [dataset.data = d]. *)
Definition set_data (dataset : DatasetODIS) (d : bytes) : DatasetODIS :=
  mkDatasetODIS d (address dataset) (start_address dataset)
                (name dataset) (version dataset) (login dataset).

(** [class ConversionResult] *)
Record ConversionResult : Type := mkConversionResult {
  dataset : DatasetODIS;
  vcp : string
}.

(** The value of [crc32_func] in [update_crc]: the call
    [crcmod.mkCrcFun(CRC32_POLYNOMIAL, initCrc=CRC32_INIT_VALUE,
    xorOut=CRC32_XOR_OUT)], where [rev] is left at its default. *)
Definition crc32_func : result (bytes -> Z) :=
  crcmod.mkCrcFun CRC32_POLYNOMIAL CRC32_INIT_VALUE crcmod.default_rev
                  CRC32_XOR_OUT.

(** The function that this call returns: the register has 32 bits. *)
Definition crc32 : bytes -> Z :=
  crcmod._mkCrcFun CRC32_POLYNOMIAL 32 CRC32_INIT_VALUE crcmod.default_rev
                   CRC32_XOR_OUT.

(** [update_crc(dataset, new_data)].  The dataset is a mutable object: the
    function gives what it returns or raises together with the state in
    which it leaves the object. *)
Definition update_crc (dataset : DatasetODIS) (new_data : bytes)
  : result Z * DatasetODIS :=
  match crc32_func with
  | Raise e => (Raise e, dataset)
  | Ok crc32_fun =>
      let dataset := set_data dataset new_data in
      let base_data := Py.slice_to_neg (data dataset) 4 in
      let new_crc := crc32_fun base_data in
      match Py.to_bytes_little new_crc 4 with
      | Raise e => (Raise e, dataset)
      | Ok crc_bytes =>
          let dataset := set_data dataset (base_data ++ crc_bytes)%list in
          (Ok new_crc, dataset)
      end
  end.

(** ** xml.etree.ElementTree *)

Module ET.

(** An element: tag, attributes in document order, text before the first
    child, children, and text after the end tag. *)
#[warnings="-register-all"]
Inductive Element : Type :=
| mkElement (tag : string) (attrib : list (string * string))
            (text : option string) (children : list Element)
            (tail : option string).

Definition tag (e : Element) : string :=
  match e with mkElement t _ _ _ _ => t end.
Definition attrib (e : Element) : list (string * string) :=
  match e with mkElement _ a _ _ _ => a end.
Definition text (e : Element) : option string :=
  match e with mkElement _ _ x _ _ => x end.
Definition children (e : Element) : list Element :=
  match e with mkElement _ _ _ c _ => c end.
Definition tail (e : Element) : option string :=
  match e with mkElement _ _ _ _ t => t end.

(** [elem.get(key)]: the attribute, or [None]. *)
Fixpoint lookup (key : string) (a : list (string * string)) : option string :=
  match a with
  | [] => None
  | (k, v) :: tl => if String.eqb k key then Some v else lookup key tl
  end.

Definition get (e : Element) (key : string) : option string :=
  lookup key (attrib e).

(** [elem.get(key, default)] *)
Definition get_default (e : Element) (key default : string) : string :=
  match get e key with
  | Some v => v
  | None => default
  end.

(** [elem.iter(tag)]: the element itself and its descendants, in document
    order, that carry the tag. *)
Fixpoint iter (e : Element) (t : string) : list Element :=
  match e with
  | mkElement t' _ _ ch _ =>
      ((if String.eqb t' t then [e] else [])
         ++ flat_map (fun c => iter c t) ch)%list
  end.

(** An element with children and no text, as [Element(tag)] followed by
    [SubElement] calls builds it. *)
Definition node (t : string) (ch : list Element) : Element :=
  mkElement t [] None ch None.

(** [SubElement(parent, tag).text = s] *)
Definition leaf (t s : string) : Element :=
  mkElement t [] (Some s) [] None.

Definition quote : string := String (ascii_of_nat 34) EmptyString.
Definition cr : string := String (ascii_of_nat 13) EmptyString.
Definition lf : string := String (ascii_of_nat 10) EmptyString.
Definition tab : string := String (ascii_of_nat 9) EmptyString.

(** [_escape_cdata(text)]; a replacement of a character that does not
    occur changes nothing, as the guards of the source say. *)
Definition _escape_cdata (s : string) : string :=
  let s := Py.replace s "&" "&amp;" in
  let s := Py.replace s "<" "&lt;" in
  let s := Py.replace s ">" "&gt;" in
  s.

(** [_escape_attrib(text)] *)
Definition _escape_attrib (s : string) : string :=
  let s := Py.replace s "&" "&amp;" in
  let s := Py.replace s "<" "&lt;" in
  let s := Py.replace s ">" "&gt;" in
  let s := Py.replace s quote "&quot;" in
  let s := Py.replace s cr "&#13;" in
  let s := Py.replace s lf "&#10;" in
  let s := Py.replace s tab "&#09;" in
  s.

(** One attribute: a blank, the name, an equals sign and the escaped value
    between double quotes. *)
Definition write_attrib (kv : string * string) : string :=
  " " ++ fst kv ++ "=" ++ quote ++ _escape_attrib (snd kv) ++ quote.

(** [if text: write(_escape_cdata(text))] *)
Definition write_text (x : option string) : string :=
  match x with
  | Some (String c tl) => _escape_cdata (String c tl)
  | Some EmptyString | None => ""
  end.

(** [_serialize_xml] on elements whose tags carry no namespace, with
    [short_empty_elements=True]. *)
Fixpoint _serialize_xml (e : Element) : string :=
  match e with
  | mkElement t a x ch tl =>
      "<" ++ t ++ String.concat "" (map write_attrib a)
        ++ (if Py.truthy x || negb (Nat.eqb (List.length ch) 0)
            then ">" ++ write_text x
                     ++ String.concat "" (map _serialize_xml ch)
                     ++ "</" ++ t ++ ">"
            else " />")
        ++ write_text tl
  end.

(** [tostring(element, encoding="unicode")]: no XML declaration. *)
Definition tostring (e : Element) : string := _serialize_xml e.

(** [next(elem.iter(tag)).text]: the text of the first element with the
    tag, when there is one. *)
Definition field (e : Element) (t : string) : option string :=
  match iter e t with
  | f :: _ => text f
  | [] => None
  end.

End ET.

(** ** Serializing a dataset *)

(** The element tree that [convert_dataset_to_vcp] builds. *)
Definition vcp_tree (dataset : DatasetODIS) (input_name : string) : ET.Element :=
  let name :=
    Py.or_else (name dataset)
               (input_name ++ "-" ++ Py.format_x (address dataset)) in
  let ident :=
    ET.node "IDENT"
      [ ET.leaf "LOGIN" (Py.or_else (login dataset) "");
        ET.leaf "DATAIID" name;
        ET.leaf "VERSION-INHALT" (Py.or_else (version dataset) "") ] in
  let size := Z.of_nat (List.length (data dataset)) in
  let data_section :=
    ET.node "DATENBEREICH"
      [ ET.leaf "DATEN-NAME" name;
        ET.leaf "DATEN-FORMAT_NAME" "DFN_HEX";
        ET.leaf "START-ADR" ("0x" ++ Py.format_x (start_address dataset));
        ET.leaf "GROESSE-DEKOMPRIMIERT" ("0x" ++ Py.format_x size);
        ET.leaf "DATEN" (hex_data (data dataset)) ] in
  let datasets_section := ET.node "DATENBEREICHE" [data_section] in
  ET.node "SW-CNT" [ident; datasets_section].

(** [convert_dataset_to_vcp(dataset, input_name)] *)
Definition convert_dataset_to_vcp (dataset : DatasetODIS) (input_name : string)
  : ConversionResult :=
  let root := vcp_tree dataset input_name in
  let vcp_xml := ET.tostring root in
  mkConversionResult dataset vcp_xml.

(** [convert_to_vcp(datasets, input_name)] *)
Definition convert_to_vcp (datasets : list DatasetODIS) (input_name : string)
  : list ConversionResult :=
  map (fun dataset => convert_dataset_to_vcp dataset input_name) datasets.

(** ** Files *)

(** An open input file: its name and what [read()] gives, the content of
    the file or the exception that reading raises (an [OSError], or for a
    text file a [UnicodeDecodeError] when its bytes are not in the encoding
    of the file). *)
Record InFile (A : Type) : Type := mkInFile {
  fname : string;
  read : result A
}.
Arguments mkInFile {A} _ _.
Arguments fname {A} _.
Arguments read {A} _.

Inductive payload : Type :=
| Text (s : string)
| Binary (b : bytes).

Inductive file_mode : Type := TextMode | BinaryMode.

(** An open output file. *)
Record OutFile : Type := mkOutFile {
  out_name : string;
  out_mode : file_mode
}.

(** What a run does to the file system, oldest first: a file is opened
    for writing, which creates it, or empties it when it exists; a payload
    is written to an open file.  Only what has succeeded is listed: a file
    that is opened and not written is left empty. *)
Inductive file_event : Type :=
| Opened (f : string) (m : file_mode)
| Written (f : string) (p : payload).

Definition writes : Type := list file_event.

(** The answers of the operating system: the exception, if any, that
    opening a file for writing raises (an [OSError]), and the one that
    writing a payload of the kind of an open file and closing the file
    raises (an [OSError], or for a text a [UnicodeEncodeError] when the
    encoding of the file lacks one of its characters). *)
Record FileSystem : Type := mkFileSystem {
  open_error : string -> file_mode -> option exn;
  write_error : OutFile -> payload -> option exn
}.

(** The arguments as [parse_arguments] returns them: the input file and the
    file of [--modinput] are open for reading, and [output] is the value
    given to [--output], which [parse_arguments] has opened already. *)
Record Namespace : Type := mkNamespace {
  input : InFile string;
  output : option string;
  raw : bool;
  modinput : option (InFile bytes)
}.

(** [argparse.FileType('w')] on the value of [--output]: [-] is the
    standard output, and any other value names a file, which is opened as
    text. *)
Definition FileType_w (path : string) : OutFile * writes :=
  if String.eqb path "-" then (mkOutFile "<stdout>" TextMode, [])
  else (mkOutFile path TextMode, [Opened path TextMode]).

(** What [parse_arguments] has done to the file system when it returns. *)
Definition arguments_open (args : Namespace) : writes :=
  match output args with
  | Some path => snd (FileType_w path)
  | None => []
  end.

Section Pipeline.

(** [ET.fromstring]: the element tree of a document, or the error that
    the XML parser raises. *)
Variable fromstring : string -> result ET.Element.

(** [os.path.splitext(os.path.basename(path))[0]] *)
Variable stem : string -> string.

(** The file system that the script runs on. *)
Variable fs : FileSystem.

(** The body of the [try] of the parsing loop, for one entry. *)
Definition parse_entry (param : ET.Element) : result DatasetODIS :=
  let diag_addr_str := ET.get_default param "DIAGNOSTIC_ADDRESS" "0" in
  let start_addr_str := ET.get_default param "START_ADDRESS" "0" in
  d <- convert_to_binary (ET.text param) ;;
  a <- Py.int_base16 diag_addr_str ;;
  s <- Py.int_base16 start_addr_str ;;
  let dataset := DatasetODIS_init d a s in
  Ok (mkDatasetODIS (data dataset) (address dataset) (start_address dataset)
                    (ET.get param "ZDC_NAME")
                    (ET.get param "ZDC_VERSION")
                    (ET.get param "LOGIN")).

(** The loop over the entries: [except (ValueError, TypeError,
    binascii.Error)] goes on with the next entry, any other exception
    leaves the loop. *)
Fixpoint parse_loop (params : list ET.Element) (datasets : list DatasetODIS)
  : result (list DatasetODIS) :=
  match params with
  | [] => Ok datasets
  | param :: rest =>
      match parse_entry param with
      | Ok dataset => parse_loop rest (datasets ++ [dataset])%list
      | Raise (ValueError | TypeError | BinasciiError | UnicodeError) =>
          parse_loop rest datasets
      | Raise e => Raise e
      end
  end.

(** [parse_odis_file(xml_content)] *)
Definition parse_odis_file (xml_content : string) : result (list DatasetODIS) :=
  match fromstring xml_content with
  | Raise (ParseError m) => Raise (ParseError m)
  | Raise e => Raise e
  | Ok tree => parse_loop (ET.iter tree "PARAMETER_DATA") []
  end.

(** [args.output or open(filename, mode)]: a file object is true, so that
    [open] is called only when [--output] is absent. *)
Definition output_or_open (args : Namespace) (filename : string) (m : file_mode)
  : result OutFile * writes :=
  match output args with
  | Some path => (Ok (fst (FileType_w path)), [])
  | None =>
      match open_error fs filename m with
      | None => (Ok (mkOutFile filename m), [Opened filename m])
      | Some e => (Raise e, [])
      end
  end.

(** [output.write(p)] and the end of the [with] block: a file opened as
    text refuses [bytes] and a binary one refuses [str], with a
    [TypeError]; otherwise the operating system decides. *)
Definition write (output : OutFile) (p : payload) : result unit * writes :=
  match out_mode output, p with
  | TextMode, Text _ | BinaryMode, Binary _ =>
      match write_error fs output p with
      | None => (Ok tt, [Written (out_name output) p])
      | Some e => (Raise e, [])
      end
  | _, _ => (Raise TypeError, [])
  end.

(** [output = ...] followed by [with output: output.write(p)] *)
Definition with_output (opened : result OutFile * writes) (p : payload)
  : result unit * writes :=
  match opened with
  | (Ok output, w) =>
      let '(r, w') := write output p in (r, (w ++ w')%list)
  | (Raise e, w) => (Raise e, w)
  end.

(** [export_output(converted, args, input_name, new_crc)]; the handler of
    [IOError] raises the exception again. *)
Definition export_output (converted : list ConversionResult)
           (args : Namespace) (input_name : string) (new_crc : option Z)
  : result unit * writes :=
  match converted with
  | [] => (Ok tt, [])
  | first :: _ =>
      if raw args then
        let output_filename := "RAW_" ++ input_name ++ ".bin" in
        let output := output_or_open args output_filename BinaryMode in
        with_output output (Binary (data (dataset first)))
      else
        match modinput args with
        | Some m =>
            let modinput_name := stem (fname m) in
            let output_filename :=
              "VCP_mod_" ++ input_name ++ "_by_" ++ modinput_name ++ ".xml" in
            let output := output_or_open args output_filename TextMode in
            with_output output (Text (vcp first))
        | None =>
            let output_filename := "VCP_converted_" ++ input_name ++ ".xml" in
            let output := output_or_open args output_filename TextMode in
            with_output output (Text (vcp first))
        end
  end.

(** The update step of [main]: [update_crc(datasets[0], new_data)] when
    [--modinput] is given, on the list of dataset objects. *)
Definition update_step (args : Namespace) (datasets : list DatasetODIS)
  : result (option Z) * list DatasetODIS :=
  match modinput args, datasets with
  | Some m, first :: rest =>
      match read m with
      | Raise e => (Raise e, datasets)
      | Ok new_data =>
          let '(r, first') := update_crc first new_data in
          match r with
          | Ok new_crc => (Ok (Some new_crc), first' :: rest)
          | Raise e => (Raise e, first' :: rest)
          end
      end
  | _, _ => (Ok None, datasets)
  end.

(** [main()] from the return of [parse_arguments] on: the exit status and
    what the run has done to the file system, the opening of the file of
    [--output] by [parse_arguments] included.  Every exception ends in
    [sys.exit(1)]. *)
Definition main (args : Namespace) : Z * writes :=
  let opened := arguments_open args in
  match read (input args) with
  | Raise _ => (1, opened)
  | Ok xml_content =>
      match parse_odis_file xml_content with
      | Raise _ => (1, opened)
      | Ok [] => (0, opened)
      | Ok datasets =>
          let input_name := stem (fname (input args)) in
          match update_step args datasets with
          | (Raise _, _) => (1, opened)
          | (Ok new_crc, datasets) =>
              let converted := convert_to_vcp datasets input_name in
              match export_output converted args input_name new_crc with
              | (Ok _, w) => (0, (opened ++ w)%list)
              | (Raise _, w) => (1, (opened ++ w)%list)
              end
          end
      end
  end.

End Pipeline.

(** ** The parameterised CRC, bit by bit

    The reference against which the table-driven functions of [crcmod] are
    compared: the usual model of a CRC by its width, polynomial (without
    the leading bit), initial register, reflection of the input bytes and of
    the final register, and final exclusive or. *)

Module CrcModel.

(** The low [w] bits of [x] in reverse order: the lowest bit goes to the
    top, above the reflection of the others. *)
Fixpoint reflect (w : nat) (x : Z) : Z :=
  match w with
  | O => 0
  | S w' =>
      Z.lor (Z.shiftl (Z.b2z (Z.testbit x 0)) (Z.of_nat w'))
            (reflect w' (Z.shiftr x 1))
  end.

(** One shift of the register, most significant bit first. *)
Definition step (w : nat) (poly reg : Z) : Z :=
  let shifted := Z.land (Z.shiftl reg 1) (Z.ones (Z.of_nat w)) in
  if Z.testbit reg (Z.of_nat w - 1) then Z.lxor shifted poly else shifted.

(** Feeding one byte into the top of the register. *)
Definition feed (w : nat) (poly : Z) (refin : bool) (reg : Z) (x : byte) : Z :=
  let b := crcmod.byte_value x in
  let b := if refin then reflect 8 b else b in
  Nat.iter 8 (step w poly) (Z.lxor reg (Z.shiftl b (Z.of_nat w - 8))).

Definition crc (w : nat) (poly init : Z) (refin refout : bool) (xorout : Z)
           (data : bytes) : Z :=
  let reg := fold_left (feed w poly refin) data init in
  let reg := if refout then reflect w reg else reg in
  Z.lxor reg xorout.

(** One shift of the reflected register, least significant bit first,
    with the polynomial in reverse bit order. *)
Definition step_r (poly_r reg : Z) : Z :=
  if Z.testbit reg 0 then Z.lxor (Z.shiftr reg 1) poly_r else Z.shiftr reg 1.

Definition feed_r (poly_r reg : Z) (x : byte) : Z :=
  Nat.iter 8 (step_r poly_r) (Z.lxor reg (crcmod.byte_value x)).

(** The polynomial [0x04c11db7] in reverse bit order. *)
Definition poly32_r : Z := reflect 32 0x04c11db7.

(** The reflected CRC of 32 bits written without reflections: the bits
    are read from the low end of each byte and of the register. *)
Definition crc32_lsb_first (data : bytes) : Z :=
  Z.lxor (fold_left (feed_r poly32_r) data 0xFFFFFFFF) 0xFFFFFFFF.

(** The CRC that the specification describes: not reflected, polynomial
    [0x04c11db7], initial register 0, final exclusive or [0xFFFFFFFF]. *)
Definition crc32_not_reflected_init0 : bytes -> Z :=
  crc 32 0x04c11db7 0 false false 0xFFFFFFFF.

(** The same polynomial and final exclusive or, reflected, with the
    register set to all ones at the start (CRC-32 of ISO-HDLC, zlib). *)
Definition crc32_reflected : bytes -> Z :=
  crc 32 0x04c11db7 0xFFFFFFFF true true 0xFFFFFFFF.

End CrcModel.

(** The digits of the bytes with nothing in between: what is left of
    [hex_data] once the prefixes and the commas are removed. *)
Definition hex_pairs (data : bytes) : string :=
  fold_right (fun b s => Py.format_02x b ++ s) "" data.

(** ** Sample values *)

(** The ASCII text [123456789]. *)
Definition check_input : bytes := [x31; x32; x33; x34; x35; x36; x37; x38; x39].

Definition sample_dataset : DatasetODIS :=
  mkDatasetODIS [x01; x02; x03; x04] 0x12 0x100 None None None.

(** ** The entries that parse *)

(** The dataset of an entry whose payload and addresses parse, and nothing
    for any other entry. *)
Definition entry_dataset (param : ET.Element) : option DatasetODIS :=
  match convert_to_binary (ET.text param),
        Py.int_base16 (ET.get_default param "DIAGNOSTIC_ADDRESS" "0"),
        Py.int_base16 (ET.get_default param "START_ADDRESS" "0") with
  | Ok d, Ok a, Ok s =>
      Some (mkDatasetODIS d a s (ET.get param "ZDC_NAME")
                          (ET.get param "ZDC_VERSION") (ET.get param "LOGIN"))
  | _, _, _ => None
  end.

(** The datasets of the entries of a document that parse, in document
    order. *)
Definition parsed_entries (tree : ET.Element) : list DatasetODIS :=
  flat_map (fun p => match entry_dataset p with Some d => [d] | None => [] end)
           (ET.iter tree "PARAMETER_DATA").

(** The name that the specification asks for: the name of the dataset when
    it is present, even empty, and the fallback when it is absent. *)
Definition name_if_present (ds : DatasetODIS) (input_name : string) : string :=
  match name ds with
  | Some n => n
  | None => input_name ++ "-" ++ Py.format_x (address ds)
  end.

(** The name that the serializer writes: the name of the dataset when it is
    present and not empty, and the fallback otherwise. *)
Definition resolved_name (ds : DatasetODIS) (input_name : string) : string :=
  match name ds with
  | Some (String c n) => String c n
  | Some EmptyString | None => input_name ++ "-" ++ Py.format_x (address ds)
  end.

(** The text of an element without attributes and children whose text is
    [s]. *)
Definition leaf_xml (t s : string) : string :=
  match s with
  | EmptyString => "<" ++ t ++ " />"
  | String _ _ => "<" ++ t ++ ">" ++ ET._escape_cdata s ++ "</" ++ t ++ ">"
  end.

(** ** Hexadecimal numerals *)

Definition lower_hex_digit (c : ascii) : bool :=
  let n := Py.ord c in
  ((48 <=? n) && (n <=? 57) || (97 <=? n) && (n <=? 102))%N.

(** [s] writes [n] in lowercase hexadecimal digits, most significant first,
    with no sign, no prefix and no leading zero. *)
Definition is_lower_hex (s : string) (n : N) : Prop :=
  let l := list_ascii_of_string s in
  l <> []
  /\ forallb lower_hex_digit l = true
  /\ (hd "0"%char l = "0"%char -> l = ["0"%char])
  /\ fold_left (fun a c => (a * 16 + Py.digit_value c)%N) l 0%N = n.

(** A text in which [_escape_cdata] has nothing to escape. *)
Definition plain_char (c : ascii) : bool :=
  negb (Ascii.eqb c "&") && negb (Ascii.eqb c "<") && negb (Ascii.eqb c ">").

Definition plain (s : string) : bool :=
  forallb plain_char (list_ascii_of_string s).

(** ** Sample documents *)

Definition sample_entry : ET.Element :=
  ET.mkElement "PARAMETER_DATA"
    [("DIAGNOSTIC_ADDRESS", "0x12"); ("START_ADDRESS", "0x100")]
    (Some "0x01,0x02,0x03,0x04") [] None.

Definition bad_hex_entry : ET.Element :=
  ET.mkElement "PARAMETER_DATA"
    [("DIAGNOSTIC_ADDRESS", "0x13"); ("START_ADDRESS", "0x200")]
    (Some "0xZZ") [] None.

Definition second_entry : ET.Element :=
  ET.mkElement "PARAMETER_DATA"
    [("DIAGNOSTIC_ADDRESS", "0x13"); ("START_ADDRESS", "0x200");
     ("ZDC_NAME", "second")]
    (Some "0xaa,0xbb,0xcc,0xdd,0xee") [] None.

Definition second_dataset : DatasetODIS :=
  mkDatasetODIS [xaa; xbb; xcc; xdd; xee] 0x13 0x200 (Some "second") None None.

(** One entry. *)
Definition sample_document : string :=
  "<ODIS><PARAMETER_DATA DIAGNOSTIC_ADDRESS='0x12' START_ADDRESS='0x100'>0x01,0x02,0x03,0x04</PARAMETER_DATA></ODIS>".
Definition sample_tree : ET.Element :=
  ET.mkElement "ODIS" [] None [sample_entry] None.

(** One entry that parses and one whose payload is not hexadecimal. *)
Definition mixed_document : string :=
  "<ODIS><PARAMETER_DATA DIAGNOSTIC_ADDRESS='0x12' START_ADDRESS='0x100'>0x01,0x02,0x03,0x04</PARAMETER_DATA><PARAMETER_DATA DIAGNOSTIC_ADDRESS='0x13' START_ADDRESS='0x200'>0xZZ</PARAMETER_DATA></ODIS>".
Definition mixed_tree : ET.Element :=
  ET.mkElement "ODIS" [] None [sample_entry; bad_hex_entry] None.

(** Two entries that parse. *)
Definition pair_document : string :=
  "<ODIS><PARAMETER_DATA DIAGNOSTIC_ADDRESS='0x12' START_ADDRESS='0x100'>0x01,0x02,0x03,0x04</PARAMETER_DATA><PARAMETER_DATA DIAGNOSTIC_ADDRESS='0x13' START_ADDRESS='0x200' ZDC_NAME='second'>0xaa,0xbb,0xcc,0xdd,0xee</PARAMETER_DATA></ODIS>".
Definition pair_tree : ET.Element :=
  ET.mkElement "ODIS" [] None [sample_entry; second_entry] None.

(** A text that is not XML. *)
Definition malformed_document : string := "not xml".

(** An excerpt of [ET.fromstring]: what the parser answers on the four
    documents above.  It is applied to these documents only; any other text
    gets the answer of the empty document. *)
Definition sample_fromstring (xml_content : string) : result ET.Element :=
  if String.eqb xml_content sample_document then Ok sample_tree
  else if String.eqb xml_content mixed_document then Ok mixed_tree
  else if String.eqb xml_content pair_document then Ok pair_tree
  else if String.eqb xml_content malformed_document
  then Raise (ParseError "syntax error: line 1, column 0")
  else Raise (ParseError "no element found: line 1, column 0").

(** An excerpt of [os.path.splitext(os.path.basename(path))[0]], for the
    two file names of the sample command line. *)
Definition sample_stem (path : string) : string :=
  if String.eqb path "sample.xml" then "sample"
  else if String.eqb path "mod.bin" then "mod"
  else path.

(** A replacement payload of six bytes, and one that is shorter than the
    checksum footer. *)
Definition replacement_payload : bytes := [x10; x20; x30; x40; x50; x60].
Definition short_payload : bytes := [x01; x02; x03].

(** An entry with the attribute [ZDC_NAME=''], and its dataset, whose name
    is present and empty. *)
Definition empty_name_entry : ET.Element :=
  ET.mkElement "PARAMETER_DATA"
    [("DIAGNOSTIC_ADDRESS", "0x12"); ("ZDC_NAME", "")] (Some "0x01") [] None.

Definition empty_name_dataset : DatasetODIS :=
  mkDatasetODIS [x01] 0x12 0 (Some "") None None.

(** A dataset with a negative address and start, no payload, and texts
    that need escaping. *)
Definition escaped_dataset : DatasetODIS :=
  mkDatasetODIS [] (-18) (-256) (Some "a<b&c>d") (Some "") (Some "l&").

(** The command line [sample.xml --modinput mod.bin], with or without
    [--raw]. *)
Definition sample_args (r : bool) : Namespace :=
  mkNamespace (mkInFile "sample.xml" (Ok pair_document)) None r
              (Some (mkInFile "mod.bin" (Ok replacement_payload))).

(** The command line [sample.xml --raw --modinput mod.bin --output out.bin]. *)
Definition raw_output_args : Namespace :=
  mkNamespace (mkInFile "sample.xml" (Ok pair_document)) (Some "out.bin") true
              (Some (mkInFile "mod.bin" (Ok replacement_payload))).

(** A file system that accepts every request, and one that opens every
    file and refuses every write, as a full disk does. *)
Definition sample_fs : FileSystem :=
  mkFileSystem (fun _ _ => None) (fun _ _ => None).
Definition full_fs : FileSystem :=
  mkFileSystem (fun _ _ => None) (fun _ _ => Some OSError).

(** ** Texts that the decoder accepts *)

(** The value of [clean_string] when [convert_to_binary] calls
    [unhexlify]. *)
Definition clean_string (hex_string : string) : string :=
  let clean_string := Py.replace hex_string "0x" "" in
  let clean_string := Py.re_sub_space clean_string in
  Py.replace clean_string "," "".

(** A hexadecimal digit of either case. *)
Definition is_hex_digit (c : ascii) : bool := (Py.digit_value c <? 16)%N.

(** The noise between two bytes: white space or a comma. *)
Definition is_noise_char (c : ascii) : bool := Py.isspace c || Ascii.eqb c ",".

Definition is_noise (s : string) : bool :=
  forallb is_noise_char (list_ascii_of_string s).

(** One byte of a hex text: noise, then the two digits, after the prefix
    [0x] or without it. *)
Record hex_item : Type := mkHexItem {
  item_noise : string;
  item_prefix : bool;
  item_hi : ascii;
  item_lo : ascii
}.

Definition item_ok (it : hex_item) : bool :=
  is_noise (item_noise it) && is_hex_digit (item_hi it)
  && is_hex_digit (item_lo it).

Definition item_digits (it : hex_item) : string :=
  String (item_hi it) (String (item_lo it) "").

Definition item_text (it : hex_item) : string :=
  item_noise it ++ (if item_prefix it then "0x" else "") ++ item_digits it.

Definition item_byte (it : hex_item) : byte :=
  Py.byte_of_N (Py.digit_value (item_hi it) * 16 + Py.digit_value (item_lo it)).

(** The items one after the other, and noise at the end. *)
Definition noisy_text (items : list hex_item) (trail : string) : string :=
  fold_right (fun it s => item_text it ++ s) trail items.

(** The text [ ,0x41,4A] followed by a tabulation, [0x00] and a blank. *)
Definition noisy_items : list hex_item :=
  [ mkHexItem " ," true "4" "1";
    mkHexItem "," false "4" "A";
    mkHexItem (String (ascii_of_nat 9) "") true "0" "0" ].

(** What [unhexlify] asks of the cleaned text: an even number of
    characters, hexadecimal digits all. *)
Definition well_formed_hex (clean : string) : bool :=
  Nat.even (String.length clean)
  && forallb is_hex_digit (list_ascii_of_string clean).

(** Whether a text starts with the letter [x]. *)
Definition starts_x (s : string) : bool :=
  match s with
  | String c _ => Ascii.eqb c "x"
  | EmptyString => false
  end.

(** ** Markup characters and command lines *)

(** The number of occurrences of a character in a text. *)
Definition count_char (c : ascii) (s : string) : nat :=
  List.length (filter (Ascii.eqb c) (list_ascii_of_string s)).

(** The tags of an element without children: a start tag and an end tag
    when it has a text, and one empty-element tag when it has none. *)
Definition tags_of (has_text : bool) : nat := if has_text then 2%nat else 1%nat.

(** The command line [sample.xml], with or without [--output] and
    [--raw], and no [--modinput]. *)
Definition plain_args (o : option string) (r : bool) : Namespace :=
  mkNamespace (mkInFile "sample.xml" (Ok pair_document)) o r None.

(** ** What a run exports *)

(** The file that [export_output] opens when [--output] is absent. *)
Definition default_output (stem : string -> string) (args : Namespace)
  : OutFile :=
  let input_name := stem (fname (input args)) in
  if raw args then mkOutFile ("RAW_" ++ input_name ++ ".bin") BinaryMode
  else match modinput args with
       | Some m =>
           mkOutFile ("VCP_mod_" ++ input_name ++ "_by_" ++ stem (fname m)
                        ++ ".xml") TextMode
       | None => mkOutFile ("VCP_converted_" ++ input_name ++ ".xml") TextMode
       end.

(** What [--modinput] gives: nothing when it is absent, and otherwise the
    content of its file or the exception that reading it raises. *)
Definition replacement (args : Namespace) : result (option bytes) :=
  match modinput args with
  | Some m =>
      match read m with
      | Ok new_data => Ok (Some new_data)
      | Raise e => Raise e
      end
  | None => Ok None
  end.

(** The first dataset after the update step. *)
Definition updated_first (new_data : option bytes) (d : DatasetODIS)
  : DatasetODIS :=
  match new_data with
  | Some b => snd (update_crc d b)
  | None => d
  end.


(** * Properties *)

Example format_x_18 : Py.format_x 18 = "12". Proof. reflexivity. Qed.
Example format_x_256 : Py.format_x 256 = "100". Proof. reflexivity. Qed.
Example format_x_0 : Py.format_x 0 = "0". Proof. reflexivity. Qed.
Example format_x_neg : Py.format_x (-18) = "-12". Proof. reflexivity. Qed.
Example format_x_big : Py.format_x 0xdeadbeef = "deadbeef". Proof. reflexivity. Qed.
Example replace_overlap : Py.replace "00xx" "0x" "" = "0x". Proof. reflexivity. Qed.
Example hex_data_sample : hex_data [x0a; xff] = "0x0a,0xff".
Proof. reflexivity. Qed.
Example decode_noise :
  convert_to_binary (Some " 0x0A, ff
  0x10 ") = Ok [x0a; xff; x10].
Proof. reflexivity. Qed.
Example decode_odd : convert_to_binary (Some "0x1") = Raise BinasciiError.
Proof. reflexivity. Qed.
Example decode_not_hex : convert_to_binary (Some "0xZZ") = Raise BinasciiError.
Proof. reflexivity. Qed.
Example decode_absent : convert_to_binary None = Ok [].
Proof. reflexivity. Qed.

Example int_base16_accepts :
  map Py.int_base16
      ["0x12"; "0X1f"; "-0x12"; "+12"; " 12 "; "1_2"; "0x_1"; "0"; "1_2_3"]
  = [Ok 18; Ok 31; Ok (-18); Ok 18; Ok 18; Ok 18; Ok 1; Ok 0; Ok 291].
Proof. reflexivity. Qed.

Example int_base16_rejects :
  map Py.int_base16
      [""; "0x"; "-"; "_1"; "1_"; "1__2"; "0x__1"; "0_x1"; "+-1"; "- 1";
       "0x 1"; "0x-1"; "0x0x1"; "x1"; "12g"]
  = repeat (Raise ValueError) 15.
Proof. reflexivity. Qed.

(** ** Strings *)

Lemma replace_from_keep old new c tl :
  String.prefix old (String c tl) = false ->
  Py.replace_from old new 0 (String c tl)
  = String c (Py.replace_from old new 0 tl).
Proof. intros H. cbn [Py.replace_from]. rewrite H. reflexivity. Qed.

Lemma join_cons2 sep (x y : string) r :
  Py.join sep (x :: y :: r) = x ++ sep ++ Py.join sep (y :: r).
Proof. reflexivity. Qed.

(** ** Hexadecimal digits *)

Lemma nibble_cases (d : N) :
  (d < 16)%N ->
  In d [0; 1; 2; 3; 4; 5; 6; 7; 8; 9; 10; 11; 12; 13; 14; 15]%N.
Proof.
  intros H.
  destruct d as [|p]; [left; reflexivity|].
  do 4 (destruct p as [p|p|]; try lia; cbn; try tauto).
Qed.

Lemma hex_char_facts (d : N) :
  (d < 16)%N ->
  Py.digit_value (Py.hex_char d) = d
  /\ Py.hex_char d <> "x"%char
  /\ Py.hex_char d <> ","%char
  /\ Py.isspace (Py.hex_char d) = false
  /\ (Py.ord (Py.hex_char d) <? 128)%N = true.
Proof.
  intros H. apply nibble_cases in H. cbn [In] in H.
  repeat (destruct H as [<- | H]; [repeat split; (reflexivity || discriminate)|]).
  destruct H.
Qed.

Lemma byte_nibbles (b : byte) :
  (Byte.to_N b / 16 < 16)%N /\ (Byte.to_N b mod 16 < 16)%N.
Proof.
  pose proof (Byte.to_N_bounded b) as H. split.
  - apply N.Div0.div_lt_upper_bound. lia.
  - apply N.mod_lt. discriminate.
Qed.

Lemma format_02x_chars (b : byte) :
  exists h1 h2,
    Py.format_02x b = String h1 (String h2 "")
    /\ h1 = Py.hex_char (Byte.to_N b / 16)
    /\ h2 = Py.hex_char (Byte.to_N b mod 16).
Proof. eexists _, _. repeat split. Qed.

(** ** The three cleaning passes on the canonical text *)

(** The two digits [h1] and [h2] of a byte, with what the passes need to
    know of them. *)
Ltac hex_digits_of b :=
  destruct (format_02x_chars b) as (h1 & h2 & E & E1 & E2);
  destruct (byte_nibbles b) as [B1 B2];
  destruct (hex_char_facts _ B1) as (D1 & X1 & C1 & S1 & A1);
  destruct (hex_char_facts _ B2) as (D2 & X2 & C2 & S2 & A2);
  rewrite <- E1 in D1, X1, C1, S1, A1;
  rewrite <- E2 in D2, X2, C2, S2, A2.

(** The text of a list with at least two bytes, cut after the first. *)
Ltac split_join f b tl :=
  change (Py.join "," (map f (b :: tl)))
    with (f b ++ "," ++ Py.join "," (map f tl));
  cbv beta.

Lemma prefix_0x_second c1 c2 r :
  c2 <> "x"%char -> String.prefix "0x" (String c1 (String c2 r)) = false.
Proof.
  intros H. cbn [String.prefix].
  destruct (ascii_dec "0" c1); [|reflexivity].
  destruct (ascii_dec "x" c2); [congruence | reflexivity].
Qed.

Lemma prefix_0x_last c : String.prefix "0x" (String c "") = false.
Proof. cbn [String.prefix]. destruct (ascii_dec "0" c); reflexivity. Qed.

Lemma prefix_comma_other c r :
  c <> ","%char -> String.prefix "," (String c r) = false.
Proof.
  intros H. cbn [String.prefix].
  destruct (ascii_dec "," c); [congruence | reflexivity].
Qed.

Lemma replace_0x_here s :
  Py.replace_from "0x" "" 0 (String "0" (String "x" s))
  = Py.replace_from "0x" "" 0 s.
Proof. destruct s; reflexivity. Qed.

Lemma replace_comma_here s :
  Py.replace_from "," "" 0 (String "," s) = Py.replace_from "," "" 0 s.
Proof. destruct s; reflexivity. Qed.

(** First pass: the prefixes go. *)
Lemma strip_0x_hex_data (bs : bytes) :
  Py.replace (hex_data bs) "0x" "" = Py.join "," (map Py.format_02x bs).
Proof.
  unfold Py.replace, hex_data.
  induction bs as [|b bs IH]; [reflexivity|].
  hex_digits_of b.
  destruct bs as [|b' r].
  - cbn [map Py.join String.concat]. rewrite E. cbn [append].
    rewrite replace_0x_here.
    rewrite (replace_from_keep "0x" "" h1) by (apply prefix_0x_second, X2).
    rewrite (replace_from_keep "0x" "" h2) by apply prefix_0x_last.
    reflexivity.
  - set (tl := b' :: r) in *.
    split_join (fun x => "0x" ++ Py.format_02x x) b tl.
    split_join Py.format_02x b tl.
    rewrite E. cbn [append].
    rewrite replace_0x_here.
    rewrite (replace_from_keep "0x" "" h1) by (apply prefix_0x_second, X2).
    rewrite (replace_from_keep "0x" "" h2)
      by (apply prefix_0x_second; discriminate).
    rewrite (replace_from_keep "0x" "" ",") by reflexivity.
    do 3 f_equal. exact IH.
Qed.

(** Second pass: there is no white space to remove. *)
Lemma no_space_digits (bs : bytes) :
  Py.re_sub_space (Py.join "," (map Py.format_02x bs))
  = Py.join "," (map Py.format_02x bs).
Proof.
  induction bs as [|b bs IH]; [reflexivity|].
  hex_digits_of b.
  destruct bs as [|b' r].
  - cbn [map Py.join String.concat]. rewrite E.
    cbn [Py.re_sub_space]. rewrite S1, S2. reflexivity.
  - set (tl := b' :: r) in *.
    split_join Py.format_02x b tl.
    rewrite E. cbn [append Py.re_sub_space]. rewrite S1, S2.
    change (Py.isspace ",") with false. cbv iota.
    rewrite IH. reflexivity.
Qed.

(** Third pass: the commas go. *)
Lemma strip_commas (bs : bytes) :
  Py.replace (Py.join "," (map Py.format_02x bs)) "," "" = hex_pairs bs.
Proof.
  unfold Py.replace.
  induction bs as [|b bs IH]; [reflexivity|].
  hex_digits_of b.
  cbn [hex_pairs fold_right]. fold (hex_pairs bs).
  destruct bs as [|b' r].
  - cbn [map Py.join String.concat]. rewrite E. cbn [append].
    rewrite (replace_from_keep "," "" h1), (replace_from_keep "," "" h2)
      by (apply prefix_comma_other; assumption).
    reflexivity.
  - set (tl := b' :: r) in *.
    split_join Py.format_02x b tl.
    rewrite E. cbn [append].
    rewrite (replace_from_keep "," "" h1), (replace_from_keep "," "" h2)
      by (apply prefix_comma_other; assumption).
    rewrite replace_comma_here, IH. reflexivity.
Qed.

(** ** Decoding the digits *)

Lemma byte_of_nibbles (b : byte) :
  Py.byte_of_N (Byte.to_N b / 16 * 16 + Byte.to_N b mod 16) = b.
Proof.
  unfold Py.byte_of_N.
  replace (Byte.to_N b / 16 * 16 + Byte.to_N b mod 16)%N with (Byte.to_N b)
    by (rewrite N.mul_comm; apply N.div_mod; discriminate).
  rewrite N.mod_small by (pose proof (Byte.to_N_bounded b); lia).
  rewrite Byte.of_to_N. reflexivity.
Qed.

Lemma a2b_pairs_hex_pairs (bs : bytes) :
  binascii.a2b_pairs (hex_pairs bs) = Ok bs.
Proof.
  induction bs as [|b bs IH]; [reflexivity|].
  hex_digits_of b.
  cbn [hex_pairs fold_right]. fold (hex_pairs bs).
  rewrite E. cbn [append binascii.a2b_pairs].
  rewrite D1, D2.
  replace (16 <=? Byte.to_N b / 16)%N with false
    by (symmetry; apply N.leb_gt; lia).
  replace (16 <=? Byte.to_N b mod 16)%N with false
    by (symmetry; apply N.leb_gt; lia).
  cbn [orb]. rewrite IH. cbn [bind]. rewrite byte_of_nibbles. reflexivity.
Qed.

Lemma is_ascii_hex_pairs (bs : bytes) : Py.is_ascii (hex_pairs bs) = true.
Proof.
  unfold Py.is_ascii.
  induction bs as [|b bs IH]; [reflexivity|].
  hex_digits_of b.
  cbn [hex_pairs fold_right]. fold (hex_pairs bs).
  rewrite E. cbn [append list_ascii_of_string forallb].
  rewrite A1, A2, IH. reflexivity.
Qed.

Lemma even_length_hex_pairs (bs : bytes) :
  Nat.odd (String.length (hex_pairs bs)) = false.
Proof.
  induction bs as [|b bs IH]; [reflexivity|].
  cbn [hex_pairs fold_right]. fold (hex_pairs bs).
  unfold Py.format_02x. cbn [append String.length].
  rewrite Nat.odd_succ_succ. exact IH.
Qed.

Lemma unhexlify_hex_pairs (bs : bytes) :
  binascii.unhexlify (hex_pairs bs) = Ok bs.
Proof.
  unfold binascii.unhexlify.
  rewrite is_ascii_hex_pairs, even_length_hex_pairs. cbn [negb].
  apply a2b_pairs_hex_pairs.
Qed.

(** ** The hex codec *)

(** What the three passes leave of the canonical text. *)
Lemma clean_hex_data (b : bytes) :
  Py.replace (Py.re_sub_space (Py.replace (hex_data b) "0x" "")) "," ""
  = hex_pairs b.
Proof. rewrite strip_0x_hex_data, no_space_digits. apply strip_commas. Qed.

(** C1: decoding the canonical encoding of a byte sequence gives the
    sequence back: [convert_to_binary] applied to the comma-separated,
    [0x]-prefixed, two-digit lowercase text that the serializer writes is
    the original sequence, the empty one included. *)
Theorem convert_to_binary_hex_data (b : bytes) :
  convert_to_binary (Some (hex_data b)) = Ok b
  /\ convert_to_binary (Some (hex_data [])) = Ok [].
Proof.
  split; [|reflexivity].
  unfold convert_to_binary. cbv zeta.
  rewrite clean_hex_data.
  unfold binascii.unhexlify.
  rewrite is_ascii_hex_pairs, even_length_hex_pairs. cbn [negb].
  rewrite a2b_pairs_hex_pairs. reflexivity.
Qed.

(** ** Bits *)

Lemma lxor_range (n a b : Z) :
  0 <= n -> 0 <= a < 2 ^ n -> 0 <= b < 2 ^ n -> 0 <= Z.lxor a b < 2 ^ n.
Proof.
  intros Hn Ha Hb.
  assert (H0 : 0 <= Z.lxor a b) by (apply Z.lxor_nonneg; lia).
  split; [exact H0|].
  destruct (Z.eq_dec (Z.lxor a b) 0) as [E|E].
  - rewrite E. apply Z.pow_pos_nonneg; lia.
  - assert (Hpos : 0 < n).
    { destruct (Z.eq_dec n 0) as [->|]; [|lia].
      change (2 ^ 0) with 1 in *.
      assert (a = 0) by lia. assert (b = 0) by lia. subst.
      contradiction E. reflexivity. }
    apply Z.log2_lt_pow2; [lia|].
    eapply Z.le_lt_trans; [apply Z.log2_lxor; lia|].
    apply Z.max_lub_lt.
    + destruct (Z.eq_dec a 0) as [->|]; [cbn; lia|].
      apply Z.log2_lt_pow2; lia.
    + destruct (Z.eq_dec b 0) as [->|]; [cbn; lia|].
      apply Z.log2_lt_pow2; lia.
Qed.

Lemma shiftr_range (n k a : Z) :
  0 <= k -> 0 <= a < 2 ^ n -> 0 <= Z.shiftr a k < 2 ^ n.
Proof.
  intros Hk Ha. rewrite Z.shiftr_div_pow2 by lia.
  assert (Hp : 0 < 2 ^ k) by (apply Z.pow_pos_nonneg; lia).
  generalize dependent (2 ^ k). intros p Hp.
  split.
  - apply Z.div_pos; lia.
  - apply Z.le_lt_trans with a; [|lia].
    apply Z.div_le_upper_bound; [lia|]. nia.
Qed.

Lemma byte_value_range (x : byte) : 0 <= crcmod.byte_value x < 256.
Proof.
  unfold crcmod.byte_value. pose proof (Byte.to_N_bounded x). lia.
Qed.

Lemma land_255_range (a : Z) : 0 <= Z.land a 255 < 256.
Proof.
  change 255 with (Z.ones 8). rewrite Z.land_ones by lia.
  apply Z.mod_pos_bound. lia.
Qed.

Lemma split_low_byte (a : Z) :
  a = Z.lxor (Z.land a 255) (Z.shiftl (Z.shiftr a 8) 8).
Proof.
  apply Z.bits_inj'. intros n Hn.
  rewrite Z.lxor_spec, Z.land_spec. change 255 with (Z.ones 8).
  destruct (Z.ltb_spec n 8).
  - rewrite Z.ones_spec_low, Z.shiftl_spec_low by lia.
    rewrite andb_true_r, xorb_false_r. reflexivity.
  - rewrite Z.ones_spec_high, Z.shiftl_spec, Z.shiftr_spec by lia.
    rewrite andb_false_r, xorb_false_l. f_equal. lia.
Qed.

(** ** The reflected table algorithm, bit by bit *)

Lemma poly32_r_value : CrcModel.poly32_r = 0xEDB88320.
Proof. reflexivity. Qed.

Lemma bitrev_poly :
  crcmod._bitrev (Z.land CRC32_POLYNOMIAL (Z.shiftl 1 32 - 1)) 32
  = CrcModel.poly32_r.
Proof. reflexivity. Qed.

Lemma bytecrc_r_step_eq (P c : Z) :
  crcmod._bytecrc_r_step P c = CrcModel.step_r P c.
Proof.
  unfold crcmod._bytecrc_r_step, CrcModel.step_r.
  change 1 with (Z.ones 1) at 1. rewrite Z.land_ones by lia.
  change (2 ^ 1) with 2. rewrite <- Z.bit0_mod.
  destruct (Z.testbit c 0); reflexivity.
Qed.

Lemma step_r_range (P c : Z) :
  0 <= P < 2 ^ 32 -> 0 <= c < 2 ^ 32 -> 0 <= CrcModel.step_r P c < 2 ^ 32.
Proof.
  intros HP Hc. unfold CrcModel.step_r.
  pose proof (shiftr_range 32 1 c ltac:(lia) Hc).
  destruct (Z.testbit c 0); [apply lxor_range; lia | assumption].
Qed.

Lemma iter_step_r_range (P : Z) (n : nat) (c : Z) :
  0 <= P < 2 ^ 32 -> 0 <= c < 2 ^ 32 ->
  0 <= Nat.iter n (CrcModel.step_r P) c < 2 ^ 32.
Proof.
  intros HP Hc. induction n as [|n IH]; [exact Hc|].
  rewrite Nat.iter_succ. apply step_r_range; assumption.
Qed.

Lemma lxor_swap (a b p : Z) :
  Z.lxor (Z.lxor a b) p = Z.lxor (Z.lxor a p) b.
Proof. rewrite !Z.lxor_assoc. f_equal. apply Z.lxor_comm. Qed.

Lemma step_r_lxor (P a b : Z) :
  CrcModel.step_r P (Z.lxor a b)
  = Z.lxor (CrcModel.step_r P a) (CrcModel.step_r P b).
Proof.
  unfold CrcModel.step_r. rewrite Z.lxor_spec, Z.shiftr_lxor.
  destruct (Z.testbit a 0), (Z.testbit b 0); cbn [xorb].
  - rewrite (lxor_swap (Z.shiftr a 1) P), Z.lxor_assoc, Z.lxor_assoc.
    rewrite Z.lxor_nilpotent, Z.lxor_0_r. reflexivity.
  - apply lxor_swap.
  - rewrite Z.lxor_assoc. reflexivity.
  - reflexivity.
Qed.

Lemma iter_step_r_lxor (P : Z) (n : nat) (a b : Z) :
  Nat.iter n (CrcModel.step_r P) (Z.lxor a b)
  = Z.lxor (Nat.iter n (CrcModel.step_r P) a)
           (Nat.iter n (CrcModel.step_r P) b).
Proof.
  induction n as [|n IH]; [reflexivity|].
  rewrite !Nat.iter_succ, IH. apply step_r_lxor.
Qed.

Lemma step_r_shiftl (P h k : Z) :
  0 <= k -> CrcModel.step_r P (Z.shiftl h (k + 1)) = Z.shiftl h k.
Proof.
  intros Hk. unfold CrcModel.step_r.
  rewrite Z.shiftl_spec_low by lia.
  rewrite Z.shiftr_shiftl_l by lia. f_equal. lia.
Qed.

Lemma iter_step_r_shiftl (P h : Z) (n : nat) (k : Z) :
  0 <= k ->
  Nat.iter n (CrcModel.step_r P) (Z.shiftl h (Z.of_nat n + k)) = Z.shiftl h k.
Proof.
  revert k. induction n as [|n IH]; intros k Hk.
  - reflexivity.
  - rewrite Nat.iter_succ.
    replace (Z.of_nat (S n) + k) with (Z.of_nat n + (k + 1)) by lia.
    rewrite IH by lia. apply step_r_shiftl, Hk.
Qed.

(** Eight shifts of a register are a look-up with its low byte and a shift
    of the rest. *)
Lemma feed_r_split (P c : Z) (x : byte) :
  CrcModel.feed_r P c x
  = Z.lxor (Nat.iter 8 (CrcModel.step_r P)
              (Z.lxor (crcmod.byte_value x) (Z.land c 255)))
           (Z.shiftr c 8).
Proof.
  unfold CrcModel.feed_r.
  rewrite (split_low_byte c) at 1.
  rewrite (lxor_swap (Z.land c 255)), (Z.lxor_comm (Z.land c 255)).
  rewrite iter_step_r_lxor. f_equal.
  change 8 with (Z.of_nat 8 + 0) at 2.
  rewrite iter_step_r_shiftl by lia.
  apply Z.shiftl_0_r.
Qed.

Lemma range256_nth (f : Z -> Z) (i : Z) :
  0 <= i < 256 -> crcmod.getitem (map f crcmod.range256) i = f i.
Proof.
  intros Hi. unfold crcmod.getitem, crcmod.range256.
  rewrite (nth_indep _ 0 (f 0)) by (rewrite !length_map, length_seq; lia).
  rewrite map_nth.
  rewrite (nth_indep _ 0 (Z.of_nat 0)) by (rewrite length_map, length_seq; lia).
  rewrite map_nth, seq_nth by lia. f_equal. lia.
Qed.

Lemma bytecrc_r_iter (P i : Z) :
  0 <= P < 2 ^ 32 -> 0 <= i < 2 ^ 32 ->
  crcmod._bytecrc_r i P 32 = Nat.iter 8 (CrcModel.step_r P) i.
Proof.
  intros HP Hi. unfold crcmod._bytecrc_r.
  assert (E : forall n, Nat.iter n (crcmod._bytecrc_r_step P) i
                        = Nat.iter n (CrcModel.step_r P) i).
  { induction n as [|n IH]; [reflexivity|].
    rewrite !Nat.iter_succ, IH. apply bytecrc_r_step_eq. }
  rewrite E. change (Z.shiftl 1 32 - 1) with (Z.ones 32).
  rewrite Z.land_ones by lia. apply Z.mod_small.
  apply iter_step_r_range; assumption.
Qed.

Lemma mkTable_r_entry (i : Z) :
  0 <= i < 256 ->
  crcmod.getitem (crcmod._mkTable_r CRC32_POLYNOMIAL 32) i
  = Nat.iter 8 (CrcModel.step_r CrcModel.poly32_r) i.
Proof.
  intros Hi. unfold crcmod._mkTable_r. rewrite bitrev_poly.
  rewrite range256_nth by assumption.
  apply bytecrc_r_iter; [rewrite poly32_r_value|]; lia.
Qed.

Lemma feed_r_range (P c : Z) (x : byte) :
  0 <= P < 2 ^ 32 -> 0 <= c < 2 ^ 32 -> 0 <= CrcModel.feed_r P c x < 2 ^ 32.
Proof.
  intros HP Hc. unfold CrcModel.feed_r.
  apply iter_step_r_range; [assumption|].
  apply lxor_range; [lia | assumption |].
  pose proof (byte_value_range x). lia.
Qed.

Lemma fold_feed_r_range (P : Z) (l : bytes) (c : Z) :
  0 <= P < 2 ^ 32 -> 0 <= c < 2 ^ 32 ->
  0 <= fold_left (CrcModel.feed_r P) l c < 2 ^ 32.
Proof.
  intros HP. revert c. induction l as [|x l IH]; intros c Hc; [exact Hc|].
  cbn [fold_left]. apply IH, feed_r_range; assumption.
Qed.

Lemma poly32_r_range : 0 <= CrcModel.poly32_r < 2 ^ 32.
Proof. rewrite poly32_r_value. lia. Qed.

(** One turn of the loop of [_crc32r] on the table of the script. *)
Lemma crc_r_turn (c : Z) (x : byte) :
  Z.lxor
    (crcmod.getitem (crcmod._mkTable_r CRC32_POLYNOMIAL 32)
       (Z.lxor (crcmod.byte_value x) (Z.land c 255)))
    (Z.shiftr c 8)
  = CrcModel.feed_r CrcModel.poly32_r c x.
Proof.
  rewrite feed_r_split, mkTable_r_entry; [reflexivity|].
  change 256 with (2 ^ 8).
  apply lxor_range; [lia | apply byte_value_range | apply land_255_range].
Qed.

Lemma crc_r_loop (l : bytes) (c : Z) :
  fold_left
    (fun crc x =>
       Z.lxor
         (crcmod.getitem (crcmod._mkTable_r CRC32_POLYNOMIAL 32)
            (Z.lxor (crcmod.byte_value x) (Z.land crc 255)))
         (Z.shiftr crc 8))
    l c
  = fold_left (CrcModel.feed_r CrcModel.poly32_r) l c.
Proof.
  revert c. induction l as [|x l IH]; intros c; [reflexivity|].
  cbn [fold_left]. rewrite crc_r_turn. apply IH.
Qed.

(** The function that [mkCrcFun] builds for the script is the reflected
    CRC of 32 bits computed one bit at a time. *)
Lemma crc32_lsb_first_eq (l : bytes) : crc32 l = CrcModel.crc32_lsb_first l.
Proof.
  unfold crc32, crcmod._mkCrcFun, crcmod.default_rev, crcmod._crc_r.
  change (CRC32_XOR_OUT =? 0) with false. cbv iota beta.
  change (Z.land (Z.lxor CRC32_XOR_OUT CRC32_INIT_VALUE) (Z.shiftl 1 32 - 1))
    with 0xFFFFFFFF.
  rewrite crc_r_loop. apply Z.lxor_comm.
Qed.

Lemma crc32_func_ok : crc32_func = Ok crc32.
Proof. reflexivity. Qed.

Lemma crc32_range (l : bytes) : 0 <= crc32 l < 2 ^ 32.
Proof.
  rewrite crc32_lsb_first_eq. unfold CrcModel.crc32_lsb_first.
  apply lxor_range; [lia | | lia].
  apply fold_feed_r_range; [apply poly32_r_range | lia].
Qed.

Lemma crc32_empty : crc32 [] = 0.
Proof. reflexivity. Qed.

(** ** Reflection *)

Lemma testbit_shiftl_b2z (b : bool) (k j : Z) :
  0 <= k -> Z.testbit (Z.shiftl (Z.b2z b) k) j = b && (k =? j).
Proof.
  intros Hk. destruct b; cbn [Z.b2z andb].
  - rewrite Z.shiftl_1_l. apply Z.pow2_bits_eqb, Hk.
  - rewrite Z.shiftl_0_l. apply Z.bits_0.
Qed.

(** Bit [j] of the reflection on [w] bits is bit [w - 1 - j]. *)
Lemma reflect_spec (w : nat) (x j : Z) :
  0 <= j ->
  Z.testbit (CrcModel.reflect w x) j
  = (j <? Z.of_nat w) && Z.testbit x (Z.of_nat w - 1 - j).
Proof.
  revert x. induction w as [|w IH]; intros x Hj.
  - cbn [CrcModel.reflect]. rewrite Z.bits_0.
    destruct (Z.ltb_spec j (Z.of_nat 0)); [lia | reflexivity].
  - cbn [CrcModel.reflect].
    rewrite Z.lor_spec, testbit_shiftl_b2z, IH by lia.
    destruct (Z.ltb_spec j (Z.of_nat w)) as [L|L]; cbn [andb].
    + rewrite Z.shiftr_spec by lia.
      destruct (Z.eqb_spec (Z.of_nat w) j); [lia|].
      destruct (Z.ltb_spec j (Z.of_nat (S w))); [|lia].
      rewrite andb_false_r. cbn [orb andb]. f_equal. lia.
    + rewrite orb_false_r.
      destruct (Z.eqb_spec (Z.of_nat w) j) as [E|E].
      * subst j. destruct (Z.ltb_spec (Z.of_nat w) (Z.of_nat (S w))); [|lia].
        rewrite andb_true_r. cbn [andb]. f_equal. lia.
      * destruct (Z.ltb_spec j (Z.of_nat (S w))); [lia|].
        apply andb_false_r.
Qed.

Lemma high_bits_zero (n a j : Z) :
  0 <= a < 2 ^ n -> n <= j -> Z.testbit a j = false.
Proof.
  intros Ha Hj.
  destruct (Z.ltb_spec n 0) as [Hn|Hn].
  - rewrite Z.pow_neg_r in Ha by lia. lia.
  - rewrite <- (Z.mod_small a (2 ^ n)) by lia.
    apply Z.mod_pow2_bits_high. lia.
Qed.

Lemma reflect_lxor (w : nat) (a b : Z) :
  CrcModel.reflect w (Z.lxor a b)
  = Z.lxor (CrcModel.reflect w a) (CrcModel.reflect w b).
Proof.
  apply Z.bits_inj'. intros j Hj.
  rewrite Z.lxor_spec, !reflect_spec, Z.lxor_spec by lia.
  destruct (j <? Z.of_nat w); reflexivity.
Qed.

Lemma reflect_range (w : nat) (x : Z) : 0 <= CrcModel.reflect w x < 2 ^ Z.of_nat w.
Proof.
  assert (H0 : 0 <= CrcModel.reflect w x).
  { apply Z.bits_iff_nonneg_ex. exists (Z.of_nat w). intros m Hm.
    rewrite reflect_spec by lia.
    destruct (Z.ltb_spec m (Z.of_nat w)); [lia | reflexivity]. }
  split; [exact H0|].
  destruct (Z.eq_dec (CrcModel.reflect w x) 0) as [E|E].
  - rewrite E. apply Z.pow_pos_nonneg; lia.
  - apply Z.log2_lt_pow2; [lia|].
    destruct (Z.ltb_spec (Z.log2 (CrcModel.reflect w x)) (Z.of_nat w)) as [L|L];
      [exact L|].
    assert (B : Z.testbit (CrcModel.reflect w x)
                          (Z.log2 (CrcModel.reflect w x)) = true)
      by (apply Z.bit_log2; lia).
    rewrite reflect_spec in B by (apply Z.log2_nonneg).
    destruct (Z.ltb_spec (Z.log2 (CrcModel.reflect w x)) (Z.of_nat w));
      [lia | discriminate].
Qed.

Lemma reflect_shift (w : nat) (r : Z) :
  CrcModel.reflect w (Z.land (Z.shiftl r 1) (Z.ones (Z.of_nat w)))
  = Z.shiftr (CrcModel.reflect w r) 1.
Proof.
  apply Z.bits_inj'. intros j Hj.
  rewrite Z.shiftr_spec, !reflect_spec by lia.
  destruct (Z.ltb_spec j (Z.of_nat w)) as [L|L]; cbn [andb].
  - rewrite Z.land_spec, Z.ones_spec_low, andb_true_r by lia.
    rewrite Z.shiftl_spec by lia.
    destruct (Z.ltb_spec (j + 1) (Z.of_nat w)); cbn [andb].
    + f_equal. lia.
    + apply Z.testbit_neg_r. lia.
  - destruct (Z.ltb_spec (j + 1) (Z.of_nat w)); [lia | reflexivity].
Qed.

(** A shift of the register from the top is a shift of its reflection from
    the bottom. *)
Lemma step_reflect (w : nat) (poly r : Z) :
  (0 < w)%nat ->
  CrcModel.reflect w (CrcModel.step w poly r)
  = CrcModel.step_r (CrcModel.reflect w poly) (CrcModel.reflect w r).
Proof.
  intros Hw. unfold CrcModel.step, CrcModel.step_r.
  rewrite (reflect_spec w r 0) by lia.
  destruct (Z.ltb_spec 0 (Z.of_nat w)); [|lia]. cbn [andb].
  replace (Z.of_nat w - 1 - 0) with (Z.of_nat w - 1) by lia.
  destruct (Z.testbit r (Z.of_nat w - 1)).
  - rewrite reflect_lxor, reflect_shift. reflexivity.
  - apply reflect_shift.
Qed.

Lemma iter_step_reflect (w : nat) (poly : Z) (n : nat) (r : Z) :
  (0 < w)%nat ->
  CrcModel.reflect w (Nat.iter n (CrcModel.step w poly) r)
  = Nat.iter n (CrcModel.step_r (CrcModel.reflect w poly)) (CrcModel.reflect w r).
Proof.
  intros Hw. induction n as [|n IH]; [reflexivity|].
  rewrite !Nat.iter_succ, step_reflect, IH by assumption. reflexivity.
Qed.

Lemma reflect_top_byte (w : nat) (b : Z) :
  (8 <= w)%nat -> 0 <= b < 256 ->
  CrcModel.reflect w (Z.shiftl (CrcModel.reflect 8 b) (Z.of_nat w - 8)) = b.
Proof.
  intros Hw Hb. apply Z.bits_inj'. intros j Hj.
  rewrite reflect_spec by lia.
  destruct (Z.ltb_spec j 8) as [L|L].
  - destruct (Z.ltb_spec j (Z.of_nat w)); [|lia]. cbn [andb].
    rewrite Z.shiftl_spec, reflect_spec by lia.
    change (Z.of_nat 8) with 8.
    destruct (Z.ltb_spec (Z.of_nat w - 1 - j - (Z.of_nat w - 8)) 8); [|lia].
    cbn [andb]. f_equal. lia.
  - rewrite (high_bits_zero 8 b j) by (change (2 ^ 8) with 256; lia).
    destruct (Z.ltb_spec j (Z.of_nat w)); [|reflexivity]. cbn [andb].
    rewrite Z.shiftl_spec by lia.
    apply Z.testbit_neg_r. lia.
Qed.

Lemma feed_reflect (w : nat) (poly reg : Z) (x : byte) :
  (8 <= w)%nat ->
  CrcModel.reflect w (CrcModel.feed w poly true reg x)
  = CrcModel.feed_r (CrcModel.reflect w poly) (CrcModel.reflect w reg) x.
Proof.
  intros Hw. unfold CrcModel.feed, CrcModel.feed_r.
  rewrite iter_step_reflect, reflect_lxor by lia.
  rewrite reflect_top_byte by (assumption || apply byte_value_range).
  reflexivity.
Qed.

Lemma fold_feed_reflect (w : nat) (poly : Z) (l : bytes) (reg : Z) :
  (8 <= w)%nat ->
  CrcModel.reflect w (fold_left (CrcModel.feed w poly true) l reg)
  = fold_left (CrcModel.feed_r (CrcModel.reflect w poly)) l
              (CrcModel.reflect w reg).
Proof.
  intros Hw. revert reg. induction l as [|x l IH]; intros reg; [reflexivity|].
  cbn [fold_left]. rewrite IH, feed_reflect by assumption. reflexivity.
Qed.

(** The CRC with reflected input and output is the one that reads the bits
    from the low end, with the reflected polynomial. *)
Lemma crc32_reflected_lsb_first (l : bytes) :
  CrcModel.crc32_reflected l = CrcModel.crc32_lsb_first l.
Proof.
  unfold CrcModel.crc32_reflected, CrcModel.crc, CrcModel.crc32_lsb_first.
  rewrite fold_feed_reflect by lia. reflexivity.
Qed.

(** ** Little-endian bytes *)

Lemma to_N_byte_of_N (n : N) : Byte.to_N (Py.byte_of_N n) = (n mod 256)%N.
Proof.
  unfold Py.byte_of_N.
  destruct (Byte.of_N (n mod 256)) as [b|] eqn:E.
  - apply Byte.to_of_N, E.
  - apply Byte.of_N_None_iff in E.
    pose proof (N.mod_lt n 256 ltac:(discriminate)). lia.
Qed.

Lemma length_le_bytes (k : nat) (n : N) : List.length (Py.le_bytes k n) = k.
Proof.
  revert n. induction k as [|k IH]; intros n; [reflexivity|].
  cbn [Py.le_bytes List.length]. rewrite IH. reflexivity.
Qed.

Lemma from_bytes_le_bytes (k : nat) (n : N) :
  Py.from_bytes_little (Py.le_bytes k n) = Z.of_N (n mod 256 ^ N.of_nat k).
Proof.
  revert n. induction k as [|k IH]; intros n.
  - cbn [Py.le_bytes Py.from_bytes_little]. change (N.of_nat 0) with 0%N.
    rewrite N.pow_0_r, N.mod_1_r. reflexivity.
  - cbn [Py.le_bytes Py.from_bytes_little].
    rewrite IH, to_N_byte_of_N.
    replace (256 ^ N.of_nat (S k))%N with (256 * 256 ^ N.of_nat k)%N
      by (rewrite Nat2N.inj_succ, N.pow_succ_r'; reflexivity).
    rewrite N.Div0.mod_mod, N.Div0.mod_mul_r, N2Z.inj_add, N2Z.inj_mul.
    reflexivity.
Qed.

Lemma from_bytes_le_bytes_4 (n : Z) :
  0 <= n < 2 ^ 32 -> Py.from_bytes_little (Py.le_bytes 4 (Z.to_N n)) = n.
Proof.
  intros Hn. rewrite from_bytes_le_bytes.
  change (256 ^ N.of_nat 4)%N with 4294967296%N.
  rewrite N.mod_small by lia. lia.
Qed.

Lemma to_bytes_little_4 (n : Z) :
  0 <= n < 2 ^ 32 -> Py.to_bytes_little n 4 = Ok (Py.le_bytes 4 (Z.to_N n)).
Proof.
  intros Hn. unfold Py.to_bytes_little.
  destruct (Z.ltb_spec n 0); [lia|].
  change (256 ^ Z.of_nat 4) with 4294967296.
  destruct (Z.leb_spec 4294967296 n); [lia | reflexivity].
Qed.

(** ** The update of a payload *)

(** What [update_crc] does on every input: no exception, the CRC of the
    payload without its last four bytes is returned, and the payload becomes
    that prefix followed by the four bytes of the CRC. *)
Lemma update_crc_eq (ds : DatasetODIS) (new_data : bytes) :
  update_crc ds new_data
  = (Ok (crc32 (Py.slice_to_neg new_data 4)),
     set_data ds (Py.slice_to_neg new_data 4
                    ++ Py.le_bytes 4 (Z.to_N (crc32 (Py.slice_to_neg new_data 4))))%list).
Proof.
  unfold update_crc. rewrite crc32_func_ok.
  cbn [data set_data].
  rewrite to_bytes_little_4 by apply crc32_range.
  reflexivity.
Qed.

Lemma slice_to_neg_short {A : Type} (l : list A) (k : nat) :
  (List.length l <= k)%nat -> Py.slice_to_neg l k = [].
Proof.
  intros H. unfold Py.slice_to_neg.
  replace (List.length l - k)%nat with 0%nat by lia. reflexivity.
Qed.

(** C2: for a new payload of at least four bytes, [update_crc] leaves in
    the dataset the first [len(new_data) - 4] bytes of the new payload
    followed by the four-byte little-endian encoding of the CRC of that
    prefix, and returns that CRC as an integer; the other fields of the
    dataset and the length of the payload are as before. *)
Theorem update_crc_payload (ds : DatasetODIS) (new_data : bytes) :
  (4 <= List.length new_data)%nat ->
  let prefix := firstn (List.length new_data - 4) new_data in
  exists footer : bytes,
    update_crc ds new_data = (Ok (crc32 prefix), set_data ds (prefix ++ footer)%list)
    /\ List.length footer = 4%nat
    /\ Py.from_bytes_little footer = crc32 prefix
    /\ 0 <= crc32 prefix < 2 ^ 32
    /\ crc32 prefix = CrcModel.crc32_reflected prefix
    /\ List.length (prefix ++ footer)%list = List.length new_data
    /\ Py.slice_from_neg (prefix ++ footer)%list 4 = footer.
Proof.
  intros Hlen prefix.
  exists (Py.le_bytes 4 (Z.to_N (crc32 prefix))).
  assert (Hp : List.length prefix = (List.length new_data - 4)%nat)
    by (unfold prefix; rewrite length_firstn; lia).
  split; [apply update_crc_eq|].
  split; [apply length_le_bytes|].
  split; [apply from_bytes_le_bytes_4, crc32_range|].
  split; [apply crc32_range|].
  split; [rewrite crc32_lsb_first_eq, crc32_reflected_lsb_first; reflexivity|].
  split.
  - rewrite length_app, length_le_bytes, Hp. lia.
  - unfold Py.slice_from_neg.
    rewrite length_app, length_le_bytes.
    replace (List.length prefix + 4 - 4)%nat with (List.length prefix + 0)%nat by lia.
    rewrite skipn_app, Nat.add_0_r, skipn_all.
    replace (List.length prefix - List.length prefix)%nat with 0%nat by lia.
    reflexivity.
Qed.

Lemma update_crc_payload_witness :
  (4 <= List.length replacement_payload)%nat
  /\ exists footer : bytes,
      update_crc sample_dataset replacement_payload
      = (Ok (crc32 [x10; x20]), set_data sample_dataset ([x10; x20] ++ footer)%list)
      /\ List.length footer = 4%nat
      /\ Py.from_bytes_little footer = crc32 [x10; x20]
      /\ 0 <= crc32 [x10; x20] < 2 ^ 32
      /\ crc32 [x10; x20] = CrcModel.crc32_reflected [x10; x20]
      /\ List.length ([x10; x20] ++ footer)%list = List.length replacement_payload
      /\ Py.slice_from_neg ([x10; x20] ++ footer)%list 4 = footer.
Proof.
  split; [cbn; lia|].
  apply (update_crc_payload sample_dataset replacement_payload). cbn. lia.
Defined.

Example update_crc_replacement :
  update_crc sample_dataset replacement_payload
  = (Ok 0x30752066, set_data sample_dataset [x10; x20; x66; x20; x75; x30]).
Proof. vm_compute. reflexivity. Qed.

(** C10: for a new payload of fewer than four bytes, the empty one
    included, [update_crc] does not raise: [new_data[:-4]] is empty, the
    payload becomes exactly the four-byte little-endian encoding of the CRC
    of the empty sequence, so that no byte of [new_data] is kept, and that
    CRC is the value returned. *)
Theorem update_crc_short (ds : DatasetODIS) (new_data : bytes) :
  (List.length new_data < 4)%nat ->
  Py.slice_to_neg new_data 4 = []
  /\ update_crc ds new_data
     = (Ok (crc32 []), set_data ds (Py.le_bytes 4 (Z.to_N (crc32 []))))
  /\ Py.to_bytes_little (crc32 []) 4 = Ok (Py.le_bytes 4 (Z.to_N (crc32 [])))
  /\ crc32 [] = 0
  /\ data (snd (update_crc ds new_data)) = [x00; x00; x00; x00].
Proof.
  intros Hlen.
  assert (E : Py.slice_to_neg new_data 4 = [])
    by (apply slice_to_neg_short; lia).
  split; [exact E|].
  split; [rewrite update_crc_eq, E; reflexivity|].
  split; [reflexivity|].
  split; [reflexivity|].
  rewrite update_crc_eq, E. reflexivity.
Qed.

Lemma update_crc_short_witness :
  (List.length short_payload < 4)%nat
  /\ Py.slice_to_neg short_payload 4 = []
  /\ update_crc sample_dataset short_payload
     = (Ok (crc32 []), set_data sample_dataset (Py.le_bytes 4 (Z.to_N (crc32 []))))
  /\ Py.to_bytes_little (crc32 []) 4 = Ok (Py.le_bytes 4 (Z.to_N (crc32 [])))
  /\ crc32 [] = 0
  /\ data (snd (update_crc sample_dataset short_payload)) = [x00; x00; x00; x00].
Proof.
  split; [cbn; lia|].
  apply (update_crc_short sample_dataset short_payload). cbn. lia.
Defined.

(** C3, as the specification states it, fails: on a payload of three bytes
    [update_crc] returns normally and the payload of the dataset is no
    longer the one it had. *)
Lemma update_crc_short_raises_counterexample :
  (List.length short_payload < 4)%nat
  /\ fst (update_crc sample_dataset short_payload) = Ok 0
  /\ (forall e, fst (update_crc sample_dataset short_payload) <> Raise e)
  /\ data (snd (update_crc sample_dataset short_payload)) <> data sample_dataset.
Proof.
  split; [cbn; lia|].
  split; [reflexivity|].
  split; intros; discriminate.
Qed.

(** C3, amended: for a new payload of fewer than four bytes [update_crc]
    raises nothing; it returns the CRC of the empty sequence, which is 0,
    replaces the payload of the dataset by the four-byte little-endian
    footer of that CRC, which is 00 00 00 00, and leaves the other fields as
    they were. *)
Theorem update_crc_short_no_error (ds : DatasetODIS) (new_data : bytes) :
  (List.length new_data < 4)%nat ->
  fst (update_crc ds new_data) = Ok (crc32 [])
  /\ crc32 [] = 0
  /\ (forall e, fst (update_crc ds new_data) <> Raise e)
  /\ Py.to_bytes_little (crc32 []) 4
     = Ok (data (snd (update_crc ds new_data)))
  /\ data (snd (update_crc ds new_data)) = [x00; x00; x00; x00]
  /\ List.length (data (snd (update_crc ds new_data))) = 4%nat
  /\ address (snd (update_crc ds new_data)) = address ds
  /\ start_address (snd (update_crc ds new_data)) = start_address ds
  /\ name (snd (update_crc ds new_data)) = name ds
  /\ version (snd (update_crc ds new_data)) = version ds
  /\ login (snd (update_crc ds new_data)) = login ds.
Proof.
  intros Hlen. rewrite update_crc_eq.
  rewrite (slice_to_neg_short new_data 4) by lia.
  cbn [fst snd set_data data address start_address name version login].
  split; [reflexivity|].
  split; [reflexivity|].
  split; [intros e; discriminate|].
  split; [reflexivity|].
  split; [reflexivity|].
  split; [reflexivity|].
  repeat split.
Qed.

Lemma update_crc_short_no_error_witness :
  (List.length short_payload < 4)%nat
  /\ fst (update_crc sample_dataset short_payload) = Ok (crc32 [])
  /\ crc32 [] = 0
  /\ (forall e, fst (update_crc sample_dataset short_payload) <> Raise e)
  /\ Py.to_bytes_little (crc32 []) 4
     = Ok (data (snd (update_crc sample_dataset short_payload)))
  /\ data (snd (update_crc sample_dataset short_payload))
     = [x00; x00; x00; x00]
  /\ List.length (data (snd (update_crc sample_dataset short_payload))) = 4%nat
  /\ address (snd (update_crc sample_dataset short_payload)) = address sample_dataset
  /\ start_address (snd (update_crc sample_dataset short_payload))
     = start_address sample_dataset
  /\ name (snd (update_crc sample_dataset short_payload)) = name sample_dataset
  /\ version (snd (update_crc sample_dataset short_payload)) = version sample_dataset
  /\ login (snd (update_crc sample_dataset short_payload)) = login sample_dataset.
Proof.
  split; [cbn; lia|].
  apply (update_crc_short_no_error sample_dataset short_payload). cbn. lia.
Defined.

(** ** The checksum *)

Example crc32_check : crc32 check_input = 0xCBF43926.
Proof. vm_compute. reflexivity. Qed.

Example crc32_not_reflected_init0_check :
  CrcModel.crc32_not_reflected_init0 check_input = 0x765E7680.
Proof. vm_compute. reflexivity. Qed.

Example crc32_empty_is_init : crc32 [] = CRC32_INIT_VALUE.
Proof. reflexivity. Qed.

(** With [rev=False] the same call would give the CRC of bzip2. *)
Example mkCrcFun_not_reversed :
  crcmod._mkCrcFun CRC32_POLYNOMIAL 32 CRC32_INIT_VALUE false CRC32_XOR_OUT
                   check_input
  = 0xFC891918.
Proof. vm_compute. reflexivity. Qed.

Example verifyPoly_degree : crcmod._verifyPoly CRC32_POLYNOMIAL = Ok 32.
Proof. reflexivity. Qed.

Example verifyPoly_rejects : crcmod._verifyPoly 0x04c11db7 = Raise ValueError.
Proof. reflexivity. Qed.

(** C4, as the specification states it, fails: on the text [123456789] the
    function of the script gives [0xCBF43926], and the CRC that is not
    reflected and starts from a register of 0 gives [0x765E7680].  Neither
    of the two changes alone gives the function of the script: not
    reflected with a register of all ones gives [0xFC891918], reflected
    with a register of 0 gives [0xD202D277]. *)
Lemma crc32_not_reflected_counterexample :
  crc32_func = Ok crc32
  /\ crc32 check_input = 0xCBF43926
  /\ CrcModel.crc32_not_reflected_init0 check_input = 0x765E7680
  /\ crc32 check_input <> CrcModel.crc32_not_reflected_init0 check_input
  /\ CrcModel.crc 32 0x04c11db7 0xFFFFFFFF false false 0xFFFFFFFF check_input
     = 0xFC891918
  /\ CrcModel.crc 32 0x04c11db7 0 true true 0xFFFFFFFF check_input
     = 0xD202D277.
Proof.
  split; [reflexivity|].
  split; [apply crc32_check|].
  split; [apply crc32_not_reflected_init0_check|].
  split.
  - rewrite crc32_check, crc32_not_reflected_init0_check. discriminate.
  - split; vm_compute; reflexivity.
Qed.

(** C4, amended: the checksum function that [update_crc] uses is a pure
    function of the bytes, the reflected 32-bit CRC with polynomial
    [0x04c11db7] (given to [mkCrcFun] as [0x104c11db7], [rev] left at its
    default), initial register [0xFFFFFFFF] ([initCrc=0] is the CRC of the
    empty input) and final exclusive or [0xFFFFFFFF]; its value on the text
    [123456789] is [0xCBF43926], the reference value of this CRC. *)
Theorem crc32_is_reflected_crc (l : bytes) :
  crc32_func = Ok crc32
  /\ crc32 l = CrcModel.crc 32 0x04c11db7 0xFFFFFFFF true true 0xFFFFFFFF l
  /\ crc32 [] = CRC32_INIT_VALUE
  /\ crc32 check_input = 0xCBF43926
  /\ CrcModel.crc 32 0x04c11db7 0xFFFFFFFF true true 0xFFFFFFFF check_input
     = 0xCBF43926.
Proof.
  split; [reflexivity|].
  split.
  { rewrite crc32_lsb_first_eq. symmetry. apply crc32_reflected_lsb_first. }
  split; [reflexivity|].
  split; [apply crc32_check|].
  vm_compute. reflexivity.
Qed.

(** ** Parsing *)

Lemma a2b_pairs_raises_two (s : string) :
  (forall e, binascii.a2b_pairs s = Raise e -> e = BinasciiError)
  /\ (forall c e, binascii.a2b_pairs (String c s) = Raise e -> e = BinasciiError).
Proof.
  induction s as [|b tl [IH1 IH2]].
  - split; [discriminate|]. intros c e H. cbn in H. congruence.
  - split; [apply IH2|]. intros a e H.
    cbn [binascii.a2b_pairs] in H.
    destruct ((16 <=? Py.digit_value a) || (16 <=? Py.digit_value b))%N;
      [congruence|].
    destruct (binascii.a2b_pairs tl) as [r|e'] eqn:E; cbn [bind] in H.
    + discriminate.
    + injection H as <-. apply IH1. reflexivity.
Qed.

Lemma unhexlify_raises (s : string) (e : exn) :
  binascii.unhexlify s = Raise e -> e = ValueError \/ e = BinasciiError.
Proof.
  unfold binascii.unhexlify.
  destruct (negb (Py.is_ascii s)); [left; congruence|].
  destruct (Nat.odd (String.length s)); [right; congruence|].
  intros H. right. apply (proj1 (a2b_pairs_raises_two s)), H.
Qed.

Lemma convert_to_binary_raises (x : option string) (e : exn) :
  convert_to_binary x = Raise e -> e = ValueError \/ e = BinasciiError.
Proof.
  destruct x as [s|]; [|discriminate]. unfold convert_to_binary.
  destruct (binascii.unhexlify _) as [b|e'] eqn:E; [discriminate|].
  apply unhexlify_raises in E.
  destruct E as [-> | ->]; intros H; injection H as <-; auto.
Qed.

Lemma int_base16_raises (s : string) (e : exn) :
  Py.int_base16 s = Raise e -> e = ValueError.
Proof.
  unfold Py.int_base16. destruct (Py.parse_int16 s); congruence.
Qed.

(** An entry gives its dataset, or raises one of the exceptions that the
    loop catches. *)
Lemma parse_entry_cases (param : ET.Element) :
  match entry_dataset param with
  | Some d => parse_entry param = Ok d
  | None => parse_entry param = Raise ValueError
            \/ parse_entry param = Raise BinasciiError
  end.
Proof.
  unfold entry_dataset, parse_entry.
  destruct (convert_to_binary (ET.text param)) as [d|e] eqn:Ed; cbn [bind].
  - destruct (Py.int_base16 (ET.get_default param "DIAGNOSTIC_ADDRESS" "0"))
      as [a|e] eqn:Ea; cbn [bind].
    + destruct (Py.int_base16 (ET.get_default param "START_ADDRESS" "0"))
        as [st|e] eqn:Es; cbn [bind].
      * reflexivity.
      * apply int_base16_raises in Es. subst e. left. reflexivity.
    + apply int_base16_raises in Ea. subst e. left. reflexivity.
  - apply convert_to_binary_raises in Ed. destruct Ed as [-> | ->]; auto.
Qed.

Lemma parse_loop_eq (params : list ET.Element) (acc : list DatasetODIS) :
  parse_loop params acc
  = Ok (acc ++ flat_map (fun p => match entry_dataset p with
                                  | Some d => [d]
                                  | None => []
                                  end) params)%list.
Proof.
  revert acc. induction params as [|p rest IH]; intros acc.
  - cbn. rewrite app_nil_r. reflexivity.
  - cbn [parse_loop flat_map].
    pose proof (parse_entry_cases p) as H.
    destruct (entry_dataset p) as [d|].
    + rewrite H, IH, <- app_assoc. reflexivity.
    + destruct H as [-> | ->]; apply IH.
Qed.

(** C5: when the text is not well-formed XML, that is when the XML parser
    raises its [ParseError], [parse_odis_file] raises that same error to
    its caller and gives no list of datasets. *)
Theorem parse_odis_file_malformed
        (fromstring : string -> result ET.Element)
        (xml_content msg : string) :
  fromstring xml_content = Raise (ParseError msg) ->
  parse_odis_file fromstring xml_content = Raise (ParseError msg)
  /\ forall datasets, parse_odis_file fromstring xml_content <> Ok datasets.
Proof.
  intros H. unfold parse_odis_file. rewrite H.
  split; [reflexivity | discriminate].
Qed.

Lemma parse_odis_file_malformed_witness :
  sample_fromstring malformed_document
  = Raise (ParseError "syntax error: line 1, column 0")
  /\ parse_odis_file sample_fromstring malformed_document
     = Raise (ParseError "syntax error: line 1, column 0")
  /\ forall datasets,
      parse_odis_file sample_fromstring malformed_document <> Ok datasets.
Proof.
  split; [reflexivity|].
  apply (parse_odis_file_malformed sample_fromstring malformed_document).
  reflexivity.
Defined.

(** C6: on a well-formed document, an entry whose addresses or payload do
    not parse is passed over and the loop goes on: [parse_odis_file] does
    not raise and returns exactly the datasets of the entries that parse, in
    document order; the document with one valid entry and one entry of
    invalid hex gives the one valid dataset. *)
Theorem parse_odis_file_skips
        (fromstring : string -> result ET.Element)
        (xml_content : string) (tree : ET.Element) :
  fromstring xml_content = Ok tree ->
  parse_odis_file fromstring xml_content = Ok (parsed_entries tree)
  /\ (forall e, parse_odis_file fromstring xml_content <> Raise e)
  /\ (tree = mixed_tree ->
      parse_odis_file fromstring xml_content = Ok [sample_dataset]).
Proof.
  intros H. unfold parse_odis_file. rewrite H, parse_loop_eq.
  split; [reflexivity|].
  split; [discriminate|].
  intros ->. reflexivity.
Qed.

Lemma parse_odis_file_skips_witness :
  sample_fromstring mixed_document = Ok mixed_tree
  /\ parse_odis_file sample_fromstring mixed_document
     = Ok (parsed_entries mixed_tree)
  /\ (forall e, parse_odis_file sample_fromstring mixed_document <> Raise e)
  /\ (mixed_tree = mixed_tree ->
      parse_odis_file sample_fromstring mixed_document = Ok [sample_dataset]).
Proof.
  split; [reflexivity|].
  apply (parse_odis_file_skips sample_fromstring mixed_document mixed_tree).
  reflexivity.
Defined.

Example mixed_entries :
  map entry_dataset (ET.iter mixed_tree "PARAMETER_DATA")
  = [Some sample_dataset; None].
Proof. reflexivity. Qed.

Example bad_hex_raises : parse_entry bad_hex_entry = Raise BinasciiError.
Proof. reflexivity. Qed.

(** ** Serialization *)

Lemma append_empty (s : string) : s ++ "" = s.
Proof. induction s as [|c s IH]; [reflexivity|]. cbn. rewrite IH. reflexivity. Qed.

Lemma append_assoc (a b c : string) : (a ++ b) ++ c = a ++ (b ++ c).
Proof. induction a as [|x a IH]; [reflexivity|]. cbn. rewrite IH. reflexivity. Qed.

Lemma serialize_leaf (t s : string) :
  ET._serialize_xml (ET.leaf t s) = leaf_xml t s.
Proof.
  destruct s as [|c s]; cbn -[ET._escape_cdata].
  - reflexivity.
  - rewrite append_empty. reflexivity.
Qed.

Lemma or_else_resolved (ds : DatasetODIS) (input_name : string) :
  Py.or_else (name ds) (input_name ++ "-" ++ Py.format_x (address ds))
  = resolved_name ds input_name.
Proof. unfold resolved_name. destruct (name ds) as [[|c n]|]; reflexivity. Qed.

(** The texts of the elements of the tree of a dataset. *)
Lemma vcp_tree_fields (ds : DatasetODIS) (input_name : string) :
  let root := vcp_tree ds input_name in
  ET.field root "LOGIN" = Some (Py.or_else (login ds) "")
  /\ ET.field root "DATAIID" = Some (resolved_name ds input_name)
  /\ ET.field root "VERSION-INHALT" = Some (Py.or_else (version ds) "")
  /\ ET.field root "DATEN-NAME" = Some (resolved_name ds input_name)
  /\ ET.field root "DATEN-FORMAT_NAME" = Some "DFN_HEX"
  /\ ET.field root "START-ADR" = Some ("0x" ++ Py.format_x (start_address ds))
  /\ ET.field root "GROESSE-DEKOMPRIMIERT"
     = Some ("0x" ++ Py.format_x (Z.of_nat (List.length (data ds))))
  /\ ET.field root "DATEN" = Some (hex_data (data ds)).
Proof.
  cbv zeta. unfold vcp_tree. rewrite or_else_resolved.
  repeat split.
Qed.

(** The text that [convert_dataset_to_vcp] gives. *)
Lemma vcp_text (ds : DatasetODIS) (input_name : string) :
  vcp (convert_dataset_to_vcp ds input_name)
  = "<SW-CNT><IDENT>"
      ++ leaf_xml "LOGIN" (Py.or_else (login ds) "")
      ++ leaf_xml "DATAIID" (resolved_name ds input_name)
      ++ leaf_xml "VERSION-INHALT" (Py.or_else (version ds) "")
      ++ "</IDENT><DATENBEREICHE><DATENBEREICH>"
      ++ leaf_xml "DATEN-NAME" (resolved_name ds input_name)
      ++ "<DATEN-FORMAT_NAME>DFN_HEX</DATEN-FORMAT_NAME>"
      ++ leaf_xml "START-ADR" ("0x" ++ Py.format_x (start_address ds))
      ++ leaf_xml "GROESSE-DEKOMPRIMIERT"
           ("0x" ++ Py.format_x (Z.of_nat (List.length (data ds))))
      ++ leaf_xml "DATEN" (hex_data (data ds))
      ++ "</DATENBEREICH></DATENBEREICHE></SW-CNT>".
Proof.
  unfold convert_dataset_to_vcp, ET.tostring, vcp_tree, vcp.
  rewrite or_else_resolved.
  unfold ET.node.
  cbn [ET._serialize_xml map String.concat List.length Nat.eqb negb orb
       Py.truthy ET.write_text].
  rewrite !serialize_leaf.
  change (leaf_xml "DATEN-FORMAT_NAME" "DFN_HEX")
    with "<DATEN-FORMAT_NAME>DFN_HEX</DATEN-FORMAT_NAME>".
  rewrite !append_empty.
  repeat (progress (cbn [append]; rewrite ?append_assoc)).
  reflexivity.
Qed.

(** ** Numbers in hexadecimal *)

Lemma hex_char_lower (d : N) :
  (d < 16)%N -> lower_hex_digit (Py.hex_char d) = true.
Proof.
  intros H. apply nibble_cases in H. cbn [In] in H.
  repeat (destruct H as [<- | H]; [reflexivity|]).
  destruct H.
Qed.

Lemma hex_char_zero (d : N) :
  (d < 16)%N -> Py.hex_char d = "0"%char -> d = 0%N.
Proof.
  intros H E. destruct (hex_char_facts d H) as (V & _).
  rewrite E in V. symmetry. exact V.
Qed.

Lemma hex_digits_rev_spec (fuel : nat) (n : N) :
  (0 < fuel)%nat ->
  (n < 16 ^ N.of_nat fuel)%N ->
  let m := rev (Py.hex_digits_rev fuel n) in
  m <> []
  /\ forallb lower_hex_digit m = true
  /\ (hd "0"%char m = "0"%char -> m = ["0"%char])
  /\ fold_left (fun a c => (a * 16 + Py.digit_value c)%N) m 0%N = n.
Proof.
  revert n. induction fuel as [|f IH]; intros n Hf Hn; [lia|].
  - cbn [Py.hex_digits_rev].
    assert (Hd : (n mod 16 < 16)%N) by (apply N.mod_lt; discriminate).
    destruct (hex_char_facts _ Hd) as (V & _).
    destruct (N.eqb_spec (n / 16) 0) as [E|E].
    + assert (En : (n mod 16 = n)%N).
      { pose proof (N.div_mod n 16 ltac:(discriminate)) as D.
        rewrite E in D. lia. }
      cbn [rev app]. cbv zeta. cbn [hd forallb fold_left].
      split; [discriminate|].
      split; [rewrite hex_char_lower by assumption; reflexivity|].
      split.
      * intros H0. apply hex_char_zero in H0; [|assumption].
        rewrite H0. reflexivity.
      * rewrite V. lia.
    + assert (Hq : (n / 16 < 16 ^ N.of_nat f)%N).
      { apply N.Div0.div_lt_upper_bound.
        rewrite Nat2N.inj_succ, N.pow_succ_r' in Hn. exact Hn. }
      assert (Hf' : (0 < f)%nat).
      { destruct f; [|lia]. change (16 ^ N.of_nat 0)%N with 1%N in Hq.
        contradiction E. apply N.lt_1_r, Hq. }
      destruct (IH _ Hf' Hq) as (Hne & Hall & Hhd & Hval).
      cbn [rev]. cbv zeta.
      set (m := rev (Py.hex_digits_rev f (n / 16))) in *.
      split; [destruct m; discriminate|].
      split.
      { rewrite forallb_app, Hall. cbn [forallb].
        rewrite hex_char_lower by assumption. reflexivity. }
      split.
      { intros H0. destruct m as [|c m']; [contradiction Hne; reflexivity|].
        cbn [app hd] in H0. cbn [hd] in Hhd.
        specialize (Hhd H0). rewrite Hhd in Hval. cbn in Hval.
        contradiction E. symmetry. exact Hval. }
      rewrite fold_left_app. cbn [fold_left]. rewrite Hval, V.
      pose proof (N.div_mod n 16 ltac:(discriminate)). lia.
Qed.

Lemma hex_fuel (n : N) : (n < 16 ^ N.of_nat (S (N.to_nat (N.log2 n))))%N.
Proof.
  rewrite Nat2N.inj_succ, N2Nat.id.
  apply N.lt_le_trans with (2 ^ N.succ (N.log2 n))%N.
  - destruct (N.eq_dec n 0) as [->|Hn]; [reflexivity|].
    apply N.log2_spec. lia.
  - apply N.pow_le_mono_l. lia.
Qed.

(** [hex_of_N] writes its argument in lowercase hexadecimal without leading
    zero. *)
Lemma hex_of_N_spec (n : N) : is_lower_hex (Py.hex_of_N n) n.
Proof.
  unfold is_lower_hex, Py.hex_of_N.
  rewrite list_ascii_of_string_of_list_ascii.
  apply hex_digits_rev_spec; [lia | apply hex_fuel].
Qed.

(** [format(n, 'x')] is the numeral of the absolute value, after a minus
    sign when [n] is negative. *)
Lemma format_x_spec (n : Z) :
  exists digits,
    is_lower_hex digits (Z.abs_N n)
    /\ Py.format_x n = (if n <? 0 then "-" ++ digits else digits).
Proof.
  exists (Py.hex_of_N (Z.abs_N n)). split; [apply hex_of_N_spec|].
  unfold Py.format_x. destruct (n <? 0); reflexivity.
Qed.

(** ** Texts without markup characters *)

Lemma replace_char_absent (s : string) (c : ascii) (new : string) :
  forallb (fun x => negb (Ascii.eqb x c)) (list_ascii_of_string s) = true ->
  Py.replace s (String c "") new = s.
Proof.
  unfold Py.replace. induction s as [|x tl IH]; [reflexivity|].
  cbn [list_ascii_of_string forallb]. intros H.
  apply andb_prop in H. destruct H as [Hx Htl].
  rewrite replace_from_keep.
  - rewrite IH by assumption. reflexivity.
  - cbn [String.prefix]. destruct (ascii_dec c x) as [->|]; [|reflexivity].
    rewrite Ascii.eqb_refl in Hx. discriminate.
Qed.

Lemma plain_absent (s : string) (c : ascii) :
  plain s = true -> plain_char c = false ->
  forallb (fun x => negb (Ascii.eqb x c)) (list_ascii_of_string s) = true.
Proof.
  unfold plain. intros Hs Hc. apply forallb_forall. intros x Hx.
  rewrite forallb_forall in Hs. specialize (Hs x Hx).
  destruct (Ascii.eqb_spec x c) as [->|]; [congruence | reflexivity].
Qed.

(** [_escape_cdata] leaves a text without markup characters as it is. *)
Lemma escape_cdata_plain (s : string) :
  plain s = true -> ET._escape_cdata s = s.
Proof.
  intros H. unfold ET._escape_cdata. cbv zeta.
  rewrite (replace_char_absent s "&")
    by (apply plain_absent; [assumption | reflexivity]).
  rewrite (replace_char_absent s "<")
    by (apply plain_absent; [assumption | reflexivity]).
  apply replace_char_absent, plain_absent; [assumption | reflexivity].
Qed.

Lemma plain_append (a b : string) :
  plain (a ++ b) = plain a && plain b.
Proof.
  unfold plain. induction a as [|x a IH]; [reflexivity|].
  cbn [append list_ascii_of_string forallb]. rewrite IH. apply andb_assoc.
Qed.

Lemma lower_hex_plain (l : list ascii) :
  forallb lower_hex_digit l = true -> forallb plain_char l = true.
Proof.
  intros H. apply forallb_forall. intros x Hx.
  rewrite forallb_forall in H. specialize (H x Hx).
  unfold plain_char.
  destruct (Ascii.eqb_spec x "&") as [->|]; [discriminate|].
  destruct (Ascii.eqb_spec x "<") as [->|]; [discriminate|].
  destruct (Ascii.eqb_spec x ">") as [->|]; [discriminate|].
  reflexivity.
Qed.

Lemma is_lower_hex_plain (s : string) (n : N) :
  is_lower_hex s n -> plain s = true.
Proof. intros (_ & H & _). apply lower_hex_plain, H. Qed.

Lemma hex_char_plain (d : N) : (d < 16)%N -> plain_char (Py.hex_char d) = true.
Proof.
  intros H. apply nibble_cases in H. cbn [In] in H.
  repeat (destruct H as [<- | H]; [reflexivity|]).
  destruct H.
Qed.

Lemma hex_data_plain (bs : bytes) : plain (hex_data bs) = true.
Proof.
  unfold hex_data.
  induction bs as [|b bs IH]; [reflexivity|].
  destruct (byte_nibbles b) as [B1 B2].
  assert (Hb : plain (Py.format_02x b) = true).
  { unfold plain, Py.format_02x.
    cbn [list_ascii_of_string forallb].
    rewrite !hex_char_plain by assumption. reflexivity. }
  destruct bs as [|b' r].
  - cbn [map Py.join String.concat]. rewrite plain_append, Hb. reflexivity.
  - set (tl := b' :: r) in *.
    split_join (fun x => "0x" ++ Py.format_02x x) b tl.
    rewrite !plain_append, Hb, IH. reflexivity.
Qed.

Lemma hex_data_empty (bs : bytes) : hex_data bs = "" -> bs = [].
Proof.
  destruct bs as [|b [|b' r]]; [reflexivity | discriminate | discriminate].
Qed.

(** ** The names in the serialized dataset *)

Example empty_name_parsed : parse_entry empty_name_entry = Ok empty_name_dataset.
Proof. reflexivity. Qed.

(** C7, as the specification states it, fails: for a name that is present
    and empty, the data identifier and the name of the data region are the
    fallback and not the name of the dataset. *)
Lemma empty_name_counterexample :
  name empty_name_dataset = Some ""
  /\ name_if_present empty_name_dataset "sample" = ""
  /\ ET.field (vcp_tree empty_name_dataset "sample") "DATAIID" = Some "sample-12"
  /\ ET.field (vcp_tree empty_name_dataset "sample") "DATEN-NAME" = Some "sample-12"
  /\ ET.field (vcp_tree empty_name_dataset "sample") "DATAIID"
     <> Some (name_if_present empty_name_dataset "sample").
Proof. repeat split. discriminate. Qed.

Lemma resolved_name_nonempty (ds : DatasetODIS) (input_name : string) :
  exists c r, resolved_name ds input_name = String c r.
Proof.
  unfold resolved_name.
  destruct (name ds) as [[|c n]|]; try (eexists _, _; reflexivity);
    destruct input_name; eexists _, _; reflexivity.
Qed.

(** C7, amended: the data identifier ([DATAIID]) and the name of the data
    region ([DATEN-NAME]) are the name of the dataset whenever that name is
    present and not empty; when it is absent or empty they are the fallback:
    the input base name, a hyphen, and the diagnostic address in lowercase
    hexadecimal without leading zeros or [0x] prefix. *)
Theorem vcp_names (ds : DatasetODIS) (input_name : string) :
  let written :=
    match name ds with
    | Some (String c n) => String c n
    | Some EmptyString | None => input_name ++ "-" ++ Py.format_x (address ds)
    end in
  ET.field (vcp_tree ds input_name) "DATAIID" = Some written
  /\ ET.field (vcp_tree ds input_name) "DATEN-NAME" = Some written
  /\ (exists before after,
        vcp (convert_dataset_to_vcp ds input_name)
        = before ++ "<DATAIID>" ++ ET._escape_cdata written
                 ++ "</DATAIID>" ++ after)
  /\ (exists before after,
        vcp (convert_dataset_to_vcp ds input_name)
        = before ++ "<DATEN-NAME>" ++ ET._escape_cdata written
                 ++ "</DATEN-NAME>" ++ after)
  /\ (exists digits,
        is_lower_hex digits (Z.abs_N (address ds))
        /\ Py.format_x (address ds)
           = (if address ds <? 0 then "-" ++ digits else digits)).
Proof.
  intros written.
  change written with (resolved_name ds input_name). clear written.
  destruct (vcp_tree_fields ds input_name) as (_ & F1 & _ & F2 & _).
  split; [exact F1|]. split; [exact F2|].
  destruct (resolved_name_nonempty ds input_name) as (c & r & E).
  split; [|split].
  - exists ("<SW-CNT><IDENT>" ++ leaf_xml "LOGIN" (Py.or_else (login ds) "")).
    exists (leaf_xml "VERSION-INHALT" (Py.or_else (version ds) "")
              ++ "</IDENT><DATENBEREICHE><DATENBEREICH>"
              ++ leaf_xml "DATEN-NAME" (resolved_name ds input_name)
              ++ "<DATEN-FORMAT_NAME>DFN_HEX</DATEN-FORMAT_NAME>"
              ++ leaf_xml "START-ADR" ("0x" ++ Py.format_x (start_address ds))
              ++ leaf_xml "GROESSE-DEKOMPRIMIERT"
                   ("0x" ++ Py.format_x (Z.of_nat (List.length (data ds))))
              ++ leaf_xml "DATEN" (hex_data (data ds))
              ++ "</DATENBEREICH></DATENBEREICHE></SW-CNT>").
    rewrite vcp_text. rewrite E at 1 3. cbn [leaf_xml].
    repeat (progress (cbn [append]; rewrite ?append_assoc)).
    reflexivity.
  - exists ("<SW-CNT><IDENT>"
              ++ leaf_xml "LOGIN" (Py.or_else (login ds) "")
              ++ leaf_xml "DATAIID" (resolved_name ds input_name)
              ++ leaf_xml "VERSION-INHALT" (Py.or_else (version ds) "")
              ++ "</IDENT><DATENBEREICHE><DATENBEREICH>").
    exists ("<DATEN-FORMAT_NAME>DFN_HEX</DATEN-FORMAT_NAME>"
              ++ leaf_xml "START-ADR" ("0x" ++ Py.format_x (start_address ds))
              ++ leaf_xml "GROESSE-DEKOMPRIMIERT"
                   ("0x" ++ Py.format_x (Z.of_nat (List.length (data ds))))
              ++ leaf_xml "DATEN" (hex_data (data ds))
              ++ "</DATENBEREICH></DATENBEREICHE></SW-CNT>").
    rewrite vcp_text. rewrite E at 2 4. cbn [leaf_xml].
    repeat (progress (cbn [append]; rewrite ?append_assoc)).
    reflexivity.
  - apply format_x_spec.
Qed.

Example escaped_vcp :
  vcp (convert_dataset_to_vcp escaped_dataset "in&put")
  = "<SW-CNT><IDENT><LOGIN>l&amp;</LOGIN><DATAIID>a&lt;b&amp;c&gt;d</DATAIID><VERSION-INHALT /></IDENT><DATENBEREICHE><DATENBEREICH><DATEN-NAME>a&lt;b&amp;c&gt;d</DATEN-NAME><DATEN-FORMAT_NAME>DFN_HEX</DATEN-FORMAT_NAME><START-ADR>0x-100</START-ADR><GROESSE-DEKOMPRIMIERT>0x0</GROESSE-DEKOMPRIMIERT><DATEN /></DATENBEREICH></DATENBEREICHE></SW-CNT>".
Proof. reflexivity. Qed.

(** ** The data region *)

Example sample_entry_parsed : parse_entry sample_entry = Ok sample_dataset.
Proof. reflexivity. Qed.

Example sample_vcp :
  vcp (convert_dataset_to_vcp sample_dataset "sample")
  = "<SW-CNT><IDENT><LOGIN /><DATAIID>sample-12</DATAIID><VERSION-INHALT /></IDENT><DATENBEREICHE><DATENBEREICH><DATEN-NAME>sample-12</DATEN-NAME><DATEN-FORMAT_NAME>DFN_HEX</DATEN-FORMAT_NAME><START-ADR>0x100</START-ADR><GROESSE-DEKOMPRIMIERT>0x4</GROESSE-DEKOMPRIMIERT><DATEN>0x01,0x02,0x03,0x04</DATEN></DATENBEREICH></DATENBEREICHE></SW-CNT>".
Proof. reflexivity. Qed.

Lemma format_x_plain (n : Z) : plain (Py.format_x n) = true.
Proof.
  destruct (format_x_spec n) as (digits & Hd & ->).
  apply is_lower_hex_plain in Hd.
  destruct (n <? 0); [rewrite plain_append, Hd; reflexivity | exact Hd].
Qed.

(** An element whose text is a number after [0x]. *)
Lemma leaf_xml_0x (t : string) (n : Z) :
  leaf_xml t ("0x" ++ Py.format_x n)
  = "<" ++ t ++ ">0x" ++ Py.format_x n ++ "</" ++ t ++ ">".
Proof.
  cbn [append leaf_xml].
  change (String "0" (String "x" (Py.format_x n)))
    with ("0x" ++ Py.format_x n) at 1.
  rewrite escape_cdata_plain
    by (rewrite plain_append, format_x_plain; reflexivity).
  reflexivity.
Qed.

(** The [DATEN] element. *)
Lemma leaf_xml_hex_data (bs : bytes) :
  leaf_xml "DATEN" (hex_data bs)
  = match bs with
    | [] => "<DATEN />"
    | _ :: _ => "<DATEN>" ++ hex_data bs ++ "</DATEN>"
    end.
Proof.
  destruct bs as [|b r]; [reflexivity|].
  set (l := b :: r).
  pose proof (hex_data_plain l) as Hp.
  pose proof (hex_data_empty l) as He.
  destruct (hex_data l) as [|c tl]; [discriminate (He eq_refl)|].
  cbn [leaf_xml]. rewrite escape_cdata_plain by assumption. reflexivity.
Qed.

(** C8: the data region of every serialized dataset holds the start address
    in lowercase hexadecimal after [0x], the size, which is the length of
    the payload in bytes, in the same format, and the payload in its hex
    encoding; the document with the one entry [DIAGNOSTIC_ADDRESS="0x12"],
    [START_ADDRESS="0x100"], text [0x01,0x02,0x03,0x04] and no name, read
    from a file of base name [sample], gives the data identifier
    [sample-12], the start address [0x100], the size [0x4] and the payload
    [0x01,0x02,0x03,0x04]. *)
Theorem vcp_data_region
        (fromstring : string -> result ET.Element) (xml_content : string)
        (ds : DatasetODIS) (input_name : string) :
  fromstring xml_content = Ok sample_tree ->
  (exists start size before,
      is_lower_hex start (Z.abs_N (start_address ds))
      /\ is_lower_hex size (N.of_nat (List.length (data ds)))
      /\ ET.field (vcp_tree ds input_name) "START-ADR"
         = Some ("0x" ++ (if start_address ds <? 0 then "-" ++ start else start))
      /\ ET.field (vcp_tree ds input_name) "GROESSE-DEKOMPRIMIERT"
         = Some ("0x" ++ size)
      /\ vcp (convert_dataset_to_vcp ds input_name)
         = before
             ++ "<START-ADR>0x"
             ++ (if start_address ds <? 0 then "-" ++ start else start)
             ++ "</START-ADR><GROESSE-DEKOMPRIMIERT>0x" ++ size
             ++ "</GROESSE-DEKOMPRIMIERT>"
             ++ match data ds with
                | [] => "<DATEN />"
                | _ :: _ => "<DATEN>" ++ hex_data (data ds) ++ "</DATEN>"
                end
             ++ "</DATENBEREICH></DATENBEREICHE></SW-CNT>")
  /\ ET.field (vcp_tree ds input_name) "DATEN" = Some (hex_data (data ds))
  /\ convert_to_binary (ET.field (vcp_tree ds input_name) "DATEN") = Ok (data ds)
  /\ parse_odis_file fromstring xml_content = Ok [sample_dataset]
  /\ ET.field (vcp_tree sample_dataset "sample") "DATAIID" = Some "sample-12"
  /\ ET.field (vcp_tree sample_dataset "sample") "START-ADR" = Some "0x100"
  /\ ET.field (vcp_tree sample_dataset "sample") "GROESSE-DEKOMPRIMIERT" = Some "0x4"
  /\ ET.field (vcp_tree sample_dataset "sample") "DATEN"
     = Some "0x01,0x02,0x03,0x04"
  /\ vcp (convert_dataset_to_vcp sample_dataset "sample")
     = "<SW-CNT><IDENT><LOGIN /><DATAIID>sample-12</DATAIID><VERSION-INHALT /></IDENT><DATENBEREICHE><DATENBEREICH><DATEN-NAME>sample-12</DATEN-NAME><DATEN-FORMAT_NAME>DFN_HEX</DATEN-FORMAT_NAME><START-ADR>0x100</START-ADR><GROESSE-DEKOMPRIMIERT>0x4</GROESSE-DEKOMPRIMIERT><DATEN>0x01,0x02,0x03,0x04</DATEN></DATENBEREICH></DATENBEREICHE></SW-CNT>".
Proof.
  intros Hdoc.
  destruct (vcp_tree_fields ds input_name) as (_ & _ & _ & _ & _ & Fs & Fg & Fd).
  split.
  { destruct (format_x_spec (start_address ds)) as (start & Hs & Es).
    destruct (format_x_spec (Z.of_nat (List.length (data ds))))
      as (size & Hz & Ez).
    rewrite <- nat_N_Z, Zabs2N.id in Hz.
    destruct (Z.ltb_spec (Z.of_nat (List.length (data ds))) 0); [lia|].
    exists start, size.
    exists ("<SW-CNT><IDENT>"
              ++ leaf_xml "LOGIN" (Py.or_else (login ds) "")
              ++ leaf_xml "DATAIID" (resolved_name ds input_name)
              ++ leaf_xml "VERSION-INHALT" (Py.or_else (version ds) "")
              ++ "</IDENT><DATENBEREICHE><DATENBEREICH>"
              ++ leaf_xml "DATEN-NAME" (resolved_name ds input_name)
              ++ "<DATEN-FORMAT_NAME>DFN_HEX</DATEN-FORMAT_NAME>").
    split; [exact Hs|]. split; [exact Hz|].
    rewrite Fs, Fg, <- Es, <- Ez.
    split; [reflexivity|]. split; [reflexivity|].
    rewrite vcp_text, !leaf_xml_0x, leaf_xml_hex_data.
    repeat (progress (cbn [append]; rewrite ?append_assoc)).
    reflexivity. }
  split; [exact Fd|].
  split.
  { rewrite Fd. unfold convert_to_binary. cbv zeta.
    rewrite clean_hex_data, unhexlify_hex_pairs. reflexivity. }
  split.
  { unfold parse_odis_file. rewrite Hdoc. reflexivity. }
  repeat split.
Qed.

Lemma vcp_data_region_witness :
  sample_fromstring sample_document = Ok sample_tree
  /\ (exists start size before,
        is_lower_hex start (Z.abs_N (start_address second_dataset))
        /\ is_lower_hex size (N.of_nat (List.length (data second_dataset)))
        /\ ET.field (vcp_tree second_dataset "sample") "START-ADR"
           = Some ("0x" ++ (if start_address second_dataset <? 0
                            then "-" ++ start else start))
        /\ ET.field (vcp_tree second_dataset "sample") "GROESSE-DEKOMPRIMIERT"
           = Some ("0x" ++ size)
        /\ vcp (convert_dataset_to_vcp second_dataset "sample")
           = before
               ++ "<START-ADR>0x"
               ++ (if start_address second_dataset <? 0
                   then "-" ++ start else start)
               ++ "</START-ADR><GROESSE-DEKOMPRIMIERT>0x" ++ size
               ++ "</GROESSE-DEKOMPRIMIERT>"
               ++ match data second_dataset with
                  | [] => "<DATEN />"
                  | _ :: _ =>
                      "<DATEN>" ++ hex_data (data second_dataset) ++ "</DATEN>"
                  end
               ++ "</DATENBEREICH></DATENBEREICHE></SW-CNT>")
  /\ ET.field (vcp_tree second_dataset "sample") "DATEN"
     = Some (hex_data (data second_dataset))
  /\ convert_to_binary (ET.field (vcp_tree second_dataset "sample") "DATEN")
     = Ok (data second_dataset)
  /\ parse_odis_file sample_fromstring sample_document = Ok [sample_dataset]
  /\ ET.field (vcp_tree sample_dataset "sample") "DATAIID" = Some "sample-12"
  /\ ET.field (vcp_tree sample_dataset "sample") "START-ADR" = Some "0x100"
  /\ ET.field (vcp_tree sample_dataset "sample") "GROESSE-DEKOMPRIMIERT" = Some "0x4"
  /\ ET.field (vcp_tree sample_dataset "sample") "DATEN"
     = Some "0x01,0x02,0x03,0x04"
  /\ vcp (convert_dataset_to_vcp sample_dataset "sample")
     = "<SW-CNT><IDENT><LOGIN /><DATAIID>sample-12</DATAIID><VERSION-INHALT /></IDENT><DATENBEREICHE><DATENBEREICH><DATEN-NAME>sample-12</DATEN-NAME><DATEN-FORMAT_NAME>DFN_HEX</DATEN-FORMAT_NAME><START-ADR>0x100</START-ADR><GROESSE-DEKOMPRIMIERT>0x4</GROESSE-DEKOMPRIMIERT><DATEN>0x01,0x02,0x03,0x04</DATEN></DATENBEREICH></DATENBEREICHE></SW-CNT>".
Proof.
  split; [reflexivity|].
  apply (vcp_data_region sample_fromstring sample_document
                         second_dataset "sample").
  reflexivity.
Defined.

Example second_vcp_fields :
  ET.field (vcp_tree second_dataset "sample") "DATAIID" = Some "second"
  /\ ET.field (vcp_tree second_dataset "sample") "START-ADR" = Some "0x200"
  /\ ET.field (vcp_tree second_dataset "sample") "GROESSE-DEKOMPRIMIERT" = Some "0x5"
  /\ ET.field (vcp_tree second_dataset "sample") "DATEN"
     = Some "0xaa,0xbb,0xcc,0xdd,0xee".
Proof. repeat split. Qed.

(** ** The pipeline *)

Lemma update_step_modinput (args : Namespace) (m : InFile bytes)
      (new_data : bytes) (d : DatasetODIS) (rest : list DatasetODIS) :
  modinput args = Some m ->
  read m = Ok new_data ->
  update_step args (d :: rest)
  = (Ok (Some (crc32 (Py.slice_to_neg new_data 4))),
     snd (update_crc d new_data) :: rest).
Proof.
  intros Hm Hr. unfold update_step. rewrite Hm, Hr, update_crc_eq.
  reflexivity.
Qed.

(** The export of a first conversion result, for every command line:
    [--output] takes the place of the file that the script opens, a text
    file refuses the bytes of raw mode, and the operating system decides
    the rest. *)
Lemma export_output_first (stem : string -> string) (fs : FileSystem)
      (args : Namespace) (first : ConversionResult)
      (others : list ConversionResult) (new_crc : option Z) :
  let p := if raw args then Binary (data (dataset first))
           else Text (vcp first) in
  export_output stem fs (first :: others) args
                (stem (fname (input args))) new_crc
  = match output args with
    | Some path =>
        if raw args then (Raise TypeError, [])
        else match write_error fs (fst (FileType_w path)) p with
             | None => (Ok tt, [Written (out_name (fst (FileType_w path))) p])
             | Some e => (Raise e, [])
             end
    | None =>
        let out := default_output stem args in
        match open_error fs (out_name out) (out_mode out) with
        | Some e => (Raise e, [])
        | None =>
            match write_error fs out p with
            | None => (Ok tt, [Opened (out_name out) (out_mode out);
                               Written (out_name out) p])
            | Some e => (Raise e, [Opened (out_name out) (out_mode out)])
            end
        end
    end.
Proof.
  cbv zeta.
  unfold export_output, with_output, write, output_or_open, default_output,
    FileType_w.
  destruct (output args) as [path|].
  - destruct (raw args).
    + destruct (String.eqb path "-"); reflexivity.
    + destruct (modinput args);
        destruct (String.eqb path "-"); cbn;
        match goal with
        | |- context [write_error ?f ?o ?p] => destruct (write_error f o p)
        end; reflexivity.
  - destruct (raw args); [|destruct (modinput args)]; cbn;
      match goal with
      | |- context [open_error ?f ?n ?m] => destruct (open_error f n m)
      end; try reflexivity; cbn;
      match goal with
      | |- context [write_error ?f ?o ?p] => destruct (write_error f o p)
      end; reflexivity.
Qed.

(** C9 fails in raw mode with [--output]: on the command line
    [sample.xml --raw --modinput mod.bin --output out.bin], whose document
    has two datasets, the first conversion result is not written.  The file
    of [--output] is open as text and refuses the bytes with a [TypeError];
    whatever the file system answers, the run ends with status 1, no payload
    is written, and the file that [parse_arguments] has opened is left
    empty. *)
Theorem main_raw_output_not_written :
  read (input raw_output_args) = Ok pair_document
  /\ parse_odis_file sample_fromstring pair_document
     = Ok [sample_dataset; second_dataset]
  /\ raw raw_output_args = true
  /\ output raw_output_args = Some "out.bin"
  /\ (forall fs,
        export_output sample_stem fs
          (convert_to_vcp
             (snd (update_step raw_output_args
                               [sample_dataset; second_dataset])) "sample")
          raw_output_args "sample"
          (Some (crc32 (Py.slice_to_neg replacement_payload 4)))
        = (Raise TypeError, []))
  /\ (forall fs,
        main sample_fromstring sample_stem fs raw_output_args
        = (1, [Opened "out.bin" TextMode])).
Proof.
  split; [reflexivity|].
  split; [reflexivity|]. split; [reflexivity|]. split; [reflexivity|].
  split; intros fs; vm_compute; reflexivity.
Qed.

Example main_vcp_run :
  main sample_fromstring sample_stem sample_fs (sample_args false)
  = (0, [Opened "VCP_mod_sample_by_mod.xml" TextMode;
         Written "VCP_mod_sample_by_mod.xml"
          (Text "<SW-CNT><IDENT><LOGIN /><DATAIID>sample-12</DATAIID><VERSION-INHALT /></IDENT><DATENBEREICHE><DATENBEREICH><DATEN-NAME>sample-12</DATEN-NAME><DATEN-FORMAT_NAME>DFN_HEX</DATEN-FORMAT_NAME><START-ADR>0x100</START-ADR><GROESSE-DEKOMPRIMIERT>0x6</GROESSE-DEKOMPRIMIERT><DATEN>0x10,0x20,0x66,0x20,0x75,0x30</DATEN></DATENBEREICH></DATENBEREICHE></SW-CNT>")]).
Proof. vm_compute. reflexivity. Qed.

Example main_raw_run :
  main sample_fromstring sample_stem sample_fs (sample_args true)
  = (0, [Opened "RAW_sample.bin" BinaryMode;
         Written "RAW_sample.bin" (Binary [x10; x20; x66; x20; x75; x30])]).
Proof. vm_compute. reflexivity. Qed.

Example main_full_disk_run :
  main sample_fromstring sample_stem full_fs (sample_args true)
  = (1, [Opened "RAW_sample.bin" BinaryMode]).
Proof. vm_compute. reflexivity. Qed.

Example main_malformed_run :
  main sample_fromstring sample_stem sample_fs
       (mkNamespace (mkInFile "sample.xml" (Ok malformed_document))
                    (Some "out.xml") false None)
  = (1, [Opened "out.xml" TextMode]).
Proof. reflexivity. Qed.

Example main_unreadable_run :
  main sample_fromstring sample_stem sample_fs
       (mkNamespace (mkInFile "sample.xml" (Raise UnicodeError))
                    (Some "out.xml") false None)
  = (1, [Opened "out.xml" TextMode]).
Proof. reflexivity. Qed.

Example main_stdout_run :
  exists s,
    main sample_fromstring sample_stem sample_fs (plain_args (Some "-") false)
    = (0, [Written "<stdout>" (Text s)]).
Proof. eexists. vm_compute. reflexivity. Qed.

(** * Further properties of the script *)

(** ** [update_crc] on every payload *)

Lemma slice_to_neg_app {A : Type} (l footer : list A) :
  Py.slice_to_neg (l ++ footer)%list (List.length footer) = l.
Proof.
  unfold Py.slice_to_neg. rewrite length_app.
  replace (List.length l + List.length footer - List.length footer)%nat
    with (List.length l + 0)%nat by lia.
  rewrite firstn_app_2, firstn_O. apply app_nil_r.
Qed.

(** X1: [update_crc] returns normally on every payload, whatever its
    length: the value returned is a CRC below 2^32, the payload stored has
    [max(len(new_data), 4)] bytes, and the address, the start address, the
    name, the version and the login of the dataset are as before. *)
Theorem update_crc_total (ds : DatasetODIS) (new_data : bytes) :
  exists crc,
    fst (update_crc ds new_data) = Ok crc
    /\ 0 <= crc < 2 ^ 32
    /\ List.length (data (snd (update_crc ds new_data)))
       = Nat.max (List.length new_data) 4
    /\ address (snd (update_crc ds new_data)) = address ds
    /\ start_address (snd (update_crc ds new_data)) = start_address ds
    /\ name (snd (update_crc ds new_data)) = name ds
    /\ version (snd (update_crc ds new_data)) = version ds
    /\ login (snd (update_crc ds new_data)) = login ds.
Proof.
  rewrite update_crc_eq. cbn [fst snd set_data data address start_address
                              name version login].
  eexists. split; [reflexivity|].
  split; [apply crc32_range|].
  split; [|repeat split].
  rewrite length_app, length_le_bytes. unfold Py.slice_to_neg.
  rewrite length_firstn. lia.
Qed.

(** X2: updating a dataset with the payload that an update has just stored
    changes nothing: the same CRC is returned and the payload stays as it
    is. *)
Theorem update_crc_idempotent (ds : DatasetODIS) (new_data : bytes) :
  let updated := snd (update_crc ds new_data) in
  update_crc updated (data updated) = update_crc ds new_data.
Proof.
  cbv zeta. rewrite !update_crc_eq. cbn [snd data set_data].
  set (base := Py.slice_to_neg new_data 4).
  set (footer := Py.le_bytes 4 (Z.to_N (crc32 base))).
  assert (E : Py.slice_to_neg (base ++ footer)%list 4 = base).
  { replace 4%nat with (List.length footer) by apply length_le_bytes.
    apply slice_to_neg_app. }
  rewrite E. reflexivity.
Qed.

(** ** The checksum of an updated payload *)

Lemma byte_value_byte_of_N (n : N) :
  crcmod.byte_value (Py.byte_of_N n) = Z.land (Z.of_N n) 255.
Proof.
  unfold crcmod.byte_value. rewrite to_N_byte_of_N.
  change 255 with (Z.ones 8). rewrite Z.land_ones by lia.
  rewrite N2Z.inj_mod. reflexivity.
Qed.

(** Feeding the [k] little-endian bytes of [v] is [8 k] shifts of the
    register combined with [v]. *)
Lemma fold_feed_r_le_bytes (P : Z) (k : nat) (v : N) (reg : Z) :
  (v < 256 ^ N.of_nat k)%N ->
  fold_left (CrcModel.feed_r P) (Py.le_bytes k v) reg
  = Nat.iter (8 * k) (CrcModel.step_r P) (Z.lxor reg (Z.of_N v)).
Proof.
  revert v reg. induction k as [|k IH]; intros v reg Hv.
  - change (256 ^ N.of_nat 0)%N with 1%N in Hv.
    assert (v = 0%N) by lia. subst v.
    cbn [Py.le_bytes fold_left]. rewrite Z.lxor_0_r. reflexivity.
  - cbn [Py.le_bytes fold_left].
    assert (Hq : (v / 256 < 256 ^ N.of_nat k)%N).
    { apply N.Div0.div_lt_upper_bound.
      rewrite Nat2N.inj_succ, N.pow_succ_r' in Hv. exact Hv. }
    rewrite IH by assumption.
    replace (8 * S k)%nat with (8 * k + 8)%nat by lia.
    rewrite Nat.iter_add. f_equal.
    unfold CrcModel.feed_r. rewrite byte_value_byte_of_N.
    set (V := Z.of_N v).
    assert (E1 : Z.land (Z.of_N (v mod 256)) 255 = Z.land V 255).
    { rewrite N2Z.inj_mod. change (Z.of_N 256) with (2 ^ 8).
      rewrite <- Z.land_ones by lia. change (Z.ones 8) with 255.
      rewrite <- Z.land_assoc. reflexivity. }
    assert (E2 : Z.of_N (v / 256) = Z.shiftr V 8).
    { rewrite Z.shiftr_div_pow2, N2Z.inj_div by lia. reflexivity. }
    rewrite E1, E2.
    replace (Z.lxor reg V)
      with (Z.lxor (Z.lxor reg (Z.land V 255)) (Z.shiftl (Z.shiftr V 8) 8))
      by (rewrite Z.lxor_assoc, <- split_low_byte; reflexivity).
    rewrite (iter_step_r_lxor P 8 (Z.lxor reg (Z.land V 255))). f_equal.
    pose proof (iter_step_r_shiftl P (Z.shiftr V 8) 8 0 ltac:(lia)) as H.
    rewrite Z.shiftl_0_r in H. symmetry. exact H.
Qed.

Lemma crc32_with_footer (base : bytes) :
  crc32 (base ++ Py.le_bytes 4 (Z.to_N (crc32 base)))%list = 0x2144DF1C.
Proof.
  pose proof (crc32_range base) as Hr.
  rewrite (crc32_lsb_first_eq (base ++ _)%list).
  unfold CrcModel.crc32_lsb_first. rewrite fold_left_app.
  rewrite fold_feed_r_le_bytes
    by (change (256 ^ N.of_nat 4)%N with 4294967296%N; lia).
  rewrite Z2N.id by lia.
  rewrite crc32_lsb_first_eq. unfold CrcModel.crc32_lsb_first.
  rewrite <- Z.lxor_assoc, Z.lxor_nilpotent, Z.lxor_0_l.
  vm_compute. reflexivity.
Qed.

(** X3: the payload that [update_crc] stores always has the residue of
    CRC-32: the checksum of the whole payload, footer included, is
    [0x2144DF1C], whatever the new data. *)
Theorem update_crc_residue (ds : DatasetODIS) (new_data : bytes) :
  crc32 (data (snd (update_crc ds new_data))) = 0x2144DF1C.
Proof.
  rewrite update_crc_eq. cbn [snd data set_data]. apply crc32_with_footer.
Qed.

(** ** What the checksum detects *)

Lemma lxor_cancel_l (c a b : Z) : Z.lxor c a = Z.lxor c b -> a = b.
Proof.
  intros H.
  rewrite <- (Z.lxor_0_l a), <- (Z.lxor_0_l b), <- (Z.lxor_nilpotent c).
  rewrite !Z.lxor_assoc, H. reflexivity.
Qed.

Lemma lxor_cancel_r (c a b : Z) : Z.lxor a c = Z.lxor b c -> a = b.
Proof. rewrite !(Z.lxor_comm _ c). apply lxor_cancel_l. Qed.

Lemma step_r_zero (c : Z) :
  0 <= c < 2 ^ 32 -> CrcModel.step_r CrcModel.poly32_r c = 0 -> c = 0.
Proof.
  intros Hc. unfold CrcModel.step_r. rewrite Z.bit0_odd.
  assert (Hs : 0 <= Z.shiftr c 1 < 2 ^ 31).
  { rewrite Z.shiftr_div_pow2 by lia. change (2 ^ 1) with 2.
    split; [apply Z.div_pos; lia|].
    apply Z.div_lt_upper_bound; lia. }
  pose proof (Z.div_mod c 2 ltac:(lia)) as Hd.
  rewrite Z.shiftr_div_pow2 in * by lia. change (2 ^ 1) with 2 in *.
  destruct (Z.odd c) eqn:Ho.
  - intros H. apply Z.lxor_eq in H. rewrite poly32_r_value in H. lia.
  - intros H. rewrite Zmod_odd, Ho in Hd. lia.
Qed.

Lemma iter_step_r_zero (n : nat) (c : Z) :
  0 <= c < 2 ^ 32 ->
  Nat.iter n (CrcModel.step_r CrcModel.poly32_r) c = 0 -> c = 0.
Proof.
  intros Hc. induction n as [|n IH]; [trivial|].
  rewrite Nat.iter_succ. intros H. apply IH.
  apply step_r_zero; [|exact H].
  apply iter_step_r_range; [apply poly32_r_range | exact Hc].
Qed.

Lemma iter_step_r_inj (n : nat) (a b : Z) :
  0 <= a < 2 ^ 32 -> 0 <= b < 2 ^ 32 ->
  Nat.iter n (CrcModel.step_r CrcModel.poly32_r) a
  = Nat.iter n (CrcModel.step_r CrcModel.poly32_r) b ->
  a = b.
Proof.
  intros Ha Hb H. apply Z.lxor_eq.
  apply (iter_step_r_zero n); [apply lxor_range; lia|].
  rewrite iter_step_r_lxor, H. apply Z.lxor_nilpotent.
Qed.

Lemma byte_value_inj (x y : byte) :
  crcmod.byte_value x = crcmod.byte_value y -> x = y.
Proof.
  unfold crcmod.byte_value. intros H. apply N2Z.inj in H.
  pose proof (Byte.of_to_N x) as Hx. rewrite H, Byte.of_to_N in Hx.
  congruence.
Qed.

Lemma byte_value_range32 (x : byte) : 0 <= crcmod.byte_value x < 2 ^ 32.
Proof. pose proof (byte_value_range x). lia. Qed.

Lemma fold_feed_r_inj (l : bytes) (a b : Z) :
  0 <= a < 2 ^ 32 -> 0 <= b < 2 ^ 32 ->
  fold_left (CrcModel.feed_r CrcModel.poly32_r) l a
  = fold_left (CrcModel.feed_r CrcModel.poly32_r) l b ->
  a = b.
Proof.
  revert a b. induction l as [|x l IH]; intros a b Ha Hb H; [exact H|].
  cbn [fold_left] in H.
  apply IH in H; try (apply feed_r_range; (apply poly32_r_range || assumption)).
  unfold CrcModel.feed_r in H.
  apply iter_step_r_inj in H;
    try (apply lxor_range; (lia || apply byte_value_range32)).
  apply lxor_cancel_r in H. exact H.
Qed.

(** X4: the checksum that [update_crc] computes tells apart any two byte
    sequences that differ in exactly one byte: a single damaged byte of the
    payload never leaves the CRC unchanged. *)
Theorem crc32_detects_one_byte (before after : bytes) (x y : byte) :
  x <> y ->
  crc32 (before ++ x :: after)%list <> crc32 (before ++ y :: after)%list.
Proof.
  intros Hxy H. apply Hxy.
  rewrite !crc32_lsb_first_eq in H. unfold CrcModel.crc32_lsb_first in H.
  apply lxor_cancel_r in H.
  rewrite !fold_left_app in H. cbn [fold_left] in H.
  set (reg := fold_left (CrcModel.feed_r CrcModel.poly32_r) before 0xFFFFFFFF) in H.
  assert (Hreg : 0 <= reg < 2 ^ 32)
    by (apply fold_feed_r_range; [apply poly32_r_range | lia]).
  apply fold_feed_r_inj in H;
    try (apply feed_r_range; (apply poly32_r_range || assumption)).
  unfold CrcModel.feed_r in H.
  apply iter_step_r_inj in H;
    try (apply lxor_range; (lia || apply byte_value_range32)).
  apply lxor_cancel_l in H. apply byte_value_inj, H.
Qed.

Lemma crc32_detects_one_byte_witness :
  x20 <> x21
  /\ crc32 ([x10] ++ x20 :: [x30; x40; x50])%list
     <> crc32 ([x10] ++ x21 :: [x30; x40; x50])%list.
Proof.
  split; [discriminate|].
  apply (crc32_detects_one_byte [x10] [x30; x40; x50] x20 x21). discriminate.
Defined.

(** ** The decoder on noisy texts *)

Lemma hex_digit_facts (c : ascii) :
  is_hex_digit c = true ->
  c <> "x"%char /\ c <> ","%char /\ Py.isspace c = false
  /\ (Py.ord c <? 128)%N = true /\ (Py.digit_value c < 16)%N.
Proof.
  intros H. assert (Hd : (Py.digit_value c < 16)%N) by (apply N.ltb_lt, H).
  revert H Hd.
  destruct c as [[] [] [] [] [] [] [] []]; intros H Hd; try discriminate H;
    repeat split; (discriminate || reflexivity || exact Hd).
Qed.

Lemma noise_char_facts (c : ascii) :
  is_noise_char c = true ->
  c <> "0"%char /\ c <> "x"%char
  /\ (Py.isspace c = true \/ (Py.isspace c = false /\ c = ","%char)).
Proof.
  destruct c as [[] [] [] [] [] [] [] []]; intros H; try discriminate H;
    repeat split; try discriminate; (left; reflexivity) || (right; split; reflexivity).
Qed.

Lemma prefix_empty (s : string) : String.prefix "" s = true.
Proof. destruct s; reflexivity. Qed.

Lemma prefix_0x_first c r :
  c <> "0"%char -> String.prefix "0x" (String c r) = false.
Proof.
  intros H. cbn [String.prefix].
  destruct (ascii_dec "0" c); [congruence | reflexivity].
Qed.

(** The first pass works on the two halves of a text separately, unless
    the second half starts with the [x] of a prefix. *)
Lemma replace_0x_app (a b : string) (skip : nat) :
  (skip <= String.length a)%nat -> starts_x b = false ->
  Py.replace_from "0x" "" skip (a ++ b)
  = Py.replace_from "0x" "" skip a ++ Py.replace_from "0x" "" 0 b.
Proof.
  intros Hs Hb. revert skip Hs.
  induction a as [|c tl IH]; intros skip Hs.
  - cbn [String.length] in Hs. assert (skip = 0%nat) by lia. subst skip.
    reflexivity.
  - cbn [append Py.replace_from String.length] in *.
    destruct skip as [|k]; [|apply IH; lia].
    destruct tl as [|d tl'].
    + cbn [append]. destruct b as [|e r].
      * rewrite prefix_0x_last. reflexivity.
      * rewrite prefix_0x_last, prefix_0x_second; [reflexivity|].
        cbn [starts_x] in Hb. intros ->. discriminate Hb.
    + cbn [append String.prefix].
      rewrite !prefix_empty.
      change (String d (tl' ++ b)) with (String d tl' ++ b).
      destruct (ascii_dec "0" c); [destruct (ascii_dec "x" d)|].
      * cbn [String.length Nat.sub append].
        apply (IH 1%nat). cbn [String.length]. lia.
      * rewrite (IH 0%nat) by lia. reflexivity.
      * rewrite (IH 0%nat) by lia. reflexivity.
Qed.

Lemma re_sub_space_app (a b : string) :
  Py.re_sub_space (a ++ b) = Py.re_sub_space a ++ Py.re_sub_space b.
Proof.
  induction a as [|c tl IH]; [reflexivity|].
  cbn [append Py.re_sub_space]. rewrite IH.
  destruct (Py.isspace c); reflexivity.
Qed.

Lemma replace_comma_app (a b : string) :
  Py.replace_from "," "" 0 (a ++ b)
  = Py.replace_from "," "" 0 a ++ Py.replace_from "," "" 0 b.
Proof.
  induction a as [|c tl IH]; [reflexivity|].
  cbn [append Py.replace_from String.prefix].
  rewrite !prefix_empty.
  destruct (ascii_dec "," c); cbn [String.length Nat.sub append];
    rewrite IH; reflexivity.
Qed.

(** The three passes work on the two halves of a text separately, unless
    the second half starts with [x]. *)
Lemma clean_string_app (a b : string) :
  starts_x b = false -> clean_string (a ++ b) = clean_string a ++ clean_string b.
Proof.
  intros Hb. unfold clean_string, Py.replace.
  rewrite replace_0x_app by (lia || assumption).
  rewrite re_sub_space_app. apply replace_comma_app.
Qed.

Lemma clean_string_noise (s : string) :
  is_noise s = true -> clean_string s = "".
Proof.
  unfold is_noise. induction s as [|c tl IH]; [reflexivity|].
  cbn [list_ascii_of_string forallb]. intros H.
  apply andb_prop in H. destruct H as [Hc Htl].
  destruct (noise_char_facts c Hc) as (H0 & _ & Hk).
  specialize (IH Htl). unfold clean_string, Py.replace in *.
  rewrite replace_from_keep by (apply prefix_0x_first, H0).
  cbn [Py.re_sub_space].
  destruct Hk as [-> | [-> ->]]; [exact IH|].
  rewrite replace_comma_here. exact IH.
Qed.

Lemma clean_string_digits (hi lo : ascii) :
  is_hex_digit hi = true -> is_hex_digit lo = true ->
  clean_string (String hi (String lo "")) = String hi (String lo "").
Proof.
  intros Hh Hl.
  destruct (hex_digit_facts hi Hh) as (_ & Ch & Sh & _).
  destruct (hex_digit_facts lo Hl) as (Xl & Cl & Sl & _).
  unfold clean_string, Py.replace.
  rewrite (replace_from_keep "0x" "" hi) by (apply prefix_0x_second, Xl).
  rewrite (replace_from_keep "0x" "" lo) by apply prefix_0x_last.
  cbn [Py.replace_from Py.re_sub_space]. rewrite Sh, Sl.
  rewrite (replace_from_keep "," "" hi), (replace_from_keep "," "" lo)
    by (apply prefix_comma_other; assumption).
  reflexivity.
Qed.

Lemma clean_string_prefixed (s : string) :
  clean_string ("0x" ++ s) = clean_string s.
Proof.
  unfold clean_string, Py.replace. cbn [append].
  rewrite replace_0x_here. reflexivity.
Qed.

Lemma starts_x_digit (c : ascii) (r : string) :
  is_hex_digit c = true -> starts_x (String c r) = false.
Proof.
  intros H. destruct (hex_digit_facts c H) as (Hx & _).
  cbn [starts_x]. destruct (Ascii.eqb_spec c "x"); [contradiction | reflexivity].
Qed.

Lemma starts_x_noise (s r : string) :
  is_noise s = true -> starts_x r = false -> starts_x (s ++ r) = false.
Proof.
  destruct s as [|c tl]; [trivial|].
  unfold is_noise. cbn [list_ascii_of_string forallb append starts_x].
  intros H _. apply andb_prop in H. destruct H as [Hc _].
  destruct (noise_char_facts c Hc) as (_ & Hx & _).
  destruct (Ascii.eqb_spec c "x"); [contradiction | reflexivity].
Qed.

Lemma item_ok_parts (it : hex_item) :
  item_ok it = true ->
  is_noise (item_noise it) = true
  /\ is_hex_digit (item_hi it) = true /\ is_hex_digit (item_lo it) = true.
Proof.
  unfold item_ok. intros H.
  apply andb_prop in H. destruct H as [H Hl].
  apply andb_prop in H. destruct H as [Hn Hh]. auto.
Qed.

Lemma starts_x_item (it : hex_item) (r : string) :
  item_ok it = true -> starts_x (item_text it ++ r) = false.
Proof.
  intros H. destruct (item_ok_parts it H) as (Hn & Hh & Hl).
  unfold item_text. rewrite append_assoc.
  apply starts_x_noise; [assumption|].
  destruct (item_prefix it); [reflexivity|].
  apply starts_x_digit, Hh.
Qed.

Lemma clean_string_item (it : hex_item) :
  item_ok it = true -> clean_string (item_text it) = item_digits it.
Proof.
  intros H. destruct (item_ok_parts it H) as (Hn & Hh & Hl).
  unfold item_text.
  rewrite clean_string_app.
  - rewrite clean_string_noise by assumption. cbn [append].
    destruct (item_prefix it); [rewrite clean_string_prefixed|];
      apply clean_string_digits; assumption.
  - destruct (item_prefix it); [reflexivity|]. apply starts_x_digit, Hh.
Qed.

Lemma starts_x_noisy_text (items : list hex_item) (trail : string) :
  forallb item_ok items = true -> is_noise trail = true ->
  starts_x (noisy_text items trail) = false.
Proof.
  intros Hi Ht. destruct items as [|it rest].
  - cbn [noisy_text fold_right].
    rewrite <- (append_empty trail). apply starts_x_noise; [assumption|reflexivity].
  - cbn [forallb] in Hi. apply andb_prop in Hi. destruct Hi as [Hit _].
    cbn [noisy_text fold_right]. apply starts_x_item, Hit.
Qed.

(** What the passes leave of a noisy text: the digits of its items. *)
Lemma clean_string_noisy_text (items : list hex_item) (trail : string) :
  forallb item_ok items = true -> is_noise trail = true ->
  clean_string (noisy_text items trail)
  = fold_right (fun it s => item_digits it ++ s) "" items.
Proof.
  intros Hi Ht. induction items as [|it rest IH].
  - apply clean_string_noise, Ht.
  - cbn [forallb] in Hi. apply andb_prop in Hi. destruct Hi as [Hit Hrest].
    cbn [noisy_text fold_right]. fold (noisy_text rest trail).
    rewrite clean_string_app by (apply starts_x_noisy_text; assumption).
    rewrite clean_string_item, IH by assumption. reflexivity.
Qed.

Lemma unhexlify_item_digits (items : list hex_item) :
  forallb item_ok items = true ->
  binascii.unhexlify (fold_right (fun it s => item_digits it ++ s) "" items)
  = Ok (map item_byte items).
Proof.
  intros Hi. unfold binascii.unhexlify.
  set (digits := fold_right (fun it s => item_digits it ++ s) "" items).
  assert (H : Py.is_ascii digits = true
              /\ Nat.odd (String.length digits) = false
              /\ binascii.a2b_pairs digits = Ok (map item_byte items)).
  { subst digits. induction items as [|it rest IH]; [repeat split|].
    cbn [forallb] in Hi. apply andb_prop in Hi. destruct Hi as [Hit Hrest].
    destruct (IH Hrest) as (A & O & P).
    destruct (item_ok_parts it Hit) as (_ & Hh & Hl).
    destruct (hex_digit_facts _ Hh) as (_ & _ & _ & Ah & Dh).
    destruct (hex_digit_facts _ Hl) as (_ & _ & _ & Al & Dl).
    cbn [fold_right map]. unfold item_digits at 1 3 5. cbn [append].
    split; [|split].
    - unfold Py.is_ascii in *. cbn [list_ascii_of_string forallb].
      rewrite Ah, Al, A. reflexivity.
    - cbn [String.length]. rewrite Nat.odd_succ_succ. exact O.
    - cbn [binascii.a2b_pairs].
      replace (16 <=? Py.digit_value (item_hi it))%N with false
        by (symmetry; apply N.leb_gt; lia).
      replace (16 <=? Py.digit_value (item_lo it))%N with false
        by (symmetry; apply N.leb_gt; lia).
      cbn [orb]. rewrite P. reflexivity. }
  destruct H as (A & O & P). rewrite A, O. cbn [negb]. exact P.
Qed.

(** X5: [convert_to_binary] reads the bytes of a text whatever the noise:
    each byte is two hexadecimal digits of either case, after [0x] or
    without it, and any white space and commas may stand before, between
    and after the bytes. *)
Theorem convert_to_binary_noisy (items : list hex_item) (trail : string) :
  forallb item_ok items = true -> is_noise trail = true ->
  convert_to_binary (Some (noisy_text items trail)) = Ok (map item_byte items).
Proof.
  intros Hi Ht. unfold convert_to_binary. cbv zeta.
  change (Py.replace (Py.re_sub_space (Py.replace (noisy_text items trail) "0x" ""))
                     "," "")
    with (clean_string (noisy_text items trail)).
  rewrite clean_string_noisy_text, unhexlify_item_digits by assumption.
  reflexivity.
Qed.

Lemma convert_to_binary_noisy_witness :
  forallb item_ok noisy_items = true
  /\ is_noise " " = true
  /\ convert_to_binary (Some (noisy_text noisy_items " "))
     = Ok (map item_byte noisy_items).
Proof.
  split; [reflexivity|]. split; [reflexivity|].
  apply (convert_to_binary_noisy noisy_items " "); reflexivity.
Defined.

Example noisy_text_sample :
  map item_byte noisy_items = [x41; x4a; x00]
  /\ convert_to_binary (Some (noisy_text noisy_items " ")) = Ok [x41; x4a; x00].
Proof. split; reflexivity. Qed.

(** ** When the decoder fails *)

Lemma hex_digits_ascii (s : string) :
  forallb is_hex_digit (list_ascii_of_string s) = true -> Py.is_ascii s = true.
Proof.
  unfold Py.is_ascii. induction s as [|c tl IH]; [reflexivity|].
  cbn [list_ascii_of_string forallb]. intros H.
  apply andb_prop in H. destruct H as [Hc Htl].
  destruct (hex_digit_facts c Hc) as (_ & _ & _ & A & _).
  rewrite A, IH by assumption. reflexivity.
Qed.

(** The outcome of the conversion loop on a text and on the same text
    after one more character. *)
Lemma a2b_pairs_outcome (s : string) :
  (forall c,
      match binascii.a2b_pairs (String c s) with
      | Ok b => well_formed_hex (String c s) = true
                /\ String.length (String c s) = (2 * List.length b)%nat
      | Raise e => well_formed_hex (String c s) = false /\ e = BinasciiError
      end)
  /\ match binascii.a2b_pairs s with
     | Ok b => well_formed_hex s = true
               /\ String.length s = (2 * List.length b)%nat
     | Raise e => well_formed_hex s = false /\ e = BinasciiError
     end.
Proof.
  induction s as [|d tl [IH1 IH2]].
  - split; [|split; reflexivity]. intros c. cbn. split; reflexivity.
  - split; [|apply IH1]. intros c.
    cbn [binascii.a2b_pairs]. unfold well_formed_hex in *.
    cbn [String.length list_ascii_of_string forallb].
    change (Nat.even (S (S (String.length tl))))
      with (Nat.even (String.length tl)).
    rewrite !(N.leb_antisym _ 16).
    change (Py.digit_value c <? 16)%N with (is_hex_digit c).
    change (Py.digit_value d <? 16)%N with (is_hex_digit d).
    destruct (is_hex_digit c); cbn [negb orb andb];
      [|split; [apply andb_false_r | reflexivity]].
    destruct (is_hex_digit d); cbn [negb orb andb];
      [|split; [apply andb_false_r | reflexivity]].
    destruct (binascii.a2b_pairs tl) as [b|e]; cbn [bind].
    + destruct IH2 as [W L]. split; [exact W|]. cbn [List.length]. lia.
    + exact IH2.
Qed.

Lemma unhexlify_outcome (s : string) :
  match binascii.unhexlify s with
  | Ok b => well_formed_hex s = true
            /\ String.length s = (2 * List.length b)%nat
  | Raise e =>
      well_formed_hex s = false
      /\ e = (if Py.is_ascii s then BinasciiError else ValueError)
  end.
Proof.
  unfold binascii.unhexlify.
  destruct (Py.is_ascii s) eqn:A; cbn [negb].
  - destruct (Nat.odd (String.length s)) eqn:O.
    + split; [|reflexivity]. unfold well_formed_hex.
      rewrite <- Nat.negb_odd, O. reflexivity.
    + apply (a2b_pairs_outcome s).
  - split; [|reflexivity]. unfold well_formed_hex.
    destruct (forallb is_hex_digit (list_ascii_of_string s)) eqn:H;
      [|apply andb_false_r].
    apply hex_digits_ascii in H. congruence.
Qed.

(** X6: [convert_to_binary] succeeds exactly on the texts whose cleaned
    form has an even number of characters that are all hexadecimal digits,
    and then gives one byte for every two of them; on any other text it
    raises [binascii.Error], or [ValueError] when the cleaned form is not
    ASCII. *)
Theorem convert_to_binary_outcome (s : string) :
  match convert_to_binary (Some s) with
  | Ok b =>
      well_formed_hex (clean_string s) = true
      /\ String.length (clean_string s) = (2 * List.length b)%nat
  | Raise e =>
      well_formed_hex (clean_string s) = false
      /\ e = (if Py.is_ascii (clean_string s) then BinasciiError else ValueError)
  end.
Proof.
  unfold convert_to_binary. cbv zeta.
  change (Py.replace (Py.re_sub_space (Py.replace s "0x" "")) "," "")
    with (clean_string s).
  pose proof (unhexlify_outcome (clean_string s)) as H.
  destruct (binascii.unhexlify (clean_string s)) as [b|e]; [exact H|].
  destruct H as [W E]. destruct e; (split; [exact W | exact E]).
Qed.

Lemma replace_0x_keeps (c : ascii) (s : string) :
  c <> "0"%char -> c <> "x"%char ->
  (forall d, In c (list_ascii_of_string (String d s)) ->
             In c (list_ascii_of_string (Py.replace (String d s) "0x" "")))
  /\ (In c (list_ascii_of_string s) -> In c (list_ascii_of_string (Py.replace s "0x" ""))).
Proof.
  intros H0 Hx. unfold Py.replace.
  induction s as [|e tl [IH1 IH2]].
  - split; [|trivial]. intros d H. rewrite replace_from_keep; [exact H|].
    apply prefix_0x_last.
  - split; [|apply IH1]. intros d H.
    cbn [Py.replace_from String.prefix]. rewrite prefix_empty.
    destruct (ascii_dec "0" d) as [<-|]; [destruct (ascii_dec "x" e) as [<-|]|].
    + cbn [String.length Nat.sub append Py.replace_from].
      apply IH2. cbn [list_ascii_of_string In] in H.
      destruct H as [H|[H|H]]; [congruence | congruence | exact H].
    + cbn [list_ascii_of_string In] in *.
      destruct H as [H|H]; [left; exact H | right; apply IH1, H].
    + cbn [list_ascii_of_string In] in *.
      destruct H as [H|H]; [left; exact H | right; apply IH1, H].
Qed.

Lemma re_sub_space_keeps (c : ascii) (s : string) :
  Py.isspace c = false -> In c (list_ascii_of_string s) -> In c (list_ascii_of_string (Py.re_sub_space s)).
Proof.
  intros Hc. induction s as [|d tl IH]; [trivial|].
  cbn [list_ascii_of_string In Py.re_sub_space]. intros [<- | H].
  - rewrite Hc. left. reflexivity.
  - destruct (Py.isspace d); [apply IH, H | right; apply IH, H].
Qed.

Lemma replace_comma_keeps (c : ascii) (s : string) :
  c <> ","%char -> In c (list_ascii_of_string s) -> In c (list_ascii_of_string (Py.replace s "," "")).
Proof.
  intros Hc. unfold Py.replace. induction s as [|d tl IH]; [trivial|].
  cbn [list_ascii_of_string In Py.replace_from String.prefix].
  rewrite prefix_empty. intros H.
  destruct (ascii_dec "," d) as [<-|].
  - cbn [String.length Nat.sub append]. apply IH.
    destruct H as [H|H]; [congruence | exact H].
  - cbn [list_ascii_of_string In].
    destruct H as [H|H]; [left; exact H | right; apply IH, H].
Qed.

(** X7: [convert_to_binary] never passes over a character that it does not
    know: a text that holds, anywhere, a character other than a hexadecimal
    digit, the letter [x], a comma or white space is refused with
    [binascii.Error] or [ValueError]. *)
Theorem convert_to_binary_rejects (s : string) (c : ascii) :
  In c (list_ascii_of_string s) ->
  is_hex_digit c = false -> is_noise_char c = false -> c <> "x"%char ->
  exists e,
    convert_to_binary (Some s) = Raise e
    /\ (e = BinasciiError \/ e = ValueError).
Proof.
  intros Hin Hh Hn Hx.
  assert (H0 : c <> "0"%char) by (intros ->; discriminate Hh).
  unfold is_noise_char in Hn. apply orb_false_elim in Hn.
  destruct Hn as [Hs Hc].
  assert (Hcomma : c <> ","%char)
    by (intros ->; discriminate Hc).
  assert (Hclean : In c (list_ascii_of_string (clean_string s))).
  { unfold clean_string. cbv zeta.
    apply replace_comma_keeps; [assumption|].
    apply re_sub_space_keeps; [assumption|].
    apply (replace_0x_keeps c s); assumption. }
  assert (W : well_formed_hex (clean_string s) = false).
  { unfold well_formed_hex.
    destruct (forallb is_hex_digit (list_ascii_of_string (clean_string s)))
      eqn:F; [|apply andb_false_r].
    rewrite forallb_forall in F. rewrite (F c Hclean) in Hh. discriminate. }
  unfold convert_to_binary. cbv zeta.
  change (Py.replace (Py.re_sub_space (Py.replace s "0x" "")) "," "")
    with (clean_string s).
  pose proof (unhexlify_outcome (clean_string s)) as H.
  destruct (binascii.unhexlify (clean_string s)) as [b|e].
  - destruct H as [H _]. congruence.
  - destruct H as [_ ->].
    destruct (Py.is_ascii (clean_string s)); eexists; split;
      try reflexivity; auto.
Qed.

Lemma convert_to_binary_rejects_witness :
  In "X"%char (list_ascii_of_string "0X41")
  /\ is_hex_digit "X" = false /\ is_noise_char "X" = false
  /\ "X"%char <> "x"%char
  /\ exists e,
      convert_to_binary (Some "0X41") = Raise e
      /\ (e = BinasciiError \/ e = ValueError).
Proof.
  split; [right; left; reflexivity|].
  split; [reflexivity|]. split; [reflexivity|]. split; [discriminate|].
  apply (convert_to_binary_rejects "0X41" "X");
    [right; left; reflexivity | reflexivity | reflexivity | discriminate].
Defined.

(** ** Reading back the numbers that the script writes *)

Lemma lower_hex_facts (c : ascii) :
  lower_hex_digit c = true ->
  Py.is_underscore c = false /\ Py.int_space c = false
  /\ (Py.digit_value c <? 16)%N = true
  /\ Ascii.eqb c "+" = false /\ Ascii.eqb c "-" = false
  /\ Ascii.eqb c "x" = false /\ Ascii.eqb c "X" = false.
Proof.
  destruct c as [[] [] [] [] [] [] [] []]; intros H; try discriminate H;
    repeat split.
Qed.

Lemma read_sign_spec (c : ascii) (tl : string) :
  Py.read_sign (String c tl)
  = if Ascii.eqb c "+" then (1, tl)
    else if Ascii.eqb c "-" then (-1, tl)
    else (1, String c tl).
Proof. destruct c as [[] [] [] [] [] [] [] []]; reflexivity. Qed.

Lemma read_prefix_other (c : ascii) (tl : string) :
  Ascii.eqb c "0" = false -> Py.read_prefix (String c tl) = String c tl.
Proof.
  destruct c as [[] [] [] [] [] [] [] []]; intros H; try discriminate H;
    reflexivity.
Qed.

Lemma read_prefix_zero (d : ascii) (tl : string) :
  Ascii.eqb d "x" = false -> Ascii.eqb d "X" = false ->
  Py.read_prefix (String "0" (String d tl)) = String "0" (String d tl).
Proof.
  destruct d as [[] [] [] [] [] [] [] []]; intros H1 H2;
    try discriminate H1; try discriminate H2; reflexivity.
Qed.

Lemma read_prefix_0x (d : ascii) (tl : string) :
  Py.is_underscore d = false ->
  Py.read_prefix (String "0" (String "x" (String d tl))) = String d tl.
Proof.
  destruct d as [[] [] [] [] [] [] [] []]; intros H; try discriminate H;
    reflexivity.
Qed.

Lemma not_underscore_branch {T : Type} (A B : T) (c : ascii) (tl : string) :
  Py.is_underscore c = false ->
  match String c tl with
  | String "_" _ => A
  | _ => B
  end = B.
Proof.
  destruct c as [[] [] [] [] [] [] [] []]; intros H; try discriminate H;
    reflexivity.
Qed.

(** The digit loop on a numeral reads it to its end. *)
Lemma scan_digits_numeral (l : list ascii) (acc : Z) (seen : bool) :
  forallb lower_hex_digit l = true ->
  Py.scan_digits (string_of_list_ascii l) false acc seen
  = Some (fold_left (fun a c => a * 16 + Z.of_N (Py.digit_value c)) l acc,
          match l with [] => seen | _ :: _ => true end, "").
Proof.
  revert acc seen. induction l as [|c l IH]; intros acc seen H.
  - reflexivity.
  - cbn [forallb] in H. apply andb_prop in H. destruct H as [Hc Hl].
    destruct (lower_hex_facts c Hc) as (U & _ & D & _).
    cbn [string_of_list_ascii Py.scan_digits fold_left].
    rewrite U, D, IH by assumption. destruct l; reflexivity.
Qed.

Lemma fold_digits_Z (l : list ascii) (acc : N) :
  fold_left (fun a c => a * 16 + Z.of_N (Py.digit_value c)) l (Z.of_N acc)
  = Z.of_N (fold_left (fun a c => (a * 16 + Py.digit_value c)%N) l acc).
Proof.
  revert acc. induction l as [|c l IH]; intros acc; [reflexivity|].
  cbn [fold_left]. rewrite <- IH. f_equal. lia.
Qed.

(** What the parser of literals does after the sign and the prefix, on a
    numeral. *)
Lemma parse_numeral (digits : string) (n : N) (sign : Z) :
  is_lower_hex digits n ->
  exists c tl,
    digits = String c tl
    /\ lower_hex_digit c = true
    /\ match Py.scan_digits digits false 0 false with
       | None => None
       | Some (_, false, _) => None
       | Some (v, true, rest) =>
           match Py.skip_space rest with
           | EmptyString => Some (sign * v)
           | String _ _ => None
           end
       end = Some (sign * Z.of_N n).
Proof.
  intros (Hne & Hall & _ & Hval).
  rewrite <- (string_of_list_ascii_of_string digits).
  destruct (list_ascii_of_string digits) as [|c l] eqn:E;
    [contradiction Hne; reflexivity|].
  exists c, (string_of_list_ascii l). split; [reflexivity|].
  split; [cbn [forallb] in Hall; apply andb_prop in Hall; apply Hall|].
  rewrite scan_digits_numeral by assumption.
  change 0 with (Z.of_N 0). rewrite fold_digits_Z, Hval. reflexivity.
Qed.

Lemma parse_int16_numeral (digits : string) (n : N) :
  is_lower_hex digits n -> Py.parse_int16 digits = Some (Z.of_N n).
Proof.
  intros H. destruct (parse_numeral digits n 1 H) as (c & tl & -> & Hc & P).
  destruct (lower_hex_facts c Hc) as (U & S & _ & Hp & Hm & _).
  unfold Py.parse_int16. cbn [Py.skip_space]. rewrite S.
  rewrite read_sign_spec, Hp, Hm.
  assert (R : Py.read_prefix (String c tl) = String c tl).
  { destruct (Ascii.eqb_spec c "0") as [->|Hz];
      [|apply read_prefix_other; destruct (Ascii.eqb_spec c "0"); congruence].
    destruct tl as [|d tl']; [reflexivity|].
    destruct H as (_ & Hall & Hhd & _).
    cbn [list_ascii_of_string hd] in Hhd. discriminate (Hhd eq_refl). }
  rewrite R, not_underscore_branch by assumption.
  rewrite P. f_equal; lia.
Qed.

Lemma parse_int16_minus_numeral (digits : string) (n : N) :
  is_lower_hex digits n -> Py.parse_int16 ("-" ++ digits) = Some (- Z.of_N n).
Proof.
  intros H. destruct (parse_numeral digits n (-1) H) as (c & tl & -> & Hc & P).
  destruct (lower_hex_facts c Hc) as (U & S & _ & Hp & Hm & _).
  unfold Py.parse_int16. cbn [append Py.skip_space].
  change (Py.int_space "-") with false. cbv iota.
  rewrite read_sign_spec. cbn [Ascii.eqb Bool.eqb]. cbv iota.
  assert (R : Py.read_prefix (String c tl) = String c tl).
  { destruct (Ascii.eqb_spec c "0") as [->|Hz];
      [|apply read_prefix_other; destruct (Ascii.eqb_spec c "0"); congruence].
    destruct tl as [|d tl']; [reflexivity|].
    destruct H as (_ & Hall & Hhd & _).
    cbn [list_ascii_of_string hd] in Hhd. discriminate (Hhd eq_refl). }
  rewrite R, not_underscore_branch by assumption.
  rewrite P. f_equal; lia.
Qed.

Lemma parse_int16_0x_numeral (digits : string) (n : N) :
  is_lower_hex digits n -> Py.parse_int16 ("0x" ++ digits) = Some (Z.of_N n).
Proof.
  intros H. destruct (parse_numeral digits n 1 H) as (c & tl & -> & Hc & P).
  destruct (lower_hex_facts c Hc) as (U & S & _ & Hp & Hm & _).
  unfold Py.parse_int16. cbn [append Py.skip_space].
  change (Py.int_space "0") with false. cbv iota.
  rewrite read_sign_spec. cbn [Ascii.eqb Bool.eqb]. cbv iota.
  rewrite read_prefix_0x, not_underscore_branch by assumption.
  rewrite P. f_equal; lia.
Qed.

Lemma parse_int16_0x_minus (s : string) :
  Py.parse_int16 ("0x-" ++ s) = None.
Proof. reflexivity. Qed.

(** X8: a number written by the format [x] is read back by [int(s, 16)],
    negative numbers included: the address in a fallback name is a literal
    of the parser of addresses. *)
Theorem int_base16_format_x (n : Z) : Py.int_base16 (Py.format_x n) = Ok n.
Proof.
  unfold Py.int_base16, Py.format_x.
  pose proof (hex_of_N_spec (Z.abs_N n)) as H.
  destruct (Z.ltb_spec n 0).
  - rewrite (parse_int16_minus_numeral _ _ H). f_equal.
    rewrite N2Z.inj_abs_N. lia.
  - rewrite (parse_int16_numeral _ _ H). f_equal.
    rewrite N2Z.inj_abs_N. lia.
Qed.

(** X9: the data region of a serialized dataset can be read back with the
    readers of the script: [convert_to_binary] gives the payload from the
    text of [DATEN], [int(s, 16)] gives the number of its bytes from the
    text of [GROESSE-DEKOMPRIMIERT], and the start address from the text of
    [START-ADR] unless that address is negative, in which case the text is
    not a literal and [int] raises [ValueError]. *)
Theorem vcp_data_region_read_back (ds : DatasetODIS) (input_name : string) :
  exists start size payload,
    ET.field (vcp_tree ds input_name) "START-ADR" = Some start
    /\ ET.field (vcp_tree ds input_name) "GROESSE-DEKOMPRIMIERT" = Some size
    /\ ET.field (vcp_tree ds input_name) "DATEN" = Some payload
    /\ Py.int_base16 start
       = (if start_address ds <? 0 then Raise ValueError
          else Ok (start_address ds))
    /\ Py.int_base16 size = Ok (Z.of_nat (List.length (data ds)))
    /\ convert_to_binary (Some payload) = Ok (data ds).
Proof.
  destruct (vcp_tree_fields ds input_name) as (_ & _ & _ & _ & _ & Fs & Fg & Fd).
  eexists _, _, _. split; [exact Fs|]. split; [exact Fg|]. split; [exact Fd|].
  assert (Hsize : Py.int_base16
                    ("0x" ++ Py.format_x (Z.of_nat (List.length (data ds))))
                  = Ok (Z.of_nat (List.length (data ds)))).
  { unfold Py.int_base16, Py.format_x.
    destruct (Z.ltb_spec (Z.of_nat (List.length (data ds))) 0); [lia|].
    rewrite (parse_int16_0x_numeral _ _ (hex_of_N_spec _)).
    rewrite N2Z.inj_abs_N. f_equal. lia. }
  assert (Hdec : convert_to_binary (Some (hex_data (data ds))) = Ok (data ds)).
  { unfold convert_to_binary. cbv zeta.
    rewrite clean_hex_data, unhexlify_hex_pairs. reflexivity. }
  split; [|split; [exact Hsize | exact Hdec]].
  unfold Py.int_base16, Py.format_x.
  destruct (Z.ltb_spec (start_address ds) 0).
  - change ("0x" ++ "-" ++ Py.hex_of_N (Z.abs_N (start_address ds)))
      with ("0x-" ++ Py.hex_of_N (Z.abs_N (start_address ds))).
    rewrite parse_int16_0x_minus. reflexivity.
  - rewrite (parse_int16_0x_numeral _ _ (hex_of_N_spec _)).
    rewrite N2Z.inj_abs_N. f_equal. lia.
Qed.

(** ** Markup in the serialized dataset *)

Lemma list_ascii_app (a b : string) :
  list_ascii_of_string (a ++ b)
  = (list_ascii_of_string a ++ list_ascii_of_string b)%list.
Proof.
  induction a as [|x a IH]; [reflexivity|].
  cbn [append list_ascii_of_string]. rewrite IH. reflexivity.
Qed.

Lemma count_char_app (c : ascii) (a b : string) :
  count_char c (a ++ b) = (count_char c a + count_char c b)%nat.
Proof.
  unfold count_char. rewrite list_ascii_app, filter_app. apply length_app.
Qed.

Lemma count_char_cons (c x : ascii) (s : string) :
  count_char c (String x s)
  = ((if Ascii.eqb c x then 1 else 0) + count_char c s)%nat.
Proof.
  unfold count_char. cbn [list_ascii_of_string filter].
  destruct (Ascii.eqb c x); reflexivity.
Qed.

Lemma prefix_char (c x : ascii) (tl : string) :
  String.prefix (String c "") (String x tl) = Ascii.eqb c x.
Proof.
  cbn [String.prefix].
  destruct (ascii_dec c x) as [->|Hn].
  - rewrite Ascii.eqb_refl. apply prefix_empty.
  - destruct (Ascii.eqb_spec c x); [contradiction | reflexivity].
Qed.

Lemma replace_char_cons (c x : ascii) (new tl : string) :
  Py.replace (String x tl) (String c "") new
  = (if Ascii.eqb c x then new else String x "")
      ++ Py.replace tl (String c "") new.
Proof.
  unfold Py.replace. cbn [Py.replace_from]. rewrite prefix_char.
  destruct (Ascii.eqb c x); reflexivity.
Qed.

(** Replacing a character by a text without it leaves none. *)
Lemma count_replaced (c : ascii) (new s : string) :
  count_char c new = 0%nat ->
  count_char c (Py.replace s (String c "") new) = 0%nat.
Proof.
  intros Hn. induction s as [|x tl IH]; [reflexivity|].
  rewrite replace_char_cons, count_char_app, IH.
  destruct (Ascii.eqb c x) eqn:E; [lia|].
  rewrite count_char_cons, E. reflexivity.
Qed.

(** Replacing another character by a text without [d] keeps the number of
    occurrences of [d]. *)
Lemma count_replace_other (d c : ascii) (new s : string) :
  Ascii.eqb c d = false -> count_char d new = 0%nat ->
  count_char d (Py.replace s (String c "") new) = count_char d s.
Proof.
  intros Hcd Hn. induction s as [|x tl IH]; [reflexivity|].
  rewrite replace_char_cons, count_char_app, IH, (count_char_cons d x).
  destruct (Ascii.eqb_spec c x) as [<-|Hx].
  - rewrite Hn. rewrite Ascii.eqb_sym, Hcd. reflexivity.
  - rewrite count_char_cons. cbn [count_char list_ascii_of_string filter].
    change (count_char d "") with 0%nat. lia.
Qed.

Lemma escape_cdata_no_markup (s : string) :
  count_char "<" (ET._escape_cdata s) = 0%nat
  /\ count_char ">" (ET._escape_cdata s) = 0%nat.
Proof.
  unfold ET._escape_cdata. cbv zeta. split.
  - rewrite count_replace_other by reflexivity.
    apply count_replaced. reflexivity.
  - apply count_replaced. reflexivity.
Qed.

Lemma leaf_xml_tags (c : ascii) (t s : string) :
  c = "<"%char \/ c = ">"%char ->
  count_char c t = 0%nat ->
  count_char c (leaf_xml t s)
  = tags_of (match s with EmptyString => false | String _ _ => true end).
Proof.
  intros Hc Ht. destruct (escape_cdata_no_markup s) as [El Eg].
  destruct s as [|x tl]; cbn [leaf_xml tags_of].
  - rewrite !count_char_app, Ht. destruct Hc as [-> | ->]; reflexivity.
  - rewrite !count_char_app, Ht.
    destruct Hc as [-> | ->]; [rewrite El | rewrite Eg]; reflexivity.
Qed.

Lemma resolved_name_text (ds : DatasetODIS) (input_name : string) :
  exists c tl, resolved_name ds input_name = String c tl.
Proof.
  unfold resolved_name.
  destruct (name ds) as [[|c tl]|]; eauto;
    destruct input_name as [|c tl]; cbn [append]; eauto.
Qed.

(** X10: the serialized dataset has the tags of its twelve elements and
    no other markup, whatever the name, the login, the version and the
    input name contain: the characters [<] and [>] occur once for each tag,
    where an element without text has one tag and any other has two. *)
Theorem vcp_markup (ds : DatasetODIS) (input_name : string) (c : ascii) :
  c = "<"%char \/ c = ">"%char ->
  count_char c (vcp (convert_dataset_to_vcp ds input_name))
  = (18 + tags_of (Py.truthy (login ds)) + tags_of (Py.truthy (version ds))
     + tags_of (negb (Nat.eqb (List.length (data ds)) 0)))%nat.
Proof.
  intros Hc. rewrite vcp_text. rewrite !count_char_app.
  rewrite !(leaf_xml_tags c)
    by (assumption || (destruct Hc as [-> | ->]; reflexivity)).
  destruct (resolved_name_text ds input_name) as (x & tl & ->).
  assert (Hd : match hex_data (data ds) with
               | EmptyString => false
               | String _ _ => true
               end = negb (Nat.eqb (List.length (data ds)) 0)).
  { pose proof (hex_data_empty (data ds)) as He.
    destruct (data ds) as [|b r]; [reflexivity|].
    destruct (hex_data (b :: r)); [discriminate (He eq_refl) | reflexivity]. }
  rewrite Hd. cbn [append].
  assert (Ho : forall o : option string,
             match Py.or_else o "" with
             | EmptyString => false
             | String _ _ => true
             end = Py.truthy o).
  { intros [[|y r]|]; reflexivity. }
  rewrite !Ho.
  destruct Hc as [-> | ->]; cbn [count_char list_ascii_of_string filter
    Ascii.eqb Bool.eqb List.length]; cbv iota; cbn [List.length];
    unfold tags_of; lia.
Qed.

Lemma vcp_markup_witness :
  ("<"%char = "<"%char \/ "<"%char = ">"%char)
  /\ count_char "<" (vcp (convert_dataset_to_vcp escaped_dataset "in"))
     = 22%nat.
Proof.
  split; [left; reflexivity|].
  apply (vcp_markup escaped_dataset "in" "<"). left. reflexivity.
Defined.

(** ** Entries at any depth *)

Lemma flat_map_flat_map {A B C : Type} (f : B -> list C) (g : A -> list B)
      (l : list A) :
  flat_map f (flat_map g l) = flat_map (fun a => flat_map f (g a)) l.
Proof.
  induction l as [|a l IH]; [reflexivity|].
  cbn [flat_map]. rewrite flat_map_app, IH. reflexivity.
Qed.

(** X11: the entries of a document are taken at any depth and in document
    order, entries inside an entry included: the datasets of a document are
    the dataset of its root, when the root is an entry that parses,
    followed by the datasets of each child in turn. *)
Theorem parse_odis_file_nested
        (fromstring : string -> result ET.Element) (xml_content : string)
        (t : string) (a : list (string * string)) (x : option string)
        (ch : list ET.Element) (tl : option string) :
  fromstring xml_content = Ok (ET.mkElement t a x ch tl) ->
  parse_odis_file fromstring xml_content
  = Ok ((if String.eqb t "PARAMETER_DATA"
         then match parse_entry (ET.mkElement t a x ch tl) with
              | Ok d => [d]
              | Raise _ => []
              end
         else [])
          ++ flat_map parsed_entries ch)%list.
Proof.
  intros H. unfold parse_odis_file. rewrite H, parse_loop_eq.
  cbn [ET.iter app]. rewrite flat_map_app, flat_map_flat_map.
  f_equal. f_equal.
  destruct (String.eqb t "PARAMETER_DATA"); [|reflexivity].
  cbn [flat_map]. rewrite app_nil_r.
  pose proof (parse_entry_cases (ET.mkElement t a x ch tl)) as Hc.
  destruct (entry_dataset (ET.mkElement t a x ch tl)).
  - rewrite Hc. reflexivity.
  - destruct Hc as [-> | ->]; reflexivity.
Qed.

Lemma parse_odis_file_nested_witness :
  sample_fromstring pair_document
  = Ok (ET.mkElement "ODIS" [] None [sample_entry; second_entry] None)
  /\ parse_odis_file sample_fromstring pair_document
     = Ok ([] ++ flat_map parsed_entries [sample_entry; second_entry])%list.
Proof.
  split; [reflexivity|].
  apply (parse_odis_file_nested sample_fromstring pair_document
           "ODIS" [] None [sample_entry; second_entry] None).
  reflexivity.
Defined.

(** ** The runs of the script *)

Lemma update_step_first (args : Namespace) (new_data : option bytes)
      (d : DatasetODIS) (rest : list DatasetODIS) :
  replacement args = Ok new_data ->
  exists new_crc,
    update_step args (d :: rest)
    = (Ok new_crc, updated_first new_data d :: rest).
Proof.
  unfold replacement, update_step, updated_first.
  destruct (modinput args) as [m|].
  - destruct (read m) as [b|e]; [|discriminate].
    intros H. injection H as <-. rewrite update_crc_eq. eauto.
  - intros H. injection H as <-. eauto.
Qed.


Lemma main_export (fromstring : string -> result ET.Element)
      (stem : string -> string) (fs : FileSystem) (args : Namespace)
      (xml_content : string) (new_data : option bytes)
      (d : DatasetODIS) (rest : list DatasetODIS) :
  read (input args) = Ok xml_content ->
  parse_odis_file fromstring xml_content = Ok (d :: rest) ->
  replacement args = Ok new_data ->
  exists new_crc,
    main fromstring stem fs args
    = match export_output stem fs
              (convert_to_vcp (updated_first new_data d :: rest)
                              (stem (fname (input args))))
              args (stem (fname (input args))) new_crc with
      | (Ok _, w) => (0, (arguments_open args ++ w)%list)
      | (Raise _, w) => (1, (arguments_open args ++ w)%list)
      end.
Proof.
  intros Hx Hp Hn.
  destruct (update_step_first args new_data d rest Hn) as (c & Hu).
  exists c. unfold main. rewrite Hx, Hp, Hu. reflexivity.
Qed.


(** X13: without [--modinput], on a file system that accepts every
    request, the first dataset is exported as it was parsed, and no other.
    With [--raw] and no [--output] its payload is written to
    [RAW_<input>.bin]; without [--raw] its serialization is written to the
    file of [--output] or to [VCP_converted_<input>.xml].  With [--raw] and
    [--output] nothing is written: the run ends with status 1 and leaves
    the file of [--output] opened and empty. *)
Theorem main_without_modinput
        (fromstring : string -> result ET.Element) (stem : string -> string)
        (fs : FileSystem) (args : Namespace) (xml_content : string)
        (d : DatasetODIS) (rest : list DatasetODIS) :
  read (input args) = Ok xml_content ->
  parse_odis_file fromstring xml_content = Ok (d :: rest) ->
  modinput args = None ->
  (forall f m, open_error fs f m = None) ->
  (forall o p, write_error fs o p = None) ->
  let input_name := stem (fname (input args)) in
  let text := Text (vcp (convert_dataset_to_vcp d input_name)) in
  main fromstring stem fs args
  = match raw args, output args with
    | true, Some path => (1, snd (FileType_w path))
    | true, None =>
        (0, [Opened ("RAW_" ++ input_name ++ ".bin") BinaryMode;
             Written ("RAW_" ++ input_name ++ ".bin") (Binary (data d))])
    | false, Some path =>
        (0, (snd (FileType_w path)
               ++ [Written (out_name (fst (FileType_w path))) text])%list)
    | false, None =>
        (0, [Opened ("VCP_converted_" ++ input_name ++ ".xml") TextMode;
             Written ("VCP_converted_" ++ input_name ++ ".xml") text])
    end.
Proof.
  intros Hx Hp Hm Ho Hw. cbv zeta.
  assert (Hn : replacement args = Ok None)
    by (unfold replacement; rewrite Hm; reflexivity).
  destruct (main_export fromstring stem fs args xml_content None
                        d rest Hx Hp Hn) as (c & ->).
  cbn [convert_to_vcp map]. rewrite export_output_first.
  cbv zeta. unfold default_output, updated_first, arguments_open.
  rewrite Hm. cbn [dataset vcp].
  destruct (output args) as [path|].
  - destruct (raw args).
    + rewrite app_nil_r. reflexivity.
    + rewrite Hw. reflexivity.
  - rewrite Ho, Hw. destruct (raw args); reflexivity.
Qed.

Lemma main_without_modinput_witness :
  read (input (plain_args None true)) = Ok pair_document
  /\ parse_odis_file sample_fromstring pair_document
     = Ok (sample_dataset :: [second_dataset])
  /\ modinput (plain_args None true) = None
  /\ (forall f m, open_error sample_fs f m = None)
  /\ (forall o p, write_error sample_fs o p = None)
  /\ main sample_fromstring sample_stem sample_fs (plain_args None true)
     = (0, [Opened "RAW_sample.bin" BinaryMode;
            Written "RAW_sample.bin" (Binary [x01; x02; x03; x04])]).
Proof.
  split; [reflexivity|]. split; [reflexivity|]. split; [reflexivity|].
  split; [intros; reflexivity|]. split; [intros; reflexivity|].
  apply (main_without_modinput sample_fromstring sample_stem sample_fs
           (plain_args None true) pair_document
           sample_dataset [second_dataset]);
    intros; reflexivity.
Defined.



(** X16: with [--modinput] on a document with a dataset, the update is
    applied to the first dataset only: the datasets after it are the ones
    parsed and are serialized from their own bytes.  Whatever the file
    system answers, a payload that the run writes is the one of the first
    conversion result, its text without [--raw] and the payload of its
    dataset with it; and without [--raw], on a file system that accepts
    every request, that text is written to the file of [--output] or to
    [VCP_mod_<input>_by_<modinput>.xml]. *)
Theorem main_updates_first_only
        (fromstring : string -> result ET.Element) (stem : string -> string)
        (fs : FileSystem) (args : Namespace) (xml_content : string)
        (m : InFile bytes) (new_data : bytes)
        (d : DatasetODIS) (rest : list DatasetODIS) :
  read (input args) = Ok xml_content ->
  parse_odis_file fromstring xml_content = Ok (d :: rest) ->
  modinput args = Some m ->
  read m = Ok new_data ->
  let input_name := stem (fname (input args)) in
  let d' := snd (update_crc d new_data) in
  let first := convert_dataset_to_vcp d' input_name in
  update_step args (d :: rest)
  = (Ok (Some (crc32 (Py.slice_to_neg new_data 4))), d' :: rest)
  /\ data d' = (Py.slice_to_neg new_data 4
                 ++ Py.le_bytes 4 (Z.to_N (crc32 (Py.slice_to_neg new_data 4))))%list
  /\ convert_to_vcp (d' :: rest) input_name
     = first :: map (fun x => convert_dataset_to_vcp x input_name) rest
  /\ (forall f p,
        In (Written f p) (snd (main fromstring stem fs args)) ->
        p = if raw args then Binary (data d') else Text (vcp first))
  /\ (raw args = false ->
      (forall f k, open_error fs f k = None) ->
      (forall o p, write_error fs o p = None) ->
      main fromstring stem fs args
      = (0, match output args with
            | Some path =>
                (snd (FileType_w path)
                   ++ [Written (out_name (fst (FileType_w path)))
                               (Text (vcp first))])%list
            | None =>
                let f := "VCP_mod_" ++ input_name ++ "_by_"
                           ++ stem (fname m) ++ ".xml" in
                [Opened f TextMode; Written f (Text (vcp first))]
            end)).
Proof.
  intros Hx Hp Hm Hd input_name d' first.
  split; [apply (update_step_modinput args m); assumption|].
  split; [unfold d'; rewrite update_crc_eq; reflexivity|].
  split; [reflexivity|].
  assert (Hn : replacement args = Ok (Some new_data))
    by (unfold replacement; rewrite Hm, Hd; reflexivity).
  destruct (main_export fromstring stem fs args xml_content (Some new_data)
                        d rest Hx Hp Hn) as (c & ->).
  cbn [convert_to_vcp map]. rewrite export_output_first.
  cbv zeta. unfold default_output, updated_first, arguments_open.
  rewrite Hm. fold input_name d' first. cbn [dataset vcp].
  split.
  - intros f p.
    assert (Hopen : forall path, ~ In (Written f p) (snd (FileType_w path))).
    { intros path. unfold FileType_w.
      destruct (String.eqb path "-"); cbn; intuition discriminate. }
    destruct (output args) as [path|].
    + destruct (raw args).
      * cbn [snd]. rewrite app_nil_r. intros H. destruct (Hopen _ H).
      * destruct (write_error fs _ _); cbn [snd]; rewrite ?app_nil_r;
          intros H; try (destruct (Hopen _ H)).
        apply in_app_or in H. destruct H as [H|H]; [destruct (Hopen _ H)|].
        destruct H as [H|[]]. injection H as _ <-. reflexivity.
    + destruct (open_error fs _ _); [intros []|].
      destruct (raw args);
        (destruct (write_error fs _ _); cbn [snd];
         [intros [H|[]]; discriminate H
         |intros [H|[H|[]]];
          [discriminate H | injection H as _ <-; reflexivity]]).
  - intros Hr Ho Hw. rewrite Hr.
    destruct (output args) as [path|].
    + rewrite Hw. reflexivity.
    + cbn [out_name out_mode]. rewrite Ho, Hw. reflexivity.
Qed.

Lemma main_updates_first_only_witness :
  read (input (sample_args false)) = Ok pair_document
  /\ parse_odis_file sample_fromstring pair_document
     = Ok (sample_dataset :: [second_dataset])
  /\ modinput (sample_args false)
     = Some (mkInFile "mod.bin" (Ok replacement_payload))
  /\ read (mkInFile "mod.bin" (Ok replacement_payload)) = Ok replacement_payload
  /\ update_step (sample_args false) (sample_dataset :: [second_dataset])
     = (Ok (Some (crc32 (Py.slice_to_neg replacement_payload 4))),
        snd (update_crc sample_dataset replacement_payload) :: [second_dataset])
  /\ data (snd (update_crc sample_dataset replacement_payload))
     = (Py.slice_to_neg replacement_payload 4
          ++ Py.le_bytes 4 (Z.to_N (crc32 (Py.slice_to_neg replacement_payload 4))))%list
  /\ convert_to_vcp
       (snd (update_crc sample_dataset replacement_payload) :: [second_dataset])
       "sample"
     = convert_dataset_to_vcp
         (snd (update_crc sample_dataset replacement_payload)) "sample"
       :: map (fun x => convert_dataset_to_vcp x "sample") [second_dataset]
  /\ (forall f p,
        In (Written f p)
           (snd (main sample_fromstring sample_stem sample_fs
                      (sample_args false))) ->
        p = Text (vcp (convert_dataset_to_vcp
                         (snd (update_crc sample_dataset replacement_payload))
                         "sample")))
  /\ (raw (sample_args false) = false ->
      (forall f k, open_error sample_fs f k = None) ->
      (forall o p, write_error sample_fs o p = None) ->
      main sample_fromstring sample_stem sample_fs (sample_args false)
      = (0, [Opened "VCP_mod_sample_by_mod.xml" TextMode;
             Written "VCP_mod_sample_by_mod.xml"
               (Text (vcp (convert_dataset_to_vcp
                             (snd (update_crc sample_dataset replacement_payload))
                             "sample")))])).
Proof.
  split; [reflexivity|]. split; [reflexivity|].
  split; [reflexivity|]. split; [reflexivity|].
  apply (main_updates_first_only sample_fromstring sample_stem sample_fs
           (sample_args false) pair_document
           (mkInFile "mod.bin" (Ok replacement_payload)) replacement_payload
           sample_dataset [second_dataset]); reflexivity.
Defined.

(** X15: [update_crc] reads neither the payload that the dataset had nor
    the last four bytes of the new data: two updates whose new data differ
    in their last four bytes only, on datasets that differ in their
    payload only, give the same result. *)
Theorem update_crc_reads_base_only
        (ds : DatasetODIS) (old : bytes) (base tail1 tail2 : bytes) :
  List.length tail1 = 4%nat ->
  List.length tail2 = 4%nat ->
  update_crc (set_data ds old) (base ++ tail1)%list
  = update_crc ds (base ++ tail2)%list.
Proof.
  intros H1 H2. rewrite !update_crc_eq.
  assert (E1 : Py.slice_to_neg (base ++ tail1)%list 4 = base)
    by (rewrite <- H1; apply slice_to_neg_app).
  assert (E2 : Py.slice_to_neg (base ++ tail2)%list 4 = base)
    by (rewrite <- H2; apply slice_to_neg_app).
  rewrite E1, E2. reflexivity.
Qed.

Lemma update_crc_reads_base_only_witness :
  List.length [x00; x00; x00; x00] = 4%nat
  /\ List.length [xff; xff; xff; xff] = 4%nat
  /\ update_crc (set_data sample_dataset [x99])
                ([x10; x20] ++ [x00; x00; x00; x00])%list
     = update_crc sample_dataset ([x10; x20] ++ [xff; xff; xff; xff])%list.
Proof.
  split; [reflexivity|]. split; [reflexivity|].
  apply (update_crc_reads_base_only sample_dataset [x99] [x10; x20]
           [x00; x00; x00; x00] [xff; xff; xff; xff]); reflexivity.
Defined.
